(** * The history image compactor and the image-id sanitizer

    A shallow embedding of
    - [fitness_manager_agent/callbacks.py]: [modify_image_data_in_history],
      the callback that runs before every model request and keeps inline
      image payloads only in the three most recent manual user turns;
    - [fitness_manager_agent/tools.py]: [sanitize_image_id], which strips
      the [[IMAGE-ID ...]] wrapper from a tool argument.

    Python values are modelled as follows.
    - [str] is a list of Unicode code points ([list N]); literals are
      written with [lit].
    - [bytes] is [list byte].
    - An optional attribute of a pydantic object is an [option].
    - The callback mutates [content.parts] in place and returns [None] or
      raises; it is modelled as a function from the history to the history
      it leaves behind together with the outcome of the call. The turns of
      a history are taken to be distinct objects, as the request builder
      makes them.

    The file has three parts: the program, the vocabulary of the
    statements, and the lemmas and theorems. *)

From Stdlib Require Import String Ascii.
From Stdlib Require Import DecimalString.
From Stdlib Require Import List ZArith NArith Bool Arith Lia.
From Stdlib Require Init.Byte.
Import ListNotations.

(** ** Python strings *)

Module Str.

Definition char := N.
Definition str := list char.

(** A literal; every character of a Rocq string is a code point below 256. *)
Definition lit (s : string) : str := map N_of_ascii (list_ascii_of_string s).

Definition eqb (a b : str) : bool :=
  if list_eq_dec N.eq_dec a b then true else false.

(** [s.startswith(prefix)] *)
Fixpoint startswith (s prefix : str) {struct prefix} : bool :=
  match prefix, s with
  | [], _ => true
  | _ :: _, [] => false
  | p :: prefix', c :: s' => N.eqb c p && startswith s' prefix'
  end.

(** [sub in s] *)
Fixpoint occurs (sub s : str) : bool :=
  startswith s sub ||
  match s with
  | [] => false
  | _ :: s' => occurs sub s'
  end.

(** [s.split(sep)] for a non-empty separator: the pieces between the
    non-overlapping occurrences of [sep], found from left to right.
    [skip] counts the characters of a separator still to be passed over,
    [cur] holds the current piece, reversed. *)
Fixpoint split_from (sep : str) (s : str) (skip : nat) (cur : str) : list str :=
  match s with
  | [] => [rev cur]
  | c :: s' =>
      match skip with
      | S k => split_from sep s' k cur
      | O =>
          if startswith s sep
          then rev cur :: split_from sep s' (length sep - 1) []
          else split_from sep s' 0 (c :: cur)
      end
  end.

Definition split (s sep : str) : list str := split_from sep s 0 [].

(** [c.isspace()]: the code points Python's [str.strip()] removes. *)
Definition isspace (c : char) : bool :=
  ((9 <=? c) && (c <=? 13) || (28 <=? c) && (c <=? 32)
   || (c =? 133) || (c =? 160) || (c =? 5760)
   || (8192 <=? c) && (c <=? 8202)
   || (c =? 8232) || (c =? 8233) || (c =? 8239) || (c =? 8287)
   || (c =? 12288))%N.

Fixpoint lstrip (s : str) : str :=
  match s with
  | [] => []
  | c :: s' => if isspace c then lstrip s' else s
  end.

Definition rstrip (s : str) : str := rev (lstrip (rev s)).

(** [s.strip()] *)
Definition strip (s : str) : str := rstrip (lstrip s).

End Str.

Import Str.

(** ** SHA-256 ([hashlib.sha256(data).hexdigest()])

    Words are integers in [0, 2^32); every operation that can leave that
    range is wrapped. *)

Module Sha256.

Local Open Scope Z_scope.

Definition wrap32 (x : Z) : Z := x mod 2 ^ 32.
Definition add32 (x y : Z) : Z := wrap32 (x + y).
Definition rotr (n x : Z) : Z :=
  Z.lor (Z.shiftr x n) (wrap32 (Z.shiftl x (32 - n))).
Definition not32 (x : Z) : Z := Z.lxor x (2 ^ 32 - 1).

Definition Ch (x y z : Z) : Z := Z.lxor (Z.land x y) (Z.land (not32 x) z).
Definition Maj (x y z : Z) : Z :=
  Z.lxor (Z.lxor (Z.land x y) (Z.land x z)) (Z.land y z).
Definition Sum0 (x : Z) : Z := Z.lxor (Z.lxor (rotr 2 x) (rotr 13 x)) (rotr 22 x).
Definition Sum1 (x : Z) : Z := Z.lxor (Z.lxor (rotr 6 x) (rotr 11 x)) (rotr 25 x).
Definition sig0 (x : Z) : Z := Z.lxor (Z.lxor (rotr 7 x) (rotr 18 x)) (Z.shiftr x 3).
Definition sig1 (x : Z) : Z := Z.lxor (Z.lxor (rotr 17 x) (rotr 19 x)) (Z.shiftr x 10).

(** Round constants: the first 32 bits of the fractional parts of the cube
    roots of the first 64 primes (0x428a2f98, 0x71374491, ...). *)
Definition round_constants : list Z :=
  [ 1116352408; 1899447441; 3049323471; 3921009573;
    961987163; 1508970993; 2453635748; 2870763221;
    3624381080; 310598401; 607225278; 1426881987;
    1925078388; 2162078206; 2614888103; 3248222580;
    3835390401; 4022224774; 264347078; 604807628;
    770255983; 1249150122; 1555081692; 1996064986;
    2554220882; 2821834349; 2952996808; 3210313671;
    3336571891; 3584528711; 113926993; 338241895;
    666307205; 773529912; 1294757372; 1396182291;
    1695183700; 1986661051; 2177026350; 2456956037;
    2730485921; 2820302411; 3259730800; 3345764771;
    3516065817; 3600352804; 4094571909; 275423344;
    430227734; 506948616; 659060556; 883997877;
    958139571; 1322822218; 1537002063; 1747873779;
    1955562222; 2024104815; 2227730452; 2361852424;
    2428436474; 2756734187; 3204031479; 3329325298 ].

(** The eight chaining words. *)
Record state := State {
  h0 : Z; h1 : Z; h2 : Z; h3 : Z; h4 : Z; h5 : Z; h6 : Z; h7 : Z }.

(** Initial value: square roots of the first 8 primes (0x6a09e667, ...). *)
Definition initial : state :=
  State 1779033703 3144134277 1013904242 2773480762
        1359893119 2600822924 528734635 1541459225.

Definition byte_val (b : Byte.byte) : Z := Z.of_N (Byte.to_N b).

(** Big-endian encoding of [x] on [n] bytes. *)
Fixpoint be_bytes (n : nat) (x : Z) : list Z :=
  match n with
  | O => []
  | S n' => (Z.shiftr x (8 * Z.of_nat n')) mod 256 :: be_bytes n' x
  end.

(** Message, then 0x80, then zeros up to 56 modulo 64, then the bit length
    on 8 bytes. *)
Definition pad (msg : list Byte.byte) : list Z :=
  let len := Z.of_nat (length msg) in
  map byte_val msg ++ 128 :: repeat 0 (Z.to_nat ((55 - len) mod 64))
    ++ be_bytes 8 (8 * len).

(** Big-endian 32-bit words of a byte sequence (a trailing partial word is
    dropped; a padded message has none). *)
Fixpoint words (bs : list Z) : list Z :=
  match bs with
  | a :: b :: c :: d :: rest =>
      (Z.shiftl a 24 + Z.shiftl b 16 + Z.shiftl c 8 + d) :: words rest
  | _ => []
  end.

(** The message schedule: [n] more words after the ones in [w]. *)
Fixpoint schedule (n : nat) (w : list Z) : list Z :=
  match n with
  | O => w
  | S n' =>
      let t := length w in
      let wt := add32 (add32 (sig1 (nth (t - 2) w 0)) (nth (t - 7) w 0))
                      (add32 (sig0 (nth (t - 15) w 0)) (nth (t - 16) w 0)) in
      schedule n' (w ++ [wt])
  end.

Definition round (s : state) (kw : Z * Z) : state :=
  let (k, w) := kw in
  let t1 := add32 (add32 (add32 (h7 s) (Sum1 (h4 s)))
                         (add32 (Ch (h4 s) (h5 s) (h6 s)) k)) w in
  let t2 := add32 (Sum0 (h0 s)) (Maj (h0 s) (h1 s) (h2 s)) in
  State (add32 t1 t2) (h0 s) (h1 s) (h2 s)
        (add32 (h3 s) t1) (h4 s) (h5 s) (h6 s).

(** One 16-word block folded into the chaining value. *)
Definition compress (s : state) (block : list Z) : state :=
  let r := fold_left round (combine round_constants (schedule 48 block)) s in
  State (add32 (h0 s) (h0 r)) (add32 (h1 s) (h1 r))
        (add32 (h2 s) (h2 r)) (add32 (h3 s) (h3 r))
        (add32 (h4 s) (h4 r)) (add32 (h5 s) (h5 r))
        (add32 (h6 s) (h6 r)) (add32 (h7 s) (h7 r)).

(** The blocks of a word sequence, [n] bounding their number. *)
Fixpoint blocks (n : nat) (ws : list Z) : list (list Z) :=
  match n, ws with
  | S n', _ :: _ => firstn 16 ws :: blocks n' (skipn 16 ws)
  | _, _ => []
  end.

Definition sha256 (msg : list Byte.byte) : state :=
  let ws := words (pad msg) in
  fold_left compress (blocks (length ws) ws) initial.

(** A hexadecimal digit, lower case. *)
Definition hexchar (d : Z) : char :=
  Z.to_N (if d <? 10 then 48 + d else 87 + d).

(** The 8 hexadecimal digits of a word, most significant first. *)
Definition hex8 (w : Z) : str :=
  [ hexchar (Z.shiftr w 28 mod 16); hexchar (Z.shiftr w 24 mod 16);
    hexchar (Z.shiftr w 20 mod 16); hexchar (Z.shiftr w 16 mod 16);
    hexchar (Z.shiftr w 12 mod 16); hexchar (Z.shiftr w 8 mod 16);
    hexchar (Z.shiftr w 4 mod 16); hexchar (w mod 16) ].

Definition hexdigest (s : state) : str :=
  hex8 (h0 s) ++ hex8 (h1 s) ++ hex8 (h2 s) ++ hex8 (h3 s)
    ++ hex8 (h4 s) ++ hex8 (h5 s) ++ hex8 (h6 s) ++ hex8 (h7 s).

Definition is_lower_hex (c : char) : bool :=
  ((48 <=? c) && (c <=? 57) || (97 <=? c) && (c <=? 102))%N.

End Sha256.

(** ** Exceptions *)

Inductive exn := IndexError | TypeError.

(** The value of an expression that may raise. *)
Inductive result (A : Type) :=
| Ok (a : A)
| Raise (e : exn).
Arguments Ok {A} a.
Arguments Raise {A} e.

(** How a call that returns [None] ends. *)
Inductive outcome := Returned | Raised (e : exn).

Definition on_ok {A B : Type} (f : A -> B) (r : result A) : result B :=
  match r with
  | Ok a => Ok (f a)
  | Raise e => Raise e
  end.

(** ** The request objects ([google.genai.types])

    Only the attributes the callback reads or writes are kept; the others
    travel with the object and are neither read nor written. *)

Definition bytes := list Byte.byte.

Record FunctionResponse := { fr_name : option str; fr_response : option str }.

Record Blob := { mime_type : option str; data : option bytes }.

Record Part := {
  text : option str;
  inline_data : option Blob;
  function_response : option FunctionResponse }.

Record Content := { role : option str; parts : option (list Part) }.

(** [types.Part(text=t)] *)
Definition text_part (t : str) : Part :=
  {| text := Some t; inline_data := None; function_response := None |}.

(** [content.parts = ps] *)
Definition set_parts (content : Content) (ps : list Part) : Content :=
  {| role := role content; parts := Some ps |}.

(** ** callbacks.py *)

Definition placeholder_prefix : str := lit "[IMAGE-ID ".

(** [hashlib.sha256(image_data).hexdigest()]; [None] has no buffer. *)
Definition sha256_hexdigest (image_data : option bytes) : result str :=
  match image_data with
  | Some b => Ok (Sha256.hexdigest (Sha256.sha256 b))
  | None => Raise TypeError
  end.

(** [hasher.hexdigest()[:12]] *)
Definition image_hash_id (b : bytes) : str :=
  firstn 12 (Sha256.hexdigest (Sha256.sha256 b)).

(** [f"[IMAGE-ID {image_hash_id}]"] *)
Definition placeholder_of (image_hash_id : str) : str :=
  placeholder_prefix ++ image_hash_id ++ lit "]".

(** Lines 35-39: the part after position [idx] is not a placeholder. *)
Definition is_placeholder_missing (parts : list Part) (idx : nat) : bool :=
  (length parts <=? idx + 1)
  || match nth_error parts (idx + 1) with
     | None => true
     | Some next =>
         match text next with
         | None => true
         | Some t => negb (startswith t placeholder_prefix)
         end
     end.

(** Lines 28-59: the loop over [enumerate(content.parts)]. [todo] are the
    parts from position [idx] on and [modified_content_parts] the list built
    so far. *)
Fixpoint parts_loop (user_message_count : nat) (parts : list Part)
    (idx : nat) (todo : list Part) (modified_content_parts : list Part)
    : result (list Part) :=
  match todo with
  | [] => Ok modified_content_parts
  | part :: todo' =>
      match inline_data part with
      | None =>
          parts_loop user_message_count parts (S idx) todo'
            (modified_content_parts ++ [part])
      | Some blob =>
          if is_placeholder_missing parts idx then
            match sha256_hexdigest (data blob) with
            | Raise e => Raise e
            | Ok digest =>
                let placeholder := placeholder_of (firstn 12 digest) in
                let kept :=
                  if user_message_count <=? 3
                  then modified_content_parts ++ [part]
                  else modified_content_parts in
                parts_loop user_message_count parts (S idx) todo'
                  (kept ++ [text_part placeholder])
            end
          else
            parts_loop user_message_count parts (S idx) todo'
              (if user_message_count <=? 3
               then modified_content_parts ++ [part]
               else modified_content_parts)
      end
  end.

(** [content.role == "user"] *)
Definition role_is_user (content : Content) : bool :=
  match role content with
  | Some r => Str.eqb r (lit "user")
  | None => false
  end.

(** Line 23: [(content.role == "user") and
    (content.parts[0].function_response is None)]. The subscript is only
    evaluated for a user turn; it raises on [None] and on the empty list. *)
Definition is_manual_user_query (content : Content) : result bool :=
  if role_is_user content then
    match parts content with
    | None => Raise TypeError
    | Some [] => Raise IndexError
    | Some (first :: _) =>
        Ok (match function_response first with None => true | Some _ => false end)
    end
  else Ok false.

(** Lines 21-62: the loop over [reversed(llm_request.contents)]; [todo] is
    the history from the most recent turn not yet visited back to the oldest.
    The turns are returned in the same order, as the loop leaves them: when
    an exception escapes, the turns visited before it keep their new parts
    and the others are untouched. *)
Fixpoint contents_loop (user_message_count : nat) (todo : list Content)
    : list Content * outcome :=
  match todo with
  | [] => ([], Returned)
  | content :: older =>
      match is_manual_user_query content with
      | Raise e => (todo, Raised e)
      | Ok false =>
          let (older', o) := contents_loop user_message_count older in
          (content :: older', o)
      | Ok true =>
          let user_message_count := S user_message_count in
          match parts content with
          | None => (todo, Raised TypeError)
          | Some ps =>
              match parts_loop user_message_count ps 0 ps [] with
              | Raise e => (todo, Raised e)
              | Ok modified_content_parts =>
                  let (older', o) := contents_loop user_message_count older in
                  (set_parts content modified_content_parts :: older', o)
              end
          end
      end
  end.

(** The callback, on [llm_request.contents] in chronological order. Every
    element of the list is an object of its own. *)
Definition modify_image_data_in_history (contents : list Content)
    : list Content * outcome :=
  let (visited, o) := contents_loop 0 (rev contents) in
  (rev visited, o).

(** ** tools.py *)

(** Lines 48-52. [split(...)[1]] raises when the separator does not occur. *)
Definition sanitize_image_id (image_id : str) : result str :=
  if startswith image_id (lit "[IMAGE-") then
    match nth_error (split image_id (lit "ID ")) 1 with
    | None => Raise IndexError
    | Some after =>
        match nth_error (split after (lit "]")) 0 with
        | None => Raise IndexError
        | Some inner => Ok (strip inner)
        end
    end
  else Ok (strip image_id).

(** *** The tools

    The document store, the clock, floating-point numbers, [json.dumps]
    and the [repr] of strings and containers lie outside the repository.
    A tool is a function of its arguments and of what the outside answers
    (the clock's reading, whether the store raises, the documents a query
    streams); it returns the calls it issued to the store together with
    its reply. The formatting functions of the outside are variables.
    Arguments have the types the signatures declare, except the two whose
    type decides what a tool does: the exercises of a workout plan and the
    tips of a form analysis are values of any type. *)

(** [sep.join(items)] *)
Fixpoint join (sep : str) (items : list str) : str :=
  match items with
  | [] => []
  | x :: rest =>
      match rest with
      | [] => x
      | _ :: _ => x ++ sep ++ join sep rest
      end
  end.

(** [s.replace(old, new)] for a non-empty [old] *)
Definition replace (s old new : str) : str := join new (split s old).

(** [str(n)] for an [int] *)
Definition str_of_int (z : Z) : str :=
  lit (NilZero.string_of_int (Z.to_int z)).

(** [s.upper()] on ASCII letters; the tools apply it to ['meal'], ['workout']
    and ['feedback'] only. *)
Definition upper (s : str) : str :=
  map (fun c => if ((97 <=? c) && (c <=? 122))%N then (c - 32)%N else c) s.

(** [bool(s)] for an optional string *)
Definition truthy (s : option str) : bool :=
  match s with
  | Some (_ :: _) => true
  | _ => false
  end.

(** [datetime.datetime.now(datetime.timezone.utc).isoformat()
    .replace("+00:00", "Z")], for the reading [now_iso] of [isoformat()]. *)
Definition utc_timestamp (now_iso : str) : str :=
  replace now_iso (lit "+00:00") (lit "Z").

Inductive collection := MEAL_LOGS | WORKOUT_PLANS | FORM_FEEDBACK.

(** What a tool answers: it returns [msg], or raises [Exception(msg)].
    [Unmodelled] stands for the behaviour this embedding does not cover
    (a format string outside the plain [{name}] fields, a subscript on a
    value that is no dict). *)
Inductive reply := Returns (msg : str) | Raises (msg : str) | Unmodelled.

(** The exceptions raised while a reply is put together. *)
Inductive py_error :=
| EValueError (msg : str)
| EKeyError (key : str)
| ETypeError (msg : str).

Inductive attempt (A : Type) :=
| Success (a : A)
| Error (e : py_error)
| Unsupported.
Arguments Success {A} a.
Arguments Error {A} e.
Arguments Unsupported {A}.

Definition MEAL_LOG_FORMAT : str := lit "
Date: {log_time}
Meal: {meal_type}
Total Calories: {calories} kcal
Protein: {protein_g}g | Carbs: {carbs_g}g | Fat: {fat_g}g
Details: {description}
".

Definition WORKOUT_PLAN_FORMAT : str := lit "
Date: {creation_time}
Goal: {goal}
Duration: {duration_min} minutes
Workout: {name}
Exercises: {exercises}
".

Definition FEEDBACK_FORMAT : str := lit "
Feedback Time: {analysis_time}
Exercise: {exercise_name}
Feedback: {main_feedback}
Tips: {correction_tips}".

Section Tools.

(** Python's [float], and [str(x)] for a float. *)
Variable float : Type.
Variable float_str : float -> str.

(** The values of a document and of a tool argument. *)
#[local] Unset Elimination Schemes.
Inductive value :=
| VNone
| VBool (b : bool)
| VInt (z : Z)
| VFloat (x : float)
| VStr (s : str)
| VList (items : list value)
| VDict (entries : list (str * value)).
#[local] Set Elimination Schemes.

(** A [dict] with string keys, in insertion order, no key twice. *)
Definition dict := list (str * value).

(** [d.get(k)] *)
Fixpoint dict_get (d : dict) (k : str) : option value :=
  match d with
  | [] => None
  | (k', v) :: d' => if Str.eqb k' k then Some v else dict_get d' k
  end.

(** [k in d] *)
Definition dict_has (d : dict) (k : str) : bool :=
  match dict_get d k with
  | Some _ => true
  | None => false
  end.

(** [d[k] = v] *)
Fixpoint dict_set (d : dict) (k : str) (v : value) : dict :=
  match d with
  | [] => [(k, v)]
  | (k', v') :: d' =>
      if Str.eqb k' k then (k, v) :: d' else (k', v') :: dict_set d' k v
  end.

(** [str(v)] for a list or a dict, [json.dumps(v, indent=2)], [repr(k)] for
    a string (the text of [KeyError(k)]), and the text of the [TypeError]
    that [", ".join(v)] raises. *)
Variable container_str : value -> str.
Variable json_dumps : value -> str.
Variable repr_str : str -> str.
Variable join_error : value -> str.

(** [str(v)], which is also [format(v, "")] *)
Definition py_str (v : value) : str :=
  match v with
  | VNone => lit "None"
  | VBool true => lit "True"
  | VBool false => lit "False"
  | VInt z => str_of_int z
  | VFloat x => float_str x
  | VStr s => s
  | VList _ | VDict _ => container_str v
  end.

(** [str(e)] *)
Definition error_str (e : py_error) : str :=
  match e with
  | EValueError msg => msg
  | EKeyError key => repr_str key
  | ETypeError msg => msg
  end.

(** The strings of a list when all its items are strings. *)
Fixpoint strings_of (items : list value) : option (list str) :=
  match items with
  | [] => Some []
  | VStr s :: rest =>
      match strings_of rest with
      | Some l => Some (s :: l)
      | None => None
      end
  | _ :: _ => None
  end.

(** [", ".join(v)]: over the items of a list, the characters of a string or
    the keys of a dict. *)
Definition join_value (v : value) : attempt str :=
  match v with
  | VList items =>
      match strings_of items with
      | Some l => Success (join (lit ", ") l)
      | None => Error (ETypeError (join_error v))
      end
  | VStr s => Success (join (lit ", ") (map (fun c => [c]) s))
  | VDict entries => Success (join (lit ", ") (map fst entries))
  | _ => Error (ETypeError (join_error v))
  end.

(** [format_str.format] on the keys of [data], for templates made of text, [{{], [}}] and
    plain [{name}] fields. The scanner is in the text, just after an
    opening brace, inside a field (its name so far reversed), or just
    after a closing brace. *)
Inductive scanning := InText | AfterOpen | InField (name : str) | AfterClose.

Definition special (c : char) : bool :=
  existsb (N.eqb c) (lit "{!:.[]").

Definition is_digit (c : char) : bool := ((48 <=? c) && (c <=? 57))%N.

Definition emit (s : str) (r : attempt str) : attempt str :=
  match r with
  | Success out => Success (s ++ out)
  | Error e => Error e
  | Unsupported => Unsupported
  end.

Fixpoint format_from (data : dict) (st : scanning) (template : str)
    : attempt str :=
  match template with
  | [] =>
      match st with
      | InText => Success []
      | AfterOpen => Error (EValueError (lit "Single '{' encountered in format string"))
      | InField _ => Error (EValueError (lit "expected '}' before end of string"))
      | AfterClose => Error (EValueError (lit "Single '}' encountered in format string"))
      end
  | c :: rest =>
      match st with
      | InText =>
          if N.eqb c 123 then format_from data AfterOpen rest
          else if N.eqb c 125 then format_from data AfterClose rest
          else emit [c] (format_from data InText rest)
      | AfterOpen =>
          if N.eqb c 123 then emit [c] (format_from data InText rest)
          else if special c || is_digit c || N.eqb c 125 then Unsupported
          else format_from data (InField [c]) rest
      | InField name =>
          if N.eqb c 125 then
            match dict_get data (rev name) with
            | Some v => emit (py_str v) (format_from data InText rest)
            | None => Error (EKeyError (rev name))
            end
          else if special c then Unsupported
          else format_from data (InField (c :: name)) rest
      | AfterClose =>
          if N.eqb c 125 then emit [c] (format_from data InText rest)
          else Error (EValueError (lit "Single '}' encountered in format string"))
      end
  end.

Definition format (template : str) (data : dict) : attempt str :=
  format_from data InText template.

(** A call [collection.add(doc)]. *)
Record write := { w_collection : collection; w_doc : dict }.

(** A query on [q_collection]: [q_field >= q_from], [q_field <= q_to],
    [limit(q_limit)], ordered by [q_field], descending. *)
Record query := {
  q_collection : collection;
  q_field : str;
  q_from : str;
  q_to : str;
  q_limit : Z }.

(** [collection.add(doc)], then [reply_ok], unless the store raises
    ([add_raises] is then the text of its exception). *)
Definition add_then (prefix : str) (c : collection) (doc : dict)
    (add_raises : option str) (reply_ok : reply) : list write * reply :=
  ([{| w_collection := c; w_doc := doc |}],
   match add_raises with
   | Some msg => Raises (prefix ++ msg)
   | None => reply_ok
   end).

Definition optional_str (s : option str) : value :=
  match s with
  | Some x => VStr x
  | None => VNone
  end.

(** Lines 54-106. *)
Definition log_meal_data (meal_type : str) (calories : Z)
    (protein_g carbs_g fat_g : float) (description : str)
    (image_id log_time : option str)
    (now_iso : str) (add_raises : option str) : list write * reply :=
  let prefix := lit "Failed to log meal data: " in
  let sanitized :=
    match image_id with
    | Some s => if truthy image_id then on_ok Some (sanitize_image_id s)
                else Ok image_id
    | None => Ok image_id
    end in
  match sanitized with
  | Raise IndexError => ([], Raises (prefix ++ lit "list index out of range"))
  | Raise TypeError => ([], Unmodelled)
  | Ok image_id =>
      let log_time :=
        match log_time with
        | Some t => if truthy log_time then t else utc_timestamp now_iso
        | None => utc_timestamp now_iso
        end in
      let doc :=
        [ (lit "meal_type", VStr meal_type);
          (lit "calories", VInt calories);
          (lit "protein_g", VFloat protein_g);
          (lit "carbs_g", VFloat carbs_g);
          (lit "fat_g", VFloat fat_g);
          (lit "description", VStr description);
          (lit "image_id", optional_str image_id);
          (lit "log_time", VStr log_time);
          (lit "user_id", VStr (lit "default_user")) ] in
      add_then prefix MEAL_LOGS doc add_raises
        (Returns (lit "Meal '" ++ description ++ lit "' (" ++ meal_type
                  ++ lit ") successfully logged. Nutrition: "
                  ++ str_of_int calories ++ lit " kcal, "
                  ++ float_str protein_g ++ lit "g P, "
                  ++ float_str carbs_g ++ lit "g C, "
                  ++ float_str fat_g ++ lit "g F."))
  end.

(** [isinstance(ex, dict) and 'name' in ex and 'sets' in ex] *)
Definition valid_exercise (ex : value) : bool :=
  match ex with
  | VDict d => dict_has d (lit "name") && dict_has d (lit "sets")
  | _ => false
  end.

(** [f"{ex['name']} ({ex['sets']} sets)"] *)
Definition exercise_line (ex : value) : attempt str :=
  match ex with
  | VDict d =>
      match dict_get d (lit "name") with
      | None => Error (EKeyError (lit "name"))
      | Some name =>
          match dict_get d (lit "sets") with
          | None => Error (EKeyError (lit "sets"))
          | Some sets =>
              Success (py_str name ++ lit " (" ++ py_str sets ++ lit " sets)")
          end
      end
  | _ => Unsupported
  end.

(** The list comprehension of line 148, left to right. *)
Fixpoint exercise_lines (exercises : list value) : attempt (list str) :=
  match exercises with
  | [] => Success []
  | ex :: rest =>
      match exercise_line ex with
      | Success line =>
          match exercise_lines rest with
          | Success lines => Success (line :: lines)
          | Error e => Error e
          | Unsupported => Unsupported
          end
      | Error e => Error e
      | Unsupported => Unsupported
      end
  end.

(** Lines 109-153. The summary is built after the document is added. *)
Definition create_workout_plan (name goal : str) (duration_min : Z)
    (exercises : list value)
    (now_iso : str) (add_raises : option str) : list write * reply :=
  let prefix := lit "Failed to create workout plan: " in
  if negb (forallb valid_exercise exercises) then
    ([], Raises (prefix ++ lit "Invalid exercises format. Must be a list of dicts with 'name' and 'sets'."))
  else
    let creation_time := utc_timestamp now_iso in
    let doc :=
      [ (lit "name", VStr name);
        (lit "goal", VStr goal);
        (lit "duration_min", VInt duration_min);
        (lit "exercises", VList exercises);
        (lit "creation_time", VStr creation_time);
        (lit "user_id", VStr (lit "default_user")) ] in
    add_then prefix WORKOUT_PLANS doc add_raises
      match exercise_lines exercises with
      | Success lines =>
          Returns (lit "Workout Plan '" ++ name
                   ++ lit "' successfully created and saved! Goal: " ++ goal
                   ++ lit ". Key exercises: " ++ join (lit ", ") lines ++ lit ".")
      | Error e => Raises (prefix ++ error_str e)
      | Unsupported => Unmodelled
      end.

(** Lines 156-192. [correction_tips] is stored as it is given: nothing
    checks that it is a list of strings, and line 190 joins it after the
    document has been added at line 187. *)
Definition analyze_form_and_store (image_id exercise_name main_feedback : str)
    (correction_tips : value)
    (now_iso : str) (add_raises : option str) : list write * reply :=
  let prefix := lit "Failed to store form analysis: " in
  match sanitize_image_id image_id with
  | Raise IndexError => ([], Raises (prefix ++ lit "list index out of range"))
  | Raise TypeError => ([], Unmodelled)
  | Ok image_id =>
      let doc :=
        [ (lit "image_id", VStr image_id);
          (lit "exercise_name", VStr exercise_name);
          (lit "main_feedback", VStr main_feedback);
          (lit "correction_tips", correction_tips);
          (lit "analysis_time", VStr (utc_timestamp now_iso));
          (lit "user_id", VStr (lit "default_user")) ] in
      add_then prefix FORM_FEEDBACK doc add_raises
        match join_value correction_tips with
        | Success tips =>
            Returns (lit "Form analysis for " ++ exercise_name
                     ++ lit " (Image ID: " ++ image_id
                     ++ lit ") logged. Main Feedback: " ++ main_feedback
                     ++ lit ". Tips: " ++ tips ++ lit ".")
        | Error e => Raises (prefix ++ error_str e)
        | Unsupported => Unmodelled
        end
  end.

(** Lines 247-255: what is appended to the description for one document. *)
Definition render (log_type format_str : str) (data : dict) : attempt str :=
  let data :=
    match dict_get data (lit "exercises") with
    | Some v =>
        if Str.eqb log_type (lit "workout")
        then dict_set data (lit "exercises") (VStr (json_dumps v))
        else data
    | None => data
    end in
  let joined :=
    match dict_get data (lit "correction_tips") with
    | Some v =>
        if Str.eqb log_type (lit "feedback")
        then match join_value v with
             | Success s => Success (dict_set data (lit "correction_tips") (VStr s))
             | Error e => Error e
             | Unsupported => Unsupported
             end
        else Success data
    | None => Success data
    end in
  match joined with
  | Success data =>
      match format format_str data with
      | Success text => Success (text ++ lit "
---
")
      | Error e => Error e
      | Unsupported => Unsupported
      end
  | Error e => Error e
  | Unsupported => Unsupported
  end.

(** The loop of lines 246-256 over the documents streamed. *)
Fixpoint render_all (log_type format_str : str) (docs : list dict)
    (description : str) : attempt str :=
  match docs with
  | [] => Success description
  | data :: rest =>
      match render log_type format_str data with
      | Success text => render_all log_type format_str rest (description ++ text)
      | Error e => Error e
      | Unsupported => Unsupported
      end
  end.

(** Lines 195-263. [stream] is what [query.stream()] gives: the documents,
    or the text of the exception the store raises. *)
Definition get_user_logs (start_date end_date log_type : str) (limit : Z)
    (stream : str + list dict) : list query * reply :=
  let prefix := lit "Error retrieving logs: " in
  let source :=
    if Str.eqb log_type (lit "meal")
    then Some (MEAL_LOGS, lit "log_time", MEAL_LOG_FORMAT)
    else if Str.eqb log_type (lit "workout")
    then Some (WORKOUT_PLANS, lit "creation_time", WORKOUT_PLAN_FORMAT)
    else if Str.eqb log_type (lit "feedback")
    then Some (FORM_FEEDBACK, lit "analysis_time", FEEDBACK_FORMAT)
    else None in
  match source with
  | None =>
      ([], Raises (prefix ++ lit "Invalid log_type. Must be 'meal', 'workout', or 'feedback'."))
  | Some (collection_ref, time_field, format_str) =>
      let q := {| q_collection := collection_ref;
                  q_field := time_field;
                  q_from := start_date ++ lit "T00:00:00.000000Z";
                  q_to := end_date ++ lit "T23:59:59.999999Z";
                  q_limit := limit |} in
      ([q],
       match stream with
       | inl msg => Raises (prefix ++ msg)
       | inr docs =>
           let header :=
             lit "**User " ++ upper log_type ++ lit " Logs (" ++ start_date
             ++ lit " to " ++ end_date ++ lit "):**
" in
           match render_all log_type format_str docs header with
           | Error e => Raises (prefix ++ error_str e)
           | Unsupported => Unmodelled
           | Success description =>
               match docs with
               | [] => Returns (lit "No " ++ log_type ++ lit " logs found between "
                                ++ start_date ++ lit " and " ++ end_date ++ lit ".")
               | _ :: _ => Returns description
               end
           end
       end)
  end.

End Tools.

Arguments VNone {float}.
Arguments VBool {float} b.
Arguments VInt {float} z.
Arguments VFloat {float} x.
Arguments VStr {float} s.
Arguments VList {float} items.
Arguments VDict {float} entries.
Arguments dict_get {float} d k.
Arguments dict_has {float} d k.
Arguments dict_set {float} d k v.
Arguments valid_exercise {float} ex.
Arguments strings_of {float} items.

(** * Vocabulary of the statements *)

(** ** The part loop, read structurally

    [parts[idx + 1]] is the head of the parts that follow the current one,
    and the test on the counter does not change within a turn. [compact] is
    the loop in that form; [parts_loop_whole] proves the two equal. *)

Definition next_is_placeholder (rest : list Part) : bool :=
  match rest with
  | next :: _ =>
      match text next with
      | Some t => startswith t placeholder_prefix
      | None => false
      end
  | [] => false
  end.

Fixpoint compact (keep : bool) (ps : list Part) : result (list Part) :=
  match ps with
  | [] => Ok []
  | part :: rest =>
      match inline_data part with
      | None => on_ok (cons part) (compact keep rest)
      | Some blob =>
          let image := if keep then [part] else [] in
          if next_is_placeholder rest then on_ok (app image) (compact keep rest)
          else
            match data blob with
            | None => Raise TypeError
            | Some b =>
                on_ok (fun out => image ++ text_part (placeholder_of (image_hash_id b)) :: out)
                      (compact keep rest)
            end
      end
  end.

(** What one part contributes to the new list, given the parts after it. *)
Definition block (keep : bool) (part : Part) (rest : list Part) : list Part :=
  match inline_data part with
  | None => [part]
  | Some blob =>
      (if keep then [part] else [])
      ++ (if next_is_placeholder rest then []
          else match data blob with
               | Some b => [text_part (placeholder_of (image_hash_id b))]
               | None => []
               end)
  end.

(** ** The new part list, as a relation

    [rewritten keep ps out]: [out] is [ps] gone over from left to right. A
    part without inline data stays. An image stays when [keep] holds and
    goes otherwise. Directly after the place of an image that carries the
    bytes [b] and that no placeholder follows comes one new part, the text
    ["[IMAGE-ID " + sha256(b).hexdigest()[:12] + "]"]. Nothing else is
    added, and an image without bytes that no placeholder follows has no
    rewriting. *)
Inductive rewritten (keep : bool) : list Part -> list Part -> Prop :=
| rewritten_nil : rewritten keep [] []
| rewritten_plain (p : Part) (rest out : list Part) :
    inline_data p = None ->
    rewritten keep rest out ->
    rewritten keep (p :: rest) (p :: out)
| rewritten_marked (p : Part) (blob : Blob) (rest out : list Part) :
    inline_data p = Some blob ->
    next_is_placeholder rest = true ->
    rewritten keep rest out ->
    rewritten keep (p :: rest) ((if keep then [p] else []) ++ out)
| rewritten_new (p : Part) (blob : Blob) (b : bytes) (rest out : list Part) :
    inline_data p = Some blob ->
    data blob = Some b ->
    next_is_placeholder rest = false ->
    rewritten keep rest out ->
    rewritten keep (p :: rest)
      ((if keep then [p] else [])
       ++ text_part (lit "[IMAGE-ID "
                     ++ firstn 12 (Sha256.hexdigest (Sha256.sha256 b))
                     ++ lit "]") :: out).

(** ** Parts *)

Definition has_inline (p : Part) : bool :=
  match inline_data p with
  | Some _ => true
  | None => false
  end.

(** A part whose text passes for a placeholder. *)
Definition looks_like_placeholder (p : Part) : bool :=
  match text p with
  | Some t => startswith t placeholder_prefix
  | None => false
  end.


(** The parts on which the loop raises nothing: an image without payload
    must already be followed by a placeholder. *)
Definition head_ok (part : Part) (rest : list Part) : bool :=
  match inline_data part with
  | None => true
  | Some blob =>
      next_is_placeholder rest
      || match data blob with Some _ => true | None => false end
  end.

Fixpoint parts_ok (ps : list Part) : bool :=
  match ps with
  | [] => true
  | part :: rest => head_ok part rest && parts_ok rest
  end.

(** Every image is directly followed by a part that passes for a
    placeholder. *)
Fixpoint all_marked (ps : list Part) : bool :=
  match ps with
  | [] => true
  | p :: rest => (negb (has_inline p) || next_is_placeholder rest) && all_marked rest
  end.

(** [l1] is [l2] with some elements left out, the order kept. *)
Inductive subseq {A : Type} : list A -> list A -> Prop :=
| subseq_nil : subseq [] []
| subseq_skip (x : A) (l1 l2 : list A) : subseq l1 l2 -> subseq l1 (x :: l2)
| subseq_take (x : A) (l1 l2 : list A) : subseq l1 l2 -> subseq (x :: l1) (x :: l2).

Definition no_inline (p : Part) : bool := negb (has_inline p).

(** What the turn [c] is blamed for when the callback raises [e] on it. *)
Definition blamed (c : Content) (e : exn) : Prop :=
  role_is_user c = true
  /\ match e with
     | IndexError => parts c = Some []
     | TypeError =>
         parts c = None
         \/ exists ps, parts c = Some ps
                       /\ is_manual_user_query c = Ok true
                       /\ parts_ok ps = false
     end.

(** ** Turns and histories *)

(** A turn the loop counts and rewrites. *)
Definition countable (content : Content) : bool :=
  match is_manual_user_query content with
  | Ok true => true
  | _ => false
  end.

Definition countable_count (l : list Content) : nat :=
  length (filter countable l).

(** The callback entered with the counter already at [cnt]. *)
Definition modify_from (cnt : nat) (contents : list Content)
    : list Content * outcome :=
  let (visited, o) := contents_loop cnt (rev contents) in
  (rev visited, o).

(** The turns on which the loop raises nothing: a user turn has a first
    part, and when that part is no function response its parts are
    [parts_ok]. *)
Definition turn_ok (content : Content) : bool :=
  if role_is_user content then
    match parts content with
    | Some (first :: rest) =>
        match function_response first with
        | Some _ => true
        | None => parts_ok (first :: rest)
        end
    | _ => false
    end
  else true.

Definition parts_of (c : Content) : list Part :=
  match parts c with
  | Some ps => ps
  | None => []
  end.


Definition retains_image (c : Content) : bool :=
  existsb has_inline (parts_of c).


(** The counted turns that still hold inline data. *)
Definition retaining (h : list Content) : list Content :=
  filter (fun c => countable c && retains_image c) h.

(** ** One image of a history *)

(** [p] is an image of the counted turn [c] of a history on which the
    callback returns; it comes after the parts [pre] and before the parts
    [post], carries the bytes [b], and no placeholder follows it. *)
Definition unmarked_image_at (older : list Content) (c : Content)
    (newer : list Content) (pre : list Part) (p : Part) (post : list Part)
    (b : bytes) : Prop :=
  snd (modify_image_data_in_history (older ++ c :: newer)) = Returned
  /\ is_manual_user_query c = Ok true
  /\ parts c = Some (pre ++ p :: post)
  /\ (exists blob, inline_data p = Some blob /\ data blob = Some b)
  /\ next_is_placeholder post = false.

(** On [older ++ c :: newer] the callback returns, and in the turn it
    leaves at the place of [c] the part [m] comes directly after the place
    of [p]: after what the loop makes of [pre], and after [p] itself where
    [p] is kept; what the loop makes of [post] follows. *)
Definition leaves_after (older : list Content) (c : Content)
    (newer : list Content) (pre : list Part) (p : Part) (post : list Part)
    (m : Part) : Prop :=
  exists older' newer' out_pre out_post,
    modify_image_data_in_history (older ++ c :: newer)
    = (older'
       ++ set_parts c (out_pre
                       ++ (if countable_count newer <? 3 then [p] else [])
                       ++ m :: out_post)
       :: newer', Returned)
    /\ length older' = length older
    /\ rewritten (countable_count newer <? 3) post out_post
    /\ (forall post2 out2,
          rewritten (countable_count newer <? 3) (p :: post2) out2 ->
          rewritten (countable_count newer <? 3) (pre ++ p :: post2)
                    (out_pre ++ out2)).

(** ** Strings *)

(** [sub] is a substring of [s]. *)
Definition contains (sub s : str) : Prop := exists a b, s = a ++ sub ++ b.

(** [s] neither starts nor ends with white space. *)
Definition trimmed (s : str) : Prop :=
  match hd_error s with Some c => isspace c = false | None => True end
  /\ match hd_error (rev s) with Some c => isspace c = false | None => True end.

(** ** Documents and collections *)

(** The [log_type] under which [get_user_logs] reads a collection, and the
    format string it lists it with. *)
Definition log_type_of (c : collection) : str :=
  match c with
  | MEAL_LOGS => lit "meal"
  | WORKOUT_PLANS => lit "workout"
  | FORM_FEEDBACK => lit "feedback"
  end.

Definition format_of (c : collection) : str :=
  match c with
  | MEAL_LOGS => MEAL_LOG_FORMAT
  | WORKOUT_PLANS => WORKOUT_PLAN_FORMAT
  | FORM_FEEDBACK => FEEDBACK_FORMAT
  end.

Section Written.

Variable float : Type.
Variable float_str : float -> str.
Variable container_str : value float -> str.
Variable repr_str : str -> str.
Variable join_error : value float -> str.

(** The document [d] is one a tool has passed to [add] on the collection
    [c]. *)
Definition written_into (c : collection) (d : dict float) : Prop :=
  (exists meal_type calories protein_g carbs_g fat_g description image_id
          log_time now_iso add_raises,
     In {| w_collection := c; w_doc := d |}
        (fst (log_meal_data float float_str meal_type calories protein_g
                carbs_g fat_g description image_id log_time now_iso add_raises)))
  \/ (exists name goal duration_min exercises now_iso add_raises,
        In {| w_collection := c; w_doc := d |}
           (fst (create_workout_plan float float_str container_str repr_str
                   name goal duration_min exercises now_iso add_raises)))
  \/ (exists image_id exercise_name main_feedback correction_tips now_iso
             add_raises,
        In {| w_collection := c; w_doc := d |}
           (fst (analyze_form_and_store float repr_str join_error image_id
                   exercise_name main_feedback correction_tips now_iso
                   add_raises))).

(** The document [d] is one a tool has passed to [add] on the collection
    [c] in a call that then returned. *)
Definition added_and_returned (c : collection) (d : dict float) : Prop :=
  (exists meal_type calories protein_g carbs_g fat_g description image_id
          log_time now_iso add_raises msg,
     log_meal_data float float_str meal_type calories protein_g carbs_g fat_g
       description image_id log_time now_iso add_raises
     = ([{| w_collection := c; w_doc := d |}], Returns msg))
  \/ (exists name goal duration_min exercises now_iso add_raises msg,
        create_workout_plan float float_str container_str repr_str
          name goal duration_min exercises now_iso add_raises
        = ([{| w_collection := c; w_doc := d |}], Returns msg))
  \/ (exists image_id exercise_name main_feedback correction_tips now_iso
             add_raises msg,
        analyze_form_and_store float repr_str join_error image_id
          exercise_name main_feedback correction_tips now_iso add_raises
        = ([{| w_collection := c; w_doc := d |}], Returns msg)).

End Written.

(** ** Scenarios *)

(** A [bytes] literal. *)
Definition bytes_lit (s : string) : list Byte.byte :=
  map byte_of_ascii (list_ascii_of_string s).

Definition image (s : string) : Part :=
  {| text := None;
     inline_data := Some {| mime_type := Some (lit "image/png");
                            data := Some (bytes_lit s) |};
     function_response := None |}.

Definition image_without_payload : Part :=
  {| text := None;
     inline_data := Some {| mime_type := Some (lit "image/png"); data := None |};
     function_response := None |}.

Definition tool_result : Part :=
  {| text := None; inline_data := None;
     function_response := Some {| fr_name := Some (lit "get_user_logs");
                                  fr_response := Some (lit "ok") |} |}.

(** The placeholder of an image of the scenarios. *)
Definition mark (payload : string) : Part :=
  text_part (placeholder_of (image_hash_id (bytes_lit payload))).

Definition user_turn (ps : list Part) : Content :=
  {| role := Some (lit "user"); parts := Some ps |}.

(** A manual query without image, one with a caption and an image, and a
    function response sent back with the user role, carrying an image. *)
Definition text_turn (s : string) : Content := user_turn [text_part (lit s)].

Definition photo_turn (caption payload : string) : Content :=
  user_turn [text_part (lit caption); image payload].

Definition tool_turn : Content := user_turn [tool_result; image "chart"].

Definition U1 : Content := photo_turn "breakfast" "img1".
Definition U2 : Content := photo_turn "lunch" "img2".
Definition U3 : Content := photo_turn "squat" "img3".
Definition U4 : Content := photo_turn "dinner" "img4".
Definition U5 : Content := photo_turn "plank" "img5".

(** Scenario A after the callback: the two oldest turns hold the
    placeholder in place of the image, the three most recent ones the image
    and its placeholder. *)
Definition scenario_A_compacted : list Content :=
  [ user_turn [text_part (lit "breakfast"); mark "img1"];
    user_turn [text_part (lit "lunch"); mark "img2"];
    user_turn [text_part (lit "squat"); image "img3"; mark "img3"];
    user_turn [text_part (lit "dinner"); image "img4"; mark "img4"];
    user_turn [text_part (lit "plank"); image "img5"; mark "img5"] ].

(** The outside of the tools in the scenarios: floats are whole numbers,
    containers print as a fixed text, [repr] puts a string in single
    quotes. *)
Definition scenario_container_str (v : value Z) : str := lit "[...]".
Definition scenario_json_dumps (v : value Z) : str := lit "[ ... ]".
Definition scenario_repr (k : str) : str := lit "'" ++ k ++ lit "'".
Definition scenario_join_error (v : value Z) : str :=
  lit "can only join an iterable".

(** A meal logged with a time of its own and no image, the document it
    adds, and a document that lacks the time. *)
Definition scenario_meal_doc : dict Z :=
  [ (lit "meal_type", VStr (lit "Lunch"));
    (lit "calories", VInt 520);
    (lit "protein_g", VFloat 30%Z);
    (lit "carbs_g", VFloat 45%Z);
    (lit "fat_g", VFloat 20%Z);
    (lit "description", VStr (lit "Chicken rice"));
    (lit "image_id", VNone);
    (lit "log_time", VStr (lit "2025-01-05T12:30:00.000000Z"));
    (lit "user_id", VStr (lit "default_user")) ].

Definition scenario_untimed_doc : dict Z :=
  [ (lit "meal_type", VStr (lit "Snack")) ].

(** Tips as declared, tips that are no strings, and the document a form
    analysis with the former adds. *)
Definition scenario_tips : value Z :=
  VList [VStr (lit "Brace"); VStr (lit "Knees out")].

Definition scenario_bad_tips : value Z := VList [VInt 1; VInt 2].

Definition scenario_feedback_doc : dict Z :=
  [ (lit "image_id", VStr (lit "ca978112ca1b"));
    (lit "exercise_name", VStr (lit "Squat"));
    (lit "main_feedback", VStr (lit "Good depth"));
    (lit "correction_tips", scenario_tips);
    (lit "analysis_time", VStr (lit "2025-01-06T08:00:00.000000Z"));
    (lit "user_id", VStr (lit "default_user")) ].

Definition scenario_squat : value Z :=
  VDict [ (lit "name", VStr (lit "Squat")); (lit "sets", VInt 5) ].

(** * Lemmas and theorems *)

(** ** SHA-256 test vectors (FIPS 180-4 examples and block boundaries) *)

Example sha256_abc :
  Sha256.hexdigest (Sha256.sha256 (bytes_lit "abc"))
  = lit "ba7816bf8f01cfea414140de5dae2223b00361a396177a9cb410ff61f20015ad".
Proof. vm_compute. reflexivity. Qed.

Example sha256_empty :
  Sha256.hexdigest (Sha256.sha256 [])
  = lit "e3b0c44298fc1c149afbf4c8996fb92427ae41e4649b934ca495991b7852b855".
Proof. vm_compute. reflexivity. Qed.

Example sha256_two_blocks :
  Sha256.hexdigest (Sha256.sha256
    (bytes_lit "abcdbcdecdefdefgefghfghighijhijkijkljklmklmnlmnomnopnopq"))
  = lit "248d6a61d20638b8e5c026930c3e6039a33ce45964ff2167f6ecedd419db06c1".
Proof. vm_compute. reflexivity. Qed.

Example sha256_55_bytes :
  Sha256.hexdigest (Sha256.sha256 (repeat Byte.x61 55))
  = lit "9f4390f8d30c2dd92ec9f095b65e2b9ae9b0a925a5258e241c9f1e910f734318".
Proof. vm_compute. reflexivity. Qed.

Example sha256_64_bytes :
  Sha256.hexdigest (Sha256.sha256 (repeat Byte.x61 64))
  = lit "ffe054fe7ae0cb6dc65c3af9b61d5209f439851db43d0ba5997337df154668eb".
Proof. vm_compute. reflexivity. Qed.

(** ** The part loop and its structural reading *)

Lemma on_ok_compose {A B C : Type} (f : A -> B) (g : B -> C) (r : result A) :
  on_ok g (on_ok f r) = on_ok (fun a => g (f a)) r.
Proof. destruct r; reflexivity. Qed.

Lemma on_ok_ext {A B : Type} (f g : A -> B) (r : result A) :
  (forall a, f a = g a) -> on_ok f r = on_ok g r.
Proof. intros E; destruct r; simpl; [rewrite E|]; reflexivity. Qed.

Lemma skipn_uncons {A : Type} (idx : nat) (all : list A) (p : A) (t : list A) :
  skipn idx all = p :: t ->
  skipn (S idx) all = t
  /\ nth_error all (idx + 1) = hd_error t
  /\ (length all <=? idx + 1) = match t with [] => true | _ :: _ => false end.
Proof.
  revert all; induction idx as [|idx IH]; intros all E.
  - simpl in E; subst all. destruct t; repeat split; reflexivity.
  - destruct all as [|a all']; [discriminate E|].
    simpl in E. destruct (IH all' E) as (E1 & E2 & E3).
    repeat split; assumption.
Qed.

Lemma missing_next (all : list Part) (idx : nat) (p : Part) (t : list Part) :
  skipn idx all = p :: t ->
  is_placeholder_missing all idx = negb (next_is_placeholder t).
Proof.
  intros E. destruct (skipn_uncons idx all _ _ E) as (_ & E2 & E3).
  unfold is_placeholder_missing. rewrite E2, E3.
  destruct t as [|q t']; simpl; [reflexivity|].
  destruct (text q); reflexivity.
Qed.

Lemma parts_loop_compact (cnt : nat) (all : list Part) :
  forall (todo : list Part) (idx : nat) (acc : list Part),
    skipn idx all = todo ->
    parts_loop cnt all idx todo acc = on_ok (app acc) (compact (cnt <=? 3) todo).
Proof.
  induction todo as [|part todo' IH]; intros idx acc E; simpl.
  - rewrite app_nil_r; reflexivity.
  - pose proof (missing_next all idx _ _ E) as M.
    destruct (skipn_uncons idx all _ _ E) as (E' & _).
    destruct (inline_data part) as [blob|].
    + rewrite M. destruct (next_is_placeholder todo'); simpl.
      * rewrite (IH (S idx) _ E'), on_ok_compose.
        apply on_ok_ext; intros out.
        destruct (cnt <=? 3); simpl; [rewrite <- app_assoc|]; reflexivity.
      * destruct (data blob) as [b|]; simpl; [|reflexivity].
        rewrite (IH (S idx) _ E'), on_ok_compose.
        apply on_ok_ext; intros out. unfold image_hash_id.
        destruct (cnt <=? 3); simpl; repeat rewrite <- app_assoc; reflexivity.
    + rewrite (IH (S idx) _ E'), on_ok_compose.
      apply on_ok_ext; intros out. rewrite <- app_assoc; reflexivity.
Qed.

Lemma parts_loop_whole (cnt : nat) (ps : list Part) :
  parts_loop cnt ps 0 ps [] = compact (cnt <=? 3) ps.
Proof.
  rewrite (parts_loop_compact cnt ps ps 0 [] eq_refl).
  destruct (compact (cnt <=? 3) ps); reflexivity.
Qed.

(** ** The loop over the turns *)

Lemma modify_is_modify_from (h : list Content) :
  modify_image_data_in_history h = modify_from 0 h.
Proof. reflexivity. Qed.

Lemma contents_loop_cons (cnt : nat) (c : Content) (older : list Content) :
  contents_loop cnt (c :: older) =
  match is_manual_user_query c with
  | Raise e => (c :: older, Raised e)
  | Ok false =>
      let (older', o) := contents_loop cnt older in (c :: older', o)
  | Ok true =>
      match parts c with
      | None => (c :: older, Raised TypeError)
      | Some ps =>
          match compact (S cnt <=? 3) ps with
          | Raise e => (c :: older, Raised e)
          | Ok out =>
              let (older', o) := contents_loop (S cnt) older in
              (set_parts c out :: older', o)
          end
      end
  end.
Proof.
  cbn [contents_loop].
  destruct (is_manual_user_query c) as [[|]|e]; try reflexivity.
  destruct (parts c) as [ps|]; [|reflexivity].
  rewrite parts_loop_whole. reflexivity.
Qed.

Lemma is_manual_parts (c : Content) :
  is_manual_user_query c = Ok true ->
  exists first rest, parts c = Some (first :: rest)
                     /\ function_response first = None
                     /\ role_is_user c = true.
Proof.
  unfold is_manual_user_query.
  destruct (role_is_user c); [|discriminate].
  destruct (parts c) as [[|first rest]|]; try discriminate.
  destruct (function_response first) eqn:F; [discriminate|].
  intros _. exists first, rest. auto.
Qed.

Lemma contents_loop_length (l : list Content) :
  forall cnt, length (fst (contents_loop cnt l)) = length l.
Proof.
  induction l as [|c l IH]; intros cnt; [reflexivity|].
  rewrite contents_loop_cons.
  destruct (is_manual_user_query c) as [[|]|e]; try reflexivity.
  - destruct (parts c) as [ps|]; [|reflexivity].
    destruct (compact (S cnt <=? 3) ps) as [out|e]; [|reflexivity].
    specialize (IH (S cnt)). destruct (contents_loop (S cnt) l); simpl in *.
    now rewrite IH.
  - specialize (IH cnt). destruct (contents_loop cnt l); simpl in *.
    now rewrite IH.
Qed.

Lemma countable_count_cons (c : Content) (l : list Content) :
  countable_count (c :: l) =
  (if countable c then 1 else 0) + countable_count l.
Proof. unfold countable_count; simpl. destruct (countable c); reflexivity. Qed.

Lemma countable_count_app (l1 l2 : list Content) :
  countable_count (l1 ++ l2) = countable_count l1 + countable_count l2.
Proof. unfold countable_count. now rewrite filter_app, length_app. Qed.

Lemma countable_count_rev (l : list Content) :
  countable_count (rev l) = countable_count l.
Proof.
  induction l as [|c l IH]; [reflexivity|]. simpl rev.
  rewrite countable_count_app, IH, !countable_count_cons.
  unfold countable_count at 2; simpl. lia.
Qed.

(** The loop over two stretches of turns: the second is entered with the
    counter the first one reached, or not at all. *)
Lemma contents_loop_app (l1 : list Content) :
  forall (cnt : nat) (l2 : list Content),
    contents_loop cnt (l1 ++ l2) =
    match contents_loop cnt l1 with
    | (r1, Returned) =>
        let (r2, o) := contents_loop (cnt + countable_count l1) l2 in
        (r1 ++ r2, o)
    | (r1, Raised e) => (r1 ++ l2, Raised e)
    end.
Proof.
  induction l1 as [|c l1 IH]; intros cnt l2.
  - simpl. rewrite Nat.add_0_r. now destruct (contents_loop cnt l2).
  - rewrite <- app_comm_cons, !contents_loop_cons, countable_count_cons.
    unfold countable.
    destruct (is_manual_user_query c) as [[|]|e]; try reflexivity.
    + destruct (parts c) as [ps|]; [|reflexivity].
      destruct (compact (S cnt <=? 3) ps) as [out|e]; [|reflexivity].
      rewrite IH. replace (cnt + (1 + countable_count l1))
        with (S cnt + countable_count l1) by lia.
      destruct (contents_loop (S cnt) l1) as [r1 [|e]]; [|reflexivity].
      now destruct (contents_loop (S cnt + countable_count l1) l2).
    + rewrite IH. simpl.
      destruct (contents_loop cnt l1) as [r1 [|e]]; [|reflexivity].
      now destruct (contents_loop (cnt + countable_count l1) l2).
Qed.

(** The same, in chronological order. *)
Lemma modify_from_app (cnt : nat) (older newer : list Content) :
  modify_from cnt (older ++ newer) =
  match modify_from cnt newer with
  | (newer', Returned) =>
      let (older', o) := modify_from (cnt + countable_count newer) older in
      (older' ++ newer', o)
  | (newer', Raised e) => (older ++ newer', Raised e)
  end.
Proof.
  unfold modify_from. rewrite rev_app_distr, contents_loop_app.
  rewrite countable_count_rev.
  destruct (contents_loop cnt (rev newer)) as [r1 [|e]].
  - destruct (contents_loop (cnt + countable_count newer) (rev older)) as [r2 o].
    now rewrite rev_app_distr.
  - now rewrite rev_app_distr, rev_involutive.
Qed.

Lemma modify_from_length (cnt : nat) (h : list Content) :
  length (fst (modify_from cnt h)) = length h.
Proof.
  unfold modify_from.
  pose proof (contents_loop_length (rev h) cnt) as L.
  destruct (contents_loop cnt (rev h)) as [v o]; simpl in *.
  now rewrite length_rev, L, length_rev.
Qed.

(** One turn. *)
Lemma modify_from_single (cnt : nat) (c : Content) :
  modify_from cnt [c] =
  match is_manual_user_query c with
  | Raise e => ([c], Raised e)
  | Ok false => ([c], Returned)
  | Ok true =>
      match parts c with
      | None => ([c], Raised TypeError)
      | Some ps =>
          match compact (S cnt <=? 3) ps with
          | Raise e => ([c], Raised e)
          | Ok out => ([set_parts c out], Returned)
          end
      end
  end.
Proof.
  unfold modify_from. simpl rev. rewrite contents_loop_cons.
  destruct (is_manual_user_query c) as [[|]|e]; try reflexivity.
  destruct (parts c) as [ps|]; [|reflexivity].
  destruct (compact (S cnt <=? 3) ps); reflexivity.
Qed.

(** ** Prefixes *)

Lemma startswith_app (p s : str) : startswith (p ++ s) p = true.
Proof.
  induction p as [|c p IH]; [now destruct s|].
  simpl. now rewrite N.eqb_refl, IH.
Qed.


(** ** Facts about one turn's parts *)

Lemma next_is_placeholder_hd (rest : list Part) :
  next_is_placeholder rest =
  match hd_error rest with
  | Some next => looks_like_placeholder next
  | None => false
  end.
Proof. destruct rest; reflexivity. Qed.

Lemma parts_ok_cons (p : Part) (rest : list Part) :
  parts_ok (p :: rest) = head_ok p rest && parts_ok rest.
Proof. reflexivity. Qed.

Lemma parts_ok_app (pre l : list Part) :
  parts_ok (pre ++ l) = true -> parts_ok l = true.
Proof.
  induction pre as [|a pre IH]; [auto|].
  rewrite <- app_comm_cons, parts_ok_cons.
  intros H. apply andb_true_iff in H as [_ H]. auto.
Qed.

(** One step of the loop: the part's [block], then the rest. *)
Lemma compact_cons (keep : bool) (p : Part) (rest : list Part) :
  compact keep (p :: rest) =
  if head_ok p rest
  then on_ok (app (block keep p rest)) (compact keep rest)
  else Raise TypeError.
Proof.
  cbn [compact]. unfold head_ok, block.
  destruct (inline_data p) as [blob|]; [|now destruct (compact keep rest)].
  cbv zeta. destruct (next_is_placeholder rest); cbn [orb].
  - destruct (compact keep rest); cbn [on_ok]; now rewrite ?app_nil_r.
  - destruct (data blob); [|reflexivity].
    destruct (compact keep rest); cbn [on_ok]; [|reflexivity].
    now rewrite <- app_assoc.
Qed.

Arguments compact : simpl never.
Arguments parts_ok : simpl never.

Lemma compact_cons_inv (keep : bool) (p : Part) (rest out : list Part) :
  compact keep (p :: rest) = Ok out ->
  exists out', compact keep rest = Ok out' /\ out = block keep p rest ++ out'.
Proof.
  rewrite compact_cons. destruct (head_ok p rest); [|discriminate].
  destruct (compact keep rest) as [out'|e]; [|discriminate].
  intros E. inversion E. now exists out'.
Qed.

(** Inverts [compact keep (p :: rest) = Ok out] in the goal's context. *)
Ltac compact_inv E out' E' :=
  match type of E with
  | compact ?keep (?p :: ?rest) = Ok ?out =>
      destruct (compact_cons_inv keep p rest out E) as (out' & E' & ->)
  end.

Lemma compact_ok (keep : bool) (ps : list Part) :
  parts_ok ps = true -> exists out, compact keep ps = Ok out.
Proof.
  induction ps as [|p rest IH]; [now exists []|].
  rewrite parts_ok_cons, compact_cons. intros H.
  apply andb_true_iff in H as [-> H]. destruct (IH H) as [out ->].
  cbn [on_ok]. eauto.
Qed.

Lemma compact_raises (keep : bool) (ps : list Part) :
  parts_ok ps = false -> compact keep ps = Raise TypeError.
Proof.
  induction ps as [|p rest IH]; [discriminate|].
  rewrite parts_ok_cons, compact_cons. intros H.
  destruct (head_ok p rest); [|reflexivity].
  now rewrite (IH H).
Qed.

Lemma compact_ok_inv (keep : bool) (ps out : list Part) :
  compact keep ps = Ok out -> parts_ok ps = true.
Proof.
  intros E. destruct (parts_ok ps) eqn:P; [reflexivity|].
  rewrite (compact_raises keep ps P) in E. discriminate.
Qed.

Lemma compact_cons_ok (keep : bool) (p : Part) (rest out' : list Part) :
  compact keep rest = Ok out' ->
  head_ok p rest = true ->
  compact keep (p :: rest) = Ok (block keep p rest ++ out').
Proof. intros E H. now rewrite compact_cons, H, E. Qed.

(** What a block holds. *)
Lemma block_text (keep : bool) (p : Part) (rest : list Part) :
  has_inline p = false -> block keep p rest = [p].
Proof.
  unfold has_inline, block. now destruct (inline_data p).
Qed.

Lemma block_kept (p : Part) (rest : list Part) :
  exists tail, block true p rest = p :: tail.
Proof.
  unfold block. destruct (inline_data p); [|now exists []]. cbn [app]. eauto.
Qed.

Lemma block_dropped (p : Part) (rest : list Part) :
  existsb has_inline (block false p rest) = false.
Proof.
  unfold block. destruct (inline_data p) as [blob|] eqn:I.
  - cbn [app]. destruct (next_is_placeholder rest); [reflexivity|].
    now destruct (data blob).
  - cbn [existsb]. unfold has_inline. now rewrite I.
Qed.

(** Parts without inline data are copied. *)
Lemma compact_copies (keep : bool) (pre rest : list Part) :
  existsb has_inline pre = false ->
  compact keep (pre ++ rest) = on_ok (app pre) (compact keep rest).
Proof.
  induction pre as [|p pre IH]; cbn [existsb app]; intros H.
  - now destruct (compact keep rest).
  - apply orb_false_iff in H as [H1 H2].
    rewrite compact_cons, (block_text keep p _ H1), (IH H2), on_ok_compose.
    unfold head_ok. unfold has_inline in H1.
    destruct (inline_data p); [discriminate|]. now apply on_ok_ext.
Qed.

Lemma compact_no_inline (keep : bool) (ps : list Part) :
  existsb has_inline ps = false -> compact keep ps = Ok ps.
Proof.
  intros H. pose proof (compact_copies keep ps [] H) as E.
  rewrite app_nil_r in E. rewrite E.
  change (compact keep []) with (Ok (@nil Part)). cbn [on_ok].
  now rewrite app_nil_r.
Qed.

(** Above the threshold no inline data is left. *)
Lemma compact_drops (ps : list Part) :
  forall out, compact false ps = Ok out -> existsb has_inline out = false.
Proof.
  induction ps as [|p rest IH]; intros out E; [now inversion E|].
  compact_inv E out' E'.
  now rewrite existsb_app, block_dropped, (IH out' E').
Qed.

(** Within the threshold every part stays, in order, and the first part
    stays first. *)
Lemma compact_keeps_head (ps : list Part) :
  forall out, compact true ps = Ok out -> hd_error out = hd_error ps.
Proof.
  destruct ps as [|p rest]; intros out E; [now inversion E|].
  compact_inv E out' E'. now destruct (block_kept p rest) as [tail ->].
Qed.

Lemma compact_keeps (ps : list Part) :
  forall out p, compact true ps = Ok out -> In p ps -> In p out.
Proof.
  induction ps as [|q rest IH]; intros out p E H; [contradiction|].
  compact_inv E out' E'. apply in_or_app. destruct H as [<-|H].
  - left. destruct (block_kept q rest) as [tail ->]. now left.
  - right. eauto.
Qed.


(** A non-empty turn stays non-empty. *)
Lemma compact_nonempty (keep : bool) (ps : list Part) :
  forall out, compact keep ps = Ok out -> ps <> [] -> out <> [].
Proof.
  induction ps as [|p rest IH]; intros out E N; [contradiction|].
  pose proof (compact_ok_inv _ _ _ E) as K.
  rewrite parts_ok_cons in K. apply andb_true_iff in K as [K _].
  compact_inv E out' E'. unfold block, head_ok in *.
  destruct (inline_data p) as [blob|]; [|discriminate].
  destruct keep; [discriminate|]. cbn [app].
  destruct (next_is_placeholder rest) eqn:P.
  - destruct rest as [|q rest']; [discriminate P|].
    apply (IH out' E'). discriminate.
  - cbn [orb] in K. destruct (data blob); discriminate.
Qed.

(** A second pass over a turn's parts, with the same test on the counter,
    changes nothing: every image kept is now followed by a placeholder, and
    the others are gone. *)
Lemma compact_idempotent (keep : bool) (ps : list Part) :
  forall out, compact keep ps = Ok out -> compact keep out = Ok out.
Proof.
  induction ps as [|p rest IH]; intros out E; [now inversion E|].
  pose proof (compact_ok_inv _ _ _ E) as K.
  rewrite parts_ok_cons in K. apply andb_true_iff in K as [K _].
  compact_inv E out' E'. specialize (IH out' E').
  unfold block, head_ok in *.
  destruct (inline_data p) as [blob|] eqn:I.
  - destruct (next_is_placeholder rest) eqn:P; cbn [orb] in K.
    + rewrite app_nil_r. destruct keep; [|exact IH]. cbn [app].
      assert (head_ok p out' = true) as H.
      { unfold head_ok. rewrite I, next_is_placeholder_hd.
        rewrite (compact_keeps_head rest out' E'), <- next_is_placeholder_hd.
        now rewrite P. }
      rewrite (compact_cons_ok true p out' out' IH H). unfold block.
      rewrite I, next_is_placeholder_hd.
      rewrite (compact_keeps_head rest out' E'), <- next_is_placeholder_hd.
      now rewrite P, app_nil_r.
    + destruct (data blob) as [b|]; [|discriminate K].
      assert (compact keep (text_part (placeholder_of (image_hash_id b)) :: out')
              = Ok (text_part (placeholder_of (image_hash_id b)) :: out')) as T
        by (now rewrite compact_cons, IH).
      destruct keep; cbn [app]; [|exact T].
      assert (head_ok p (text_part (placeholder_of (image_hash_id b)) :: out')
              = true) as H.
      { unfold head_ok. rewrite I. cbn [next_is_placeholder text text_part].
        unfold placeholder_of. now rewrite startswith_app. }
      rewrite (compact_cons_ok true p _ _ T H). unfold block.
      rewrite I. cbn [next_is_placeholder text text_part].
      unfold placeholder_of. now rewrite startswith_app.
  - cbn [app]. rewrite compact_cons, IH. unfold head_ok, block.
    now rewrite I.
Qed.

(** Every part of the new list is a part of the old one or the placeholder
    made from the bytes of one of its images. *)
Lemma compact_origin (keep : bool) (ps : list Part) :
  forall out q, compact keep ps = Ok out -> In q out ->
    In q ps
    \/ exists p blob b,
         In p ps /\ inline_data p = Some blob /\ data blob = Some b
         /\ q = text_part (placeholder_of (image_hash_id b)).
Proof.
  induction ps as [|p rest IH]; intros out q E H.
  - inversion E; subst. contradiction.
  - compact_inv E out' E'. apply in_app_or in H as [H|H].
    + unfold block in H. destruct (inline_data p) as [blob|] eqn:I.
      * apply in_app_or in H as [H|H].
        -- destruct keep; [|contradiction]. destruct H as [<-|[]].
           left; now left.
        -- destruct (next_is_placeholder rest); [contradiction|].
           destruct (data blob) as [b|] eqn:D; [|contradiction].
           destruct H as [<-|[]]. right. exists p, blob, b.
           repeat split; auto. now left.
      * destruct H as [<-|[]]. left; now left.
    + destruct (IH out' q E' H) as [K|(p' & blob & b & K1 & K2)].
      * left; now right.
      * right. exists p', blob, b. split; [now right|exact K2].
Qed.


(** What the parts before a given one contribute does not depend on what
    comes after it. *)
Lemma compact_prefix (keep : bool) (pre : list Part) (p : Part) :
  forall post out,
    compact keep (pre ++ p :: post) = Ok out ->
    exists out_pre out_post,
      compact keep post = Ok out_post
      /\ out = out_pre ++ block keep p post ++ out_post
      /\ forall post2 out2,
           compact keep (p :: post2) = Ok out2 ->
           compact keep (pre ++ p :: post2) = Ok (out_pre ++ out2).
Proof.
  induction pre as [|a pre IH]; intros post out E.
  - cbn [app] in E. compact_inv E out' E'. exists [], out'. repeat split; auto.
  - rewrite <- app_comm_cons in E.
    pose proof (compact_ok_inv _ _ _ E) as Q.
    rewrite parts_ok_cons in Q. apply andb_true_iff in Q as [Q _].
    compact_inv E out' E'.
    destruct (IH post out' E') as (out_pre & out_post & K1 & -> & K3).
    exists (block keep a (pre ++ p :: post) ++ out_pre), out_post.
    split; [exact K1|]. split; [now rewrite <- app_assoc|].
    intros post2 out2 E2. rewrite <- app_comm_cons, <- app_assoc.
    assert (block keep a (pre ++ p :: post) = block keep a (pre ++ p :: post2))
      as -> by (unfold block; now destruct pre).
    apply compact_cons_ok; [now apply K3|].
    unfold head_ok in *.
    replace (next_is_placeholder (pre ++ p :: post2))
      with (next_is_placeholder (pre ++ p :: post)) by now destruct pre.
    exact Q.
Qed.

(** The loop and the relation agree. *)
Lemma compact_rewritten (keep : bool) (ps : list Part) :
  forall out, compact keep ps = Ok out -> rewritten keep ps out.
Proof.
  induction ps as [|p rest IH]; intros out E.
  - inversion E. constructor.
  - pose proof (compact_ok_inv _ _ _ E) as K.
    rewrite parts_ok_cons in K. apply andb_true_iff in K as [K _].
    compact_inv E out' E'. specialize (IH out' E').
    unfold block, head_ok in *.
    destruct (inline_data p) as [blob|] eqn:I.
    + destruct (next_is_placeholder rest) eqn:N; cbn [orb] in K.
      * rewrite app_nil_r. now apply (rewritten_marked keep p blob).
      * destruct (data blob) as [b|] eqn:D; [|discriminate K].
        rewrite <- app_assoc. cbn [app].
        now apply (rewritten_new keep p blob b).
    + cbn [app]. now apply rewritten_plain.
Qed.

Lemma rewritten_compact (keep : bool) (ps out : list Part) :
  rewritten keep ps out -> compact keep ps = Ok out.
Proof.
  induction 1 as [|p rest out I _ IH|p blob rest out I N _ IH
                  |p blob b rest out I D N _ IH].
  - reflexivity.
  - rewrite compact_cons, IH. unfold head_ok, block. now rewrite I.
  - rewrite compact_cons, IH. unfold head_ok, block. rewrite I, N.
    cbn [orb on_ok]. now rewrite app_nil_r.
  - rewrite compact_cons, IH. unfold head_ok, block. rewrite I, N, D.
    cbn [orb on_ok]. now rewrite <- app_assoc.
Qed.

(** ** Facts about the loop over the turns *)

Lemma contents_loop_outcome (l : list Content) :
  forall cnt, snd (contents_loop cnt l) = Returned <-> forallb turn_ok l = true.
Proof.
  induction l as [|c l IH]; intros cnt; [simpl; tauto|].
  rewrite contents_loop_cons. cbn [forallb]. rewrite andb_true_iff.
  unfold is_manual_user_query. unfold turn_ok at 1.
  destruct (role_is_user c).
  - destruct (parts c) as [[|first rest]|];
      try (cbn [snd]; split; [discriminate|intros [? _]; discriminate]).
    destruct (function_response first).
    + specialize (IH cnt). destruct (contents_loop cnt l); simpl in *. tauto.
    + destruct (parts_ok (first :: rest)) eqn:P.
      * destruct (compact_ok (S cnt <=? 3) _ P) as [out ->].
        specialize (IH (S cnt)).
        destruct (contents_loop (S cnt) l); simpl in *. tauto.
      * rewrite (compact_raises _ _ P). simpl.
        split; [discriminate|intros [? _]; discriminate].
  - specialize (IH cnt). destruct (contents_loop cnt l); simpl in *. tauto.
Qed.

Lemma forallb_rev {A : Type} (f : A -> bool) (l : list A) :
  forallb f (rev l) = forallb f l.
Proof.
  induction l as [|a l IH]; [reflexivity|].
  simpl. rewrite forallb_app, IH. simpl. rewrite andb_true_r. apply andb_comm.
Qed.

Lemma modify_from_outcome (cnt : nat) (h : list Content) :
  snd (modify_from cnt h) = Returned <-> forallb turn_ok h = true.
Proof.
  unfold modify_from. rewrite <- (forallb_rev turn_ok h).
  rewrite <- (contents_loop_outcome (rev h) cnt).
  now destruct (contents_loop cnt (rev h)).
Qed.

Lemma modify_from_returns (cnt : nat) (h : list Content) :
  forallb turn_ok h = true ->
  exists h', modify_from cnt h = (h', Returned).
Proof.
  intros H. apply (modify_from_outcome cnt) in H.
  destruct (modify_from cnt h) as [h' o]. simpl in H. subst o. now exists h'.
Qed.

(** Beyond the third counted turn the counter no longer matters. *)
Lemma contents_loop_past_three (l : list Content) :
  forall cnt cnt', 3 <= cnt -> 3 <= cnt' ->
    contents_loop cnt l = contents_loop cnt' l.
Proof.
  induction l as [|c l IH]; intros cnt cnt' H H'; [reflexivity|].
  rewrite !contents_loop_cons.
  destruct (is_manual_user_query c) as [[|]|e]; try reflexivity.
  - destruct (parts c) as [ps|]; [|reflexivity].
    replace (S cnt <=? 3) with false by (symmetry; apply Nat.leb_gt; lia).
    replace (S cnt' <=? 3) with false by (symmetry; apply Nat.leb_gt; lia).
    destruct (compact false ps); [|reflexivity].
    now rewrite (IH (S cnt) (S cnt')) by lia.
  - now rewrite (IH cnt cnt').
Qed.

(** A second pass of the loop, entered with the same counter, finds
    nothing to change and ends the same way. *)
Lemma contents_loop_idempotent (l : list Content) :
  forall cnt,
    contents_loop cnt (fst (contents_loop cnt l)) = contents_loop cnt l.
Proof.
  induction l as [|c l IH]; intros cnt; [reflexivity|].
  rewrite contents_loop_cons.
  destruct (is_manual_user_query c) as [[|]|e] eqn:M.
  - destruct (is_manual_parts c M) as (first & rest & P & F & U).
    rewrite P.
    destruct (compact (S cnt <=? 3) (first :: rest)) as [out|e] eqn:C.
    2:{ cbn [fst]. now rewrite contents_loop_cons, M, P, C. }
    specialize (IH (S cnt)).
    destruct (contents_loop (S cnt) l) as [older' o] eqn:L.
    cbn [fst] in IH |- *.
    rewrite contents_loop_cons.
    assert (out <> []) as N by (eapply compact_nonempty; eauto; discriminate).
    destruct out as [|q out_t]; [contradiction|].
    assert (role_is_user (set_parts c (q :: out_t)) = true) as U' by exact U.
    unfold is_manual_user_query. rewrite U'. cbn [parts set_parts].
    destruct (function_response q) eqn:Fq.
    + assert ((S cnt <=? 3) = false) as K.
      { destruct (S cnt <=? 3) eqn:K; [|reflexivity].
        apply compact_keeps_head in C. cbn [hd_error] in C.
        inversion C; subst. congruence. }
      apply Nat.leb_gt in K.
      rewrite (contents_loop_past_three older' cnt (S cnt)) by lia.
      now rewrite IH.
    + rewrite (compact_idempotent _ _ _ C), IH. reflexivity.
  - specialize (IH cnt). destruct (contents_loop cnt l) as [older' o].
    cbn [fst] in IH |- *. now rewrite contents_loop_cons, M, IH.
  - cbn [fst]. now rewrite contents_loop_cons, M.
Qed.

(** The turn at a given place of the history. *)
Lemma modify_from_split (cnt : nat) (older : list Content) (c : Content)
    (newer : list Content) :
  modify_from cnt (older ++ c :: newer) =
  match modify_from cnt newer with
  | (newer', Raised e) => (older ++ c :: newer', Raised e)
  | (newer', Returned) =>
      match modify_from (cnt + countable_count newer) [c] with
      | (cs, Raised e) => (older ++ cs ++ newer', Raised e)
      | (cs, Returned) =>
          let (older', o) :=
            modify_from (cnt + countable_count newer + countable_count [c])
                        older in
          (older' ++ cs ++ newer', o)
      end
  end.
Proof.
  change (c :: newer) with ([c] ++ newer).
  rewrite modify_from_app, (modify_from_app cnt [c] newer).
  destruct (modify_from cnt newer) as [newer' [|e]]; [|reflexivity].
  destruct (modify_from (cnt + countable_count newer) [c]) as [cs [|e]];
    [|reflexivity].
  rewrite countable_count_app.
  replace (cnt + (countable_count [c] + countable_count newer))
    with (cnt + countable_count newer + countable_count [c]) by lia.
  reflexivity.
Qed.

(** What the callback leaves at a given place of the history: the turn
    itself, or the turn with its parts compacted under the test
    [1 + (counted turns after it) <= 3]. *)
Lemma modify_from_turn (cnt : nat) (older : list Content) (c : Content)
    (newer : list Content) :
  exists older' c' newer' o,
    modify_from cnt (older ++ c :: newer) = (older' ++ c' :: newer', o)
    /\ length older' = length older
    /\ newer' = fst (modify_from cnt newer)
    /\ (c' = c
        \/ exists ps out,
             is_manual_user_query c = Ok true /\ parts c = Some ps
             /\ compact (S (cnt + countable_count newer) <=? 3) ps = Ok out
             /\ c' = set_parts c out)
    /\ (o = Returned -> is_manual_user_query c = Ok true ->
        older' = fst (modify_from (S (cnt + countable_count newer)) older))
    /\ (o = Returned -> is_manual_user_query c = Ok true ->
        exists ps out,
          parts c = Some ps
          /\ compact (S (cnt + countable_count newer) <=? 3) ps = Ok out
          /\ c' = set_parts c out).
Proof.
  rewrite modify_from_split.
  destruct (modify_from cnt newer) as [newer' [|e]] eqn:N.
  2:{ exists older, c, newer', (Raised e). cbn [fst].
      repeat split; auto; discriminate. }
  rewrite modify_from_single. cbn [fst].
  destruct (is_manual_user_query c) as [[|]|e] eqn:M.
  - destruct (is_manual_parts c M) as (first & rest & P & _).
    rewrite P.
    destruct (compact (S (cnt + countable_count newer) <=? 3) (first :: rest))
      as [out|e] eqn:C.
    + pose proof (modify_from_length
        (cnt + countable_count newer + countable_count [c]) older) as L.
      assert (countable_count [c] = 1) as K
        by (unfold countable_count, countable; simpl; now rewrite M).
      rewrite K in *.
      replace (cnt + countable_count newer + 1)
        with (S (cnt + countable_count newer)) in * by lia.
      destruct (modify_from (S (cnt + countable_count newer)) older)
        as [older' o].
      exists older', (set_parts c out), newer', o. cbn [fst] in *.
      repeat split; eauto.
      right. exists (first :: rest), out. auto.
    + exists older, c, newer', (Raised e).
      repeat split; auto; discriminate.
  - pose proof (modify_from_length
      (cnt + countable_count newer + countable_count [c]) older) as L.
    destruct (modify_from (cnt + countable_count newer + countable_count [c])
                older) as [older' o].
    exists older', c, newer', o. cbn [fst] in *.
    repeat split; auto; discriminate.
  - exists older, c, newer', (Raised e).
    repeat split; auto; discriminate.
Qed.

Lemma nth_error_middle {A : Type} (l1 : list A) (a : A) (l2 : list A) (n : nat) :
  length l1 = n -> nth_error (l1 ++ a :: l2) n = Some a.
Proof.
  intros <-. rewrite nth_error_app2 by lia. now rewrite Nat.sub_diag.
Qed.

(** ** Where the loop stops when it raises *)

Lemma compact_raise_inv (keep : bool) (ps : list Part) (e : exn) :
  compact keep ps = Raise e -> e = TypeError /\ parts_ok ps = false.
Proof.
  intros E. destruct (parts_ok ps) eqn:P.
  - destruct (compact_ok keep ps P) as [out K]. congruence.
  - rewrite (compact_raises keep ps P) in E. now inversion E.
Qed.

Lemma contents_loop_raised (l : list Content) :
  forall cnt e, snd (contents_loop cnt l) = Raised e ->
    exists newer c older newer',
      l = newer ++ c :: older
      /\ contents_loop cnt newer = (newer', Returned)
      /\ fst (contents_loop cnt l) = newer' ++ c :: older
      /\ blamed c e.
Proof.
  induction l as [|c l IH]; intros cnt e; [discriminate|].
  rewrite contents_loop_cons.
  destruct (is_manual_user_query c) as [[|]|e0] eqn:M.
  - destruct (is_manual_parts c M) as (first & rest & P & F & U).
    rewrite P.
    destruct (compact (S cnt <=? 3) (first :: rest)) as [out|e0] eqn:C.
    + specialize (IH (S cnt) e).
      destruct (contents_loop (S cnt) l) as [older' o] eqn:L.
      cbn [fst snd] in *. intros R.
      destruct (IH R) as (newer & b & older & newer' & -> & N & -> & B).
      exists (c :: newer), b, older, (set_parts c out :: newer').
      split; [reflexivity|]. split; [|split; [reflexivity|exact B]].
      now rewrite contents_loop_cons, M, P, C, N.
    + cbn [fst snd]. intros R. inversion R; subst e0.
      destruct (compact_raise_inv _ _ _ C) as [-> K].
      exists [], c, l, [].
      split; [reflexivity|]. split; [reflexivity|]. split; [reflexivity|].
      split; [exact U|]. right. now exists (first :: rest).
  - specialize (IH cnt e).
    destruct (contents_loop cnt l) as [older' o] eqn:L.
    cbn [fst snd] in *. intros R.
    destruct (IH R) as (newer & b & older & newer' & -> & N & -> & B).
    exists (c :: newer), b, older, (c :: newer').
    split; [reflexivity|]. split; [|split; [reflexivity|exact B]].
    now rewrite contents_loop_cons, M, N.
  - cbn [fst snd]. intros R. inversion R; subst e0.
    exists [], c, l, [].
    split; [reflexivity|]. split; [reflexivity|]. split; [reflexivity|].
    unfold blamed. unfold is_manual_user_query in M.
    destruct (role_is_user c); [|discriminate]. split; [reflexivity|].
    destruct (parts c) as [[|first rest]|]; inversion M; auto.
Qed.

Lemma parts_ok_false_iff (ps : list Part) :
  parts_ok ps = false
  <-> exists pre p post blob,
        ps = pre ++ p :: post /\ inline_data p = Some blob
        /\ data blob = None /\ next_is_placeholder post = false.
Proof.
  induction ps as [|a rest IH].
  - split; [discriminate|].
    intros (pre & p & post & blob & E & _). destruct pre; discriminate.
  - rewrite parts_ok_cons, andb_false_iff. split.
    + intros [H|H].
      * exists [], a, rest. unfold head_ok in H.
        destruct (inline_data a) as [blob|]; [|discriminate].
        apply orb_false_iff in H as [H1 H2].
        destruct (data blob) eqn:D; [discriminate|]. exists blob. auto.
      * apply IH in H as (pre & p & post & blob & -> & K).
        exists (a :: pre), p, post, blob. auto.
    + intros (pre & p & post & blob & E & I & D & N).
      destruct pre as [|a' pre]; cbn [app] in E; inversion E; subst.
      * left. unfold head_ok. now rewrite I, N, D.
      * right. apply IH. exists pre, p, post, blob. auto.
Qed.

(** ** The claims *)

(** *** Idempotence *)

(** C2. Running the callback on the history it has just left behind gives
    that same history and ends the same way: no second placeholder is
    inserted and no part of any turn changes. This holds for every history;
    when the first call raised, the second stops at the same turn with the
    same exception. *)
Theorem compaction_idempotent (h : list Content) :
  modify_image_data_in_history (fst (modify_image_data_in_history h))
  = modify_image_data_in_history h.
Proof.
  unfold modify_image_data_in_history.
  pose proof (contents_loop_idempotent (rev h) 0) as I.
  destruct (contents_loop 0 (rev h)) as [visited o].
  cbn [fst] in *. now rewrite rev_involutive, I.
Qed.

(** Scenario B: a second call on the outcome of scenario A leaves it as it
    is. *)
Example scenario_B :
  modify_image_data_in_history scenario_A_compacted
  = (scenario_A_compacted, Returned).
Proof. vm_compute. reflexivity. Qed.

(** *** Turns that are not counted *)

(** C5. A turn whose role is not ["user"], or whose first part is a
    function response, is left as it is, and the rest of the history is
    rewritten exactly as if the turn were not there: it does not advance
    the counter. This holds whatever the turn contains and however many
    counted turns surround it. *)
Theorem non_countable_turn_untouched (older newer : list Content) (c : Content) :
  role_is_user c = false
  \/ (exists first rest fr,
        parts c = Some (first :: rest) /\ function_response first = Some fr) ->
  exists older' newer' o,
    modify_image_data_in_history (older ++ newer) = (older' ++ newer', o)
    /\ modify_image_data_in_history (older ++ c :: newer)
       = (older' ++ c :: newer', o)
    /\ length older' = length older
    /\ length newer' = length newer.
Proof.
  intros H.
  assert (is_manual_user_query c = Ok false) as M.
  { unfold is_manual_user_query.
    destruct H as [-> | (first & rest & fr & -> & ->)]; [reflexivity|].
    now destruct (role_is_user c). }
  change modify_image_data_in_history with (modify_from 0).
  rewrite modify_from_split, modify_from_app.
  pose proof (modify_from_length 0 newer) as LN.
  destruct (modify_from 0 newer) as [newer' [|e]]; cbn [fst] in LN.
  - rewrite modify_from_single, M.
    assert (countable_count [c] = 0) as ->
      by (unfold countable_count, countable; simpl; now rewrite M).
    rewrite Nat.add_0_r.
    pose proof (modify_from_length (0 + countable_count newer) older) as LO.
    destruct (modify_from (0 + countable_count newer) older) as [older' o].
    exists older', newer', o. cbn [fst] in LO. auto.
  - exists older, newer', (Raised e). auto.
Qed.

Lemma non_countable_turn_untouched_witness :
  (role_is_user tool_turn = false
   \/ (exists first rest fr,
         parts tool_turn = Some (first :: rest)
         /\ function_response first = Some fr))
  /\ exists older' newer' o,
       modify_image_data_in_history ([U1; U2] ++ [U3; U4; U5])
       = (older' ++ newer', o)
       /\ modify_image_data_in_history ([U1; U2] ++ tool_turn :: [U3; U4; U5])
          = (older' ++ tool_turn :: newer', o)
       /\ length older' = length [U1; U2]
       /\ length newer' = length [U3; U4; U5].
Proof.
  assert (role_is_user tool_turn = false
          \/ (exists first rest fr,
                parts tool_turn = Some (first :: rest)
                /\ function_response first = Some fr)) as H.
  { right. eexists _, _, _. split; reflexivity. }
  split; [exact H|].
  exact (non_countable_turn_untouched [U1; U2] [U3; U4; U5] tool_turn H).
Defined.

(** Scenario D, computed: the function-response turn keeps its image among
    five counted turns. *)
Example scenario_D :
  modify_image_data_in_history [U1; U2; tool_turn; U3; U4; U5]
  = ([ user_turn [text_part (lit "breakfast"); mark "img1"];
       user_turn [text_part (lit "lunch"); mark "img2"];
       tool_turn;
       user_turn [text_part (lit "squat"); image "img3"; mark "img3"];
       user_turn [text_part (lit "dinner"); image "img4"; mark "img4"];
       user_turn [text_part (lit "plank"); image "img5"; mark "img5"] ],
     Returned).
Proof. vm_compute. reflexivity. Qed.

(** *** Malformed input *)

(** C4, as stated, fails: a user turn with no parts makes the subscript
    [content.parts[0]] raise [IndexError], and an image without payload that
    no placeholder follows makes [hashlib.sha256(None)] raise [TypeError]. *)
Lemma malformed_turn_raises :
  modify_image_data_in_history [user_turn []]
  = ([user_turn []], Raised IndexError)
  /\ modify_image_data_in_history [user_turn [image_without_payload]]
     = ([user_turn [image_without_payload]], Raised TypeError).
Proof. split; vm_compute; reflexivity. Qed.

(** C4, amended. The callback returns exactly on the histories in which
    every user turn has a first part and, in every counted turn, every
    image without payload is already followed by a placeholder. On every
    other history it raises, on the most recent turn [c] that is not so:
    [IndexError] when [c] is a user turn with an empty part list, and
    [TypeError] when its part list is absent or when it is a counted turn
    with an image [p] that has no payload and no placeholder after it. A
    turn of another role is never subscripted: whatever its part list,
    empty or absent, it is accepted and left as it is. A following part
    whose text is absent counts as no placeholder, without failing. *)
Theorem compaction_returns_iff_well_formed :
  (forall h, snd (modify_image_data_in_history h) = Returned
             <-> forallb turn_ok h = true)
  /\ (forall h e,
        snd (modify_image_data_in_history h) = Raised e
        <-> exists older c newer,
              h = older ++ c :: newer
              /\ forallb turn_ok newer = true
              /\ role_is_user c = true
              /\ match e with
                 | IndexError => parts c = Some []
                 | TypeError =>
                     parts c = None
                     \/ exists pre p post blob,
                          parts c = Some (pre ++ p :: post)
                          /\ is_manual_user_query c = Ok true
                          /\ inline_data p = Some blob
                          /\ data blob = None
                          /\ next_is_placeholder post = false
                 end)
  /\ (forall older c newer,
        role_is_user c = false ->
        turn_ok c = true
        /\ nth_error (fst (modify_image_data_in_history (older ++ c :: newer)))
                     (length older) = Some c)
  /\ (forall ps idx next,
        nth_error ps (idx + 1) = Some next -> text next = None ->
        is_placeholder_missing ps idx = true).
Proof.
  split; [|split; [|split]].
  - intros h. apply (modify_from_outcome 0 h).
  - intros h e. split.
    + unfold modify_image_data_in_history. intros R.
      pose proof (contents_loop_raised (rev h) 0 e) as K.
      destruct (contents_loop 0 (rev h)) as [visited o]. cbn [fst snd] in *.
      destruct (K R) as (newer & c & older & newer' & E & N & _ & U & B).
      exists (rev older), c, (rev newer).
      split; [|split; [|split; [exact U|]]].
      * rewrite <- (rev_involutive h), E, rev_app_distr. cbn [rev].
        now rewrite <- app_assoc.
      * rewrite forallb_rev. apply (contents_loop_outcome newer 0).
        now rewrite N.
      * destruct e; [exact B|].
        destruct B as [B|(ps & P & M & K')]; [now left|right].
        apply parts_ok_false_iff in K' as (pre & p & post & blob & -> & K').
        exists pre, p, post, blob. auto.
    + intros (older & c & newer & -> & W & U & B).
      change modify_image_data_in_history with (modify_from 0).
      rewrite modify_from_split.
      destruct (modify_from_returns 0 newer W) as [newer' ->].
      rewrite modify_from_single. unfold is_manual_user_query at 1. rewrite U.
      destruct e.
      * now rewrite B.
      * destruct B as [->|(pre & p & post & blob & P & M & I & D & N)];
          [reflexivity|].
        unfold is_manual_user_query in M. rewrite U in M. rewrite P in *.
        destruct (pre ++ p :: post) as [|first rest] eqn:L; [discriminate M|].
        destruct (function_response first); [discriminate M|].
        assert (parts_ok (first :: rest) = false) as K.
        { apply parts_ok_false_iff. exists pre, p, post, blob.
          split; [now symmetry|auto]. }
        now rewrite (compact_raises _ _ K).
  - intros older c newer U.
    split; [unfold turn_ok; now rewrite U|].
    change modify_image_data_in_history with (modify_from 0).
    destruct (modify_from_turn 0 older c newer)
      as (older' & c' & newer' & o & E & L & _ & [->|R] & _).
    + rewrite E. cbn [fst]. now apply nth_error_middle.
    + destruct R as (ps & out & M & _).
      unfold is_manual_user_query in M. rewrite U in M. discriminate M.
  - intros ps idx next N T. unfold is_placeholder_missing.
    rewrite N, T. apply orb_true_r.
Qed.

(** *** The counter *)

Lemma set_parts_same (c : Content) (ps : list Part) :
  parts c = Some ps -> set_parts c ps = c.
Proof. destruct c as [r p]. simpl. now intros ->. Qed.

Lemma countable_true (c : Content) :
  is_manual_user_query c = Ok true -> countable c = true.
Proof. unfold countable. now intros ->. Qed.

(** C7, as stated, fails: with three photo turns every image is kept, and a
    fourth turn without image, added after them, evicts the image of the
    first. *)
Lemma imageless_turn_shifts_window :
  nth_error (fst (modify_image_data_in_history [U1; U2; U3])) 0
  = Some (user_turn [text_part (lit "breakfast"); image "img1"; mark "img1"])
  /\ nth_error
       (fst (modify_image_data_in_history [U1; U2; U3; text_turn "thanks"])) 0
     = Some (user_turn [text_part (lit "breakfast"); mark "img1"]).
Proof. split; vm_compute; reflexivity. Qed.

(** C7, amended. A counted turn without inline data keeps its parts, and it
    is counted: the turns after it are rewritten as without it, and the
    turns before it are rewritten with the counter one higher than without
    it. *)
Theorem imageless_turn_is_counted (older newer : list Content) (t : Content)
    (ps : list Part) :
  is_manual_user_query t = Ok true ->
  parts t = Some ps ->
  existsb has_inline ps = false ->
  modify_image_data_in_history (older ++ t :: newer)
  = match modify_image_data_in_history newer with
    | (newer', Returned) =>
        let (older', o) := modify_from (S (countable_count newer)) older in
        (older' ++ t :: newer', o)
    | (newer', Raised e) => (older ++ t :: newer', Raised e)
    end
  /\ modify_image_data_in_history (older ++ newer)
     = match modify_image_data_in_history newer with
       | (newer', Returned) =>
           let (older', o) := modify_from (countable_count newer) older in
           (older' ++ newer', o)
       | (newer', Raised e) => (older ++ newer', Raised e)
       end.
Proof.
  intros M P I.
  change modify_image_data_in_history with (modify_from 0).
  rewrite modify_from_split, modify_from_app. split; [|reflexivity].
  destruct (modify_from 0 newer) as [newer' [|e]]; [|reflexivity].
  rewrite modify_from_single, M, P, (compact_no_inline _ ps I).
  rewrite (set_parts_same t ps P).
  assert (countable_count [t] = 1) as ->
    by (unfold countable_count; simpl; now rewrite (countable_true t M)).
  now rewrite Nat.add_1_r.
Qed.

Lemma imageless_turn_is_counted_witness :
  is_manual_user_query (text_turn "thanks") = Ok true
  /\ parts (text_turn "thanks") = Some [text_part (lit "thanks")]
  /\ existsb has_inline [text_part (lit "thanks")] = false
  /\ modify_image_data_in_history ([U1; U2; U3] ++ text_turn "thanks" :: [])
     = (let (older', o) := modify_from 1 [U1; U2; U3] in
        (older' ++ [text_turn "thanks"], o))
  /\ modify_image_data_in_history ([U1; U2; U3] ++ [])
     = (let (older', o) := modify_from 0 [U1; U2; U3] in (older' ++ [], o)).
Proof.
  split; [reflexivity|]. split; [reflexivity|]. split; [reflexivity|].
  exact (imageless_turn_is_counted [U1; U2; U3] [] (text_turn "thanks")
           [text_part (lit "thanks")] eq_refl eq_refl eq_refl).
Defined.

(** C8. On a history the callback accepts, a counted turn keeps every one
    of its parts when fewer than three counted turns come after it, and
    keeps no inline data otherwise; the turns before it are rewritten with
    the counter one higher. [countable_count] looks only at the role and at
    the first part's function response, never at images: the window is the
    three most recent manual turns, with or without images. *)
Theorem retention_is_by_turn_recency (older newer : list Content) (c : Content) :
  forallb turn_ok (older ++ c :: newer) = true ->
  is_manual_user_query c = Ok true ->
  exists older' newer' ps out,
    modify_image_data_in_history (older ++ c :: newer)
    = (older' ++ set_parts c out :: newer', Returned)
    /\ length older' = length older
    /\ parts c = Some ps
    /\ (countable_count newer < 3 -> forall p, In p ps -> In p out)
    /\ (3 <= countable_count newer -> existsb has_inline out = false)
    /\ older' = fst (modify_from (S (countable_count newer)) older).
Proof.
  intros W M.
  apply (modify_from_outcome 0) in W.
  change modify_image_data_in_history with (modify_from 0).
  destruct (modify_from_turn 0 older c newer)
    as (older' & c' & newer' & o & E & L & _ & _ & O & T).
  rewrite E in W. cbn [snd] in W. subst o.
  destruct (T eq_refl M) as (ps & out & P & C & ->).
  exists older', newer', ps, out. cbn [Nat.add] in *.
  repeat split; auto.
  - intros K p I.
    assert ((S (countable_count newer) <=? 3) = true) as Q
      by (apply Nat.leb_le; lia).
    rewrite Q in C. eapply compact_keeps; eauto.
  - intros K.
    assert ((S (countable_count newer) <=? 3) = false) as Q
      by (apply Nat.leb_gt; lia).
    rewrite Q in C. eapply compact_drops; eauto.
Qed.

Lemma retention_is_by_turn_recency_witness :
  forallb turn_ok
    ([] ++ U1 :: [text_turn "thanks"; text_turn "and now?"; text_turn "ok"])
  = true
  /\ is_manual_user_query U1 = Ok true
  /\ exists older' newer' ps out,
       modify_image_data_in_history
         ([] ++ U1 :: [text_turn "thanks"; text_turn "and now?"; text_turn "ok"])
       = (older' ++ set_parts U1 out :: newer', Returned)
       /\ length older' = length (@nil Content)
       /\ parts U1 = Some ps
       /\ (countable_count
             [text_turn "thanks"; text_turn "and now?"; text_turn "ok"] < 3 ->
           forall p, In p ps -> In p out)
       /\ (3 <= countable_count
                  [text_turn "thanks"; text_turn "and now?"; text_turn "ok"] ->
           existsb has_inline out = false)
       /\ older' = fst (modify_from
                          (S (countable_count
                                [text_turn "thanks"; text_turn "and now?";
                                 text_turn "ok"])) []).
Proof.
  split; [reflexivity|]. split; [reflexivity|].
  exact (retention_is_by_turn_recency []
           [text_turn "thanks"; text_turn "and now?"; text_turn "ok"] U1
           eq_refl eq_refl).
Defined.

(** The only image of a history is evicted by three later turns without
    images. *)
Example recency_not_images :
  modify_image_data_in_history
    [U1; text_turn "thanks"; text_turn "and now?"; text_turn "ok"]
  = ([ user_turn [text_part (lit "breakfast"); mark "img1"];
       text_turn "thanks"; text_turn "and now?"; text_turn "ok" ],
     Returned).
Proof. vm_compute. reflexivity. Qed.

(** *** The placeholder *)

Lemma hexchar_lower (d : Z) :
  (0 <= d < 16)%Z -> Sha256.is_lower_hex (Sha256.hexchar d) = true.
Proof.
  intros H.
  assert (exists n, n < 16 /\ d = Z.of_nat n) as (n & Hn & ->)
    by (exists (Z.to_nat d); lia).
  do 16 (destruct n as [|n]; [reflexivity|]). lia.
Qed.

Lemma hex8_lower (w : Z) : forallb Sha256.is_lower_hex (Sha256.hex8 w) = true.
Proof.
  unfold Sha256.hex8. cbn [forallb].
  rewrite !hexchar_lower by (apply Z.mod_pos_bound; lia). reflexivity.
Qed.

(** The id has 12 characters, all of them lower-case hexadecimal digits. *)
Lemma image_hash_id_form (b : bytes) :
  length (image_hash_id b) = 12
  /\ forallb Sha256.is_lower_hex (image_hash_id b) = true.
Proof.
  unfold image_hash_id. destruct (Sha256.sha256 b) as [a0 a1 a2 a3 a4 a5 a6 a7].
  unfold Sha256.hexdigest. cbn [Sha256.h0 Sha256.h1].
  assert (forall w rest, firstn 12 (Sha256.hex8 a0 ++ Sha256.hex8 w ++ rest)
                         = Sha256.hex8 a0 ++ firstn 4 (Sha256.hex8 w)) as E
    by reflexivity.
  rewrite E. split; [reflexivity|].
  rewrite forallb_app, hex8_lower. cbn [andb].
  pose proof (hex8_lower a1) as H. unfold Sha256.hex8 in *.
  cbn [firstn forallb] in *.
  repeat (apply andb_true_iff in H as [? H]).
  repeat (apply andb_true_iff; split; auto).
Qed.

Example placeholder_of_a :
  placeholder_of (image_hash_id (bytes_lit "a")) = lit "[IMAGE-ID ca978112ca1b]".
Proof. vm_compute. reflexivity. Qed.

(** An image with bytes that no placeholder follows gets its placeholder
    directly after its place. *)
Lemma unmarked_image_marked (older : list Content) (c : Content)
    (newer : list Content) (pre : list Part) (p : Part) (post : list Part)
    (b : bytes) :
  unmarked_image_at older c newer pre p post b ->
  leaves_after older c newer pre p post
    (text_part (lit "[IMAGE-ID "
                ++ firstn 12 (Sha256.hexdigest (Sha256.sha256 b)) ++ lit "]")).
Proof.
  intros (R & M & P & (blob & I & D) & N). unfold leaves_after.
  change modify_image_data_in_history with (modify_from 0) in *.
  destruct (modify_from_turn 0 older c newer)
    as (older' & c' & newer' & o & E & L & _ & _ & _ & T).
  rewrite E in R. cbn [snd] in R. subst o.
  destruct (T eq_refl M) as (ps & out & P' & C & ->).
  rewrite P in P'. inversion P'; subst ps. clear P'.
  cbn [Nat.add] in C.
  change (S (countable_count newer) <=? 3)
    with (countable_count newer <? 3) in C.
  destruct (compact_prefix _ pre p post out C)
    as (out_pre & out_post & C1 & -> & C2).
  unfold block in E. rewrite I, N, D in E.
  exists older', newer', out_pre, out_post.
  split; [|split; [exact L|split]].
  - rewrite E. now rewrite <- !app_assoc.
  - now apply compact_rewritten.
  - intros post2 out2 K. apply compact_rewritten, C2.
    now apply rewritten_compact.
Qed.

(** C6. The part list the callback leaves in a counted turn is the turn's
    part list [rewritten]: the only parts added are placeholders, each one
    directly after the place of the image it is made for, and each the text
    ["[IMAGE-ID " + id + "]"] with [id] the first 12 characters of the
    SHA-256 hexadecimal digest of that image's bytes. Every turn of a
    history is left as it was or rewritten in this way, and rewritten when
    it is counted and the callback returns. The id has 12 characters, all
    lower-case hexadecimal digits. Two images with the same bytes, in the
    same turn or in different turns, histories and calls, within the window
    of three or beyond it, get the same placeholder. *)
Theorem placeholder_is_hash_of_bytes :
  (forall older c newer,
     exists c',
       nth_error (fst (modify_image_data_in_history (older ++ c :: newer)))
                 (length older) = Some c'
       /\ (c' = c
           \/ exists ps out,
                is_manual_user_query c = Ok true
                /\ parts c = Some ps /\ c' = set_parts c out
                /\ rewritten (countable_count newer <? 3) ps out)
       /\ (snd (modify_image_data_in_history (older ++ c :: newer)) = Returned ->
           is_manual_user_query c = Ok true ->
           exists ps out,
             parts c = Some ps /\ c' = set_parts c out
             /\ rewritten (countable_count newer <? 3) ps out))
  /\ (forall b,
        length (firstn 12 (Sha256.hexdigest (Sha256.sha256 b))) = 12
        /\ forallb Sha256.is_lower_hex
             (firstn 12 (Sha256.hexdigest (Sha256.sha256 b))) = true)
  /\ (forall older1 c1 newer1 pre1 p1 post1 older2 c2 newer2 pre2 p2 post2 b,
        unmarked_image_at older1 c1 newer1 pre1 p1 post1 b ->
        unmarked_image_at older2 c2 newer2 pre2 p2 post2 b ->
        exists id,
          id = firstn 12 (Sha256.hexdigest (Sha256.sha256 b))
          /\ leaves_after older1 c1 newer1 pre1 p1 post1
               (text_part (lit "[IMAGE-ID " ++ id ++ lit "]"))
          /\ leaves_after older2 c2 newer2 pre2 p2 post2
               (text_part (lit "[IMAGE-ID " ++ id ++ lit "]"))).
Proof.
  split; [|split].
  - intros older c newer.
    change modify_image_data_in_history with (modify_from 0).
    destruct (modify_from_turn 0 older c newer)
      as (older' & c' & newer' & o & E & L & _ & D & _ & T).
    exists c'. rewrite E. cbn [fst snd].
    split; [now apply nth_error_middle|]. split.
    + destruct D as [->|(ps & out & M & P & C & ->)]; [now left|right].
      exists ps, out. repeat split; auto. now apply compact_rewritten.
    + intros -> M. destruct (T eq_refl M) as (ps & out & P & C & ->).
      exists ps, out. repeat split; auto. now apply compact_rewritten.
  - intros b. apply (image_hash_id_form b).
  - intros older1 c1 newer1 pre1 p1 post1 older2 c2 newer2 pre2 p2 post2 b
           H1 H2.
    exists (firstn 12 (Sha256.hexdigest (Sha256.sha256 b))).
    split; [reflexivity|].
    split; now apply unmarked_image_marked.
Qed.

Lemma placeholder_is_hash_of_bytes_witness :
  unmarked_image_at [] U1 [U2; U3; U4; U5]
    [text_part (lit "breakfast")] (image "img1") [] (bytes_lit "img1")
  /\ unmarked_image_at [U1; U2] (user_turn [image "img1"; image "img1"]) []
       [image "img1"] (image "img1") [] (bytes_lit "img1")
  /\ exists id,
       id = firstn 12 (Sha256.hexdigest (Sha256.sha256 (bytes_lit "img1")))
       /\ leaves_after [] U1 [U2; U3; U4; U5]
            [text_part (lit "breakfast")] (image "img1") []
            (text_part (lit "[IMAGE-ID " ++ id ++ lit "]"))
       /\ leaves_after [U1; U2] (user_turn [image "img1"; image "img1"]) []
            [image "img1"] (image "img1") []
            (text_part (lit "[IMAGE-ID " ++ id ++ lit "]")).
Proof.
  assert (unmarked_image_at [] U1 [U2; U3; U4; U5]
            [text_part (lit "breakfast")] (image "img1") [] (bytes_lit "img1"))
    as H1.
  { split; [vm_compute; reflexivity|]. split; [reflexivity|].
    split; [reflexivity|]. split; [|reflexivity].
    eexists. split; reflexivity. }
  assert (unmarked_image_at [U1; U2] (user_turn [image "img1"; image "img1"]) []
            [image "img1"] (image "img1") [] (bytes_lit "img1")) as H2.
  { split; [vm_compute; reflexivity|]. split; [reflexivity|].
    split; [reflexivity|]. split; [|reflexivity].
    eexists. split; reflexivity. }
  split; [exact H1|]. split; [exact H2|].
  exact (proj2 (proj2 placeholder_is_hash_of_bytes) _ _ _ _ _ _ _ _ _ _ _ _ _
           H1 H2).
Defined.

(** C3, as stated, fails: a text part that starts with ["[IMAGE-ID "] and
    follows an image is taken for the image's placeholder, whatever id it
    carries, and no placeholder with the hash of the bytes is added. *)
Lemma text_taken_for_placeholder :
  modify_image_data_in_history
    [user_turn [image "a"; text_part (lit "[IMAGE-ID of my lunch]")]]
  = ([user_turn [image "a"; text_part (lit "[IMAGE-ID of my lunch]")]],
     Returned)
  /\ text_part (lit "[IMAGE-ID of my lunch]") <> mark "a".
Proof. split; [vm_compute; reflexivity|]. vm_compute. discriminate. Qed.

(** C3, amended. On a history the callback accepts, take an inline part [p]
    of a counted turn, after the parts [pre] and before the parts [post].
    The new part list is [out_pre ++ payload ++ new_mark ++ out_post]:
    [out_pre] is what the loop yields for [pre] (whatever follows [p]) and
    [out_post] what it yields for [post]; [payload] is [p] itself within the
    window of three and nothing beyond it; [new_mark] is exactly one text
    part ["[IMAGE-ID " + sha256(bytes).hexdigest()[:12] + "]"] when the part
    after [p] does not already start with ["[IMAGE-ID "], and nothing when
    it does. *)
Theorem placeholder_follows_image (older newer : list Content) (c : Content)
    (pre post : list Part) (p : Part) (blob : Blob) :
  forallb turn_ok (older ++ c :: newer) = true ->
  is_manual_user_query c = Ok true ->
  parts c = Some (pre ++ p :: post) ->
  inline_data p = Some blob ->
  exists older' newer' out_pre payload new_mark out_post,
    modify_image_data_in_history (older ++ c :: newer)
    = (older' ++ set_parts c (out_pre ++ payload ++ new_mark ++ out_post)
         :: newer', Returned)
    /\ length older' = length older
    /\ payload = (if countable_count newer <? 3 then [p] else [])
    /\ (if next_is_placeholder post then new_mark = []
        else exists b,
               data blob = Some b
               /\ new_mark
                  = [text_part (lit "[IMAGE-ID "
                                ++ firstn 12 (Sha256.hexdigest (Sha256.sha256 b))
                                ++ lit "]")])
    /\ compact (countable_count newer <? 3) post = Ok out_post
    /\ (forall post2 out2,
          compact (countable_count newer <? 3) (p :: post2) = Ok out2 ->
          compact (countable_count newer <? 3) (pre ++ p :: post2)
          = Ok (out_pre ++ out2)).
Proof.
  intros W M P I.
  apply (modify_from_outcome 0) in W.
  change modify_image_data_in_history with (modify_from 0).
  destruct (modify_from_turn 0 older c newer)
    as (older' & c' & newer' & o & E & L & _ & _ & _ & T).
  rewrite E in W. cbn [snd] in W. subst o.
  destruct (T eq_refl M) as (ps & out & P' & C & ->).
  rewrite P in P'. inversion P'; subst ps. clear P'.
  cbn [Nat.add] in C.
  change (S (countable_count newer) <=? 3)
    with (countable_count newer <? 3) in C.
  destruct (compact_prefix _ pre p post out C)
    as (out_pre & out_post & C1 & -> & C2).
  pose proof (parts_ok_app pre _ (compact_ok_inv _ _ _ C)) as K.
  rewrite parts_ok_cons in K. apply andb_true_iff in K as [K _].
  unfold head_ok in K. rewrite I in K.
  unfold block in E. rewrite I in E.
  destruct (next_is_placeholder post) eqn:N.
  - exists older', newer', out_pre,
      (if countable_count newer <? 3 then [p] else []), [], out_post.
    rewrite E, app_nil_r. repeat split; auto.
  - cbn [orb] in K. destruct (data blob) as [b|] eqn:D; [|discriminate K].
    exists older', newer', out_pre,
      (if countable_count newer <? 3 then [p] else []),
      [text_part (placeholder_of (image_hash_id b))], out_post.
    rewrite E, <- app_assoc. repeat split; auto.
    exists b. split; reflexivity.
Qed.

Lemma placeholder_follows_image_witness :
  forallb turn_ok ([U1] ++ U2 :: [U3; U4; U5]) = true
  /\ is_manual_user_query U2 = Ok true
  /\ parts U2 = Some ([text_part (lit "lunch")] ++ image "img2" :: [])
  /\ inline_data (image "img2")
     = Some {| mime_type := Some (lit "image/png");
               data := Some (bytes_lit "img2") |}
  /\ exists older' newer' out_pre payload new_mark out_post,
       modify_image_data_in_history ([U1] ++ U2 :: [U3; U4; U5])
       = (older' ++ set_parts U2 (out_pre ++ payload ++ new_mark ++ out_post)
            :: newer', Returned)
       /\ length older' = length [U1]
       /\ payload = (if countable_count [U3; U4; U5] <? 3
                     then [image "img2"] else [])
       /\ (if next_is_placeholder [] then new_mark = []
           else exists b,
                  data {| mime_type := Some (lit "image/png");
                          data := Some (bytes_lit "img2") |} = Some b
                  /\ new_mark
                     = [text_part
                          (lit "[IMAGE-ID "
                           ++ firstn 12 (Sha256.hexdigest (Sha256.sha256 b))
                           ++ lit "]")])
       /\ compact (countable_count [U3; U4; U5] <? 3) [] = Ok out_post
       /\ (forall post2 out2,
             compact (countable_count [U3; U4; U5] <? 3)
                     (image "img2" :: post2) = Ok out2 ->
             compact (countable_count [U3; U4; U5] <? 3)
                     ([text_part (lit "lunch")] ++ image "img2" :: post2)
             = Ok (out_pre ++ out2)).
Proof.
  split; [reflexivity|]. split; [reflexivity|]. split; [reflexivity|].
  split; [reflexivity|].
  exact (placeholder_follows_image [U1] [U3; U4; U5] U2
           [text_part (lit "lunch")] [] (image "img2") _
           eq_refl eq_refl eq_refl eq_refl).
Defined.

(** *** The retention window *)







Lemma retaining_rev (l : list Content) :
  length (retaining (rev l)) = length (retaining l).
Proof. unfold retaining. now rewrite filter_rev, length_rev. Qed.




(** ** The sanitizer *)

Lemma startswith_spec (p : str) :
  forall s, startswith s p = true <-> exists b, s = p ++ b.
Proof.
  induction p as [|q p IH]; intros s.
  - split; [intros _; now exists s|now destruct s].
  - destruct s as [|c s]; simpl.
    + split; [discriminate|intros [b E]; discriminate E].
    + rewrite andb_true_iff, N.eqb_eq, IH. split.
      * intros [-> [b ->]]. now exists b.
      * intros [b E]. inversion E. split; [reflexivity|now exists b].
Qed.

Lemma occurs_cons (sub : str) (c : char) (s : str) :
  occurs sub (c :: s) = startswith (c :: s) sub || occurs sub s.
Proof. reflexivity. Qed.

Lemma occurs_spec (sub : str) :
  forall s, occurs sub s = true <-> contains sub s.
Proof.
  unfold contains. induction s as [|c s IH].
  - change (occurs sub []) with (startswith [] sub || false).
    rewrite orb_false_r, startswith_spec. split.
    + intros [b E]. now exists [], b.
    + intros ([|x a] & b & E); [now exists b|discriminate E].
  - rewrite occurs_cons, orb_true_iff, startswith_spec, IH. split.
    + intros [[b E]|(a & b & E)].
      * now exists [], b.
      * exists (c :: a), b. now rewrite E.
    + intros ([|x a] & b & E).
      * left. now exists b.
      * right. inversion E. now exists a, b.
Qed.

Lemma split_from_nonempty (sep : str) (s : str) :
  forall skip cur, split_from sep s skip cur <> [].
Proof.
  induction s as [|c s IH]; intros skip cur; cbn [split_from]; [discriminate|].
  destruct skip; [|apply IH].
  destruct (startswith (c :: s) sep); [discriminate|apply IH].
Qed.

(** Without an occurrence of the separator there is one piece. *)
Lemma split_from_absent (sep : str) :
  forall s cur, occurs sep s = false ->
                split_from sep s 0 cur = [rev cur ++ s].
Proof.
  induction s as [|c s IH]; intros cur H.
  - simpl. now rewrite app_nil_r.
  - rewrite occurs_cons in H. apply orb_false_iff in H as [H1 H2].
    cbn [split_from]. rewrite H1, (IH (c :: cur) H2). simpl.
    now rewrite <- app_assoc.
Qed.

(** With an occurrence there are at least two. *)
Lemma split_from_present (sep : str) :
  sep <> [] ->
  forall s cur, occurs sep s = true ->
                exists a b rest, split_from sep s 0 cur = a :: b :: rest.
Proof.
  intros N. induction s as [|c s IH]; intros cur H.
  - destruct sep; [contradiction|discriminate H].
  - rewrite occurs_cons in H. cbn [split_from].
    destruct (startswith (c :: s) sep).
    + destruct (split_from sep s (length sep - 1) []) as [|b rest] eqn:E.
      * now apply split_from_nonempty in E.
      * now exists (rev cur), b, rest.
    + apply IH. exact H.
Qed.

(** The first piece ends at the first occurrence of a one-character
    separator. *)
Lemma split_from_char (x : char) :
  forall s t cur, ~ In x s ->
    split_from [x] (s ++ x :: t) 0 cur
    = (rev cur ++ s) :: split_from [x] t 0 [].
Proof.
  induction s as [|c s IH]; intros t cur H.
  - simpl. rewrite N.eqb_refl. simpl. now rewrite app_nil_r.
  - assert (N.eqb c x = false) as E
      by (apply N.eqb_neq; intros ->; apply H; now left).
    rewrite <- app_comm_cons. cbn [split_from startswith]. rewrite E.
    cbn [andb]. rewrite IH by (intros K; apply H; now right).
    simpl. now rewrite <- app_assoc.
Qed.

Lemma startswith_snoc (x : char) (p : str) :
  ~ In x p -> forall s, startswith (s ++ [x]) p = true -> startswith s p = true.
Proof.
  induction p as [|q p IH]; intros H s; [now destruct s|].
  destruct s as [|c s]; simpl.
  - intros K. apply andb_true_iff in K as [K _]. apply N.eqb_eq in K.
    subst q. elim H. now left.
  - rewrite !andb_true_iff. intros [K1 K2]. split; [exact K1|].
    apply IH; [|exact K2]. intros K; apply H; now right.
Qed.

(** A character foreign to the separator, added at the end, creates no
    occurrence. *)
Lemma occurs_snoc (x : char) (p : str) :
  p <> [] -> ~ In x p ->
  forall s, occurs p s = false -> occurs p (s ++ [x]) = false.
Proof.
  intros N H. induction s as [|c s IH]; intros K.
  - destruct p as [|q p]; [contradiction|]. simpl.
    assert (N.eqb x q = false) as ->
      by (apply N.eqb_neq; intros ->; apply H; now left).
    reflexivity.
  - rewrite occurs_cons in K. apply orb_false_iff in K as [K1 K2].
    rewrite <- app_comm_cons, occurs_cons, (IH K2), orb_false_r.
    destruct (startswith (c :: s ++ [x]) p) eqn:E; [|reflexivity].
    rewrite app_comm_cons in E. apply (startswith_snoc x p H) in E.
    congruence.
Qed.

Lemma existsb_rev {A : Type} (f : A -> bool) (l : list A) :
  existsb f (rev l) = existsb f l.
Proof.
  induction l as [|a l IH]; [reflexivity|].
  simpl. rewrite existsb_app, IH. simpl. rewrite orb_false_r. apply orb_comm.
Qed.

(** Stripping a string without white space gives it back. *)
Lemma strip_clean (s : str) :
  existsb isspace s = false -> strip s = s.
Proof.
  intros H. unfold strip, rstrip.
  assert (forall t, existsb isspace t = false -> lstrip t = t) as L.
  { intros [|c t] K; [reflexivity|]. simpl in *.
    apply orb_false_iff in K as [-> _]. reflexivity. }
  rewrite (L s H), L, rev_involutive; [reflexivity|].
  rewrite existsb_rev. exact H.
Qed.

Lemma contains_In (sub s : str) (x : char) :
  contains sub s -> In x sub -> In x s.
Proof.
  intros (a & b & ->) H. apply in_or_app. right. apply in_or_app. now left.
Qed.

Lemma not_contains_char (x : char) (s : str) :
  ~ contains [x] s -> ~ In x s.
Proof.
  intros H I. apply H. apply in_split in I as (a & b & ->). now exists a, b.
Qed.

Lemma not_contains_occurs (sub s : str) :
  ~ contains sub s -> occurs sub s = false.
Proof.
  intros H. destruct (occurs sub s) eqn:E; [|reflexivity].
  elim H. now apply occurs_spec.
Qed.

Lemma lower_hex_char (c : char) :
  Sha256.is_lower_hex c = true ->
  isspace c = false /\ c <> 91%N /\ c <> 93%N /\ c <> 73%N.
Proof.
  unfold Sha256.is_lower_hex. rewrite orb_true_iff, !andb_true_iff, !N.leb_le.
  intros H.
  assert (In c [48; 49; 50; 51; 52; 53; 54; 55; 56; 57;
                97; 98; 99; 100; 101; 102]%N) as K.
  { assert (exists n, n < 103 /\ c = N.of_nat n) as (n & Hn & ->)
      by (exists (N.to_nat c); lia).
    do 103 (destruct n as [|n]; [simpl; lia || tauto|]). lia. }
  simpl in K.
  repeat (destruct K as [<-|K]; [repeat split; (reflexivity || discriminate)|]).
  contradiction.
Qed.

Lemma lower_hex_string (s : str) (x : char) :
  forallb Sha256.is_lower_hex s = true ->
  existsb isspace s = false
  /\ (In x s -> x <> 91%N /\ x <> 93%N /\ x <> 73%N).
Proof.
  rewrite forallb_forall. intros H. split.
  - destruct (existsb isspace s) eqn:E; [|reflexivity].
    apply existsb_exists in E as (c & I & K).
    destruct (lower_hex_char c (H c I)) as [K' _]. congruence.
  - intros I. destruct (lower_hex_char x (H x I)) as (_ & K). exact K.
Qed.

(** *** What the sanitizer accepts *)

(** C9, as stated, fails: an id that holds the marker ["ID "] is cut at the
    marker, although it holds no closing bracket. *)
Lemma wrapped_id_cut_at_marker :
  ~ In 93%N (lit "aID b")
  /\ sanitize_image_id (lit "[IMAGE-ID " ++ lit "aID b" ++ lit "]")
     = Ok (lit "a")
  /\ strip (lit "aID b") = lit "aID b"
  /\ sanitize_image_id (lit "[IMAGE-ID " ++ lit "aID b" ++ lit "]")
     <> Ok (strip (lit "aID b")).
Proof.
  split; [vm_compute; intuition discriminate|].
  split; [vm_compute; reflexivity|].
  split; [vm_compute; reflexivity|].
  vm_compute. discriminate.
Qed.

(** C9, amended. A string that does not start with ["[IMAGE-"] is
    stripped; an id that holds neither ["]"] nor ["ID "], wrapped as
    ["[IMAGE-ID " + id + "]"], comes back stripped; and for the bytes of any
    image both the bare hash id and the placeholder the callback writes
    come back as the hash id. *)
Theorem sanitize_accepts_bare_and_wrapped :
  (forall s, startswith s (lit "[IMAGE-") = false ->
             sanitize_image_id s = Ok (strip s))
  /\ (forall s, ~ contains (lit "]") s -> ~ contains (lit "ID ") s ->
                sanitize_image_id (lit "[IMAGE-ID " ++ s ++ lit "]")
                = Ok (strip s))
  /\ (forall b, sanitize_image_id (image_hash_id b) = Ok (image_hash_id b)
                /\ sanitize_image_id (placeholder_of (image_hash_id b))
                   = Ok (image_hash_id b)).
Proof.
  assert (forall s, ~ contains (lit "]") s -> ~ contains (lit "ID ") s ->
                    sanitize_image_id (lit "[IMAGE-ID " ++ s ++ lit "]")
                    = Ok (strip s)) as Wrapped.
  { intros s B M. unfold sanitize_image_id.
    assert (startswith (lit "[IMAGE-ID " ++ s ++ lit "]") (lit "[IMAGE-") = true)
      as -> by reflexivity.
    assert (split (lit "[IMAGE-ID " ++ s ++ lit "]") (lit "ID ")
            = lit "[IMAGE-" :: split_from (lit "ID ") (s ++ lit "]") 0 [])
      as -> by reflexivity.
    cbn [nth_error].
    assert (occurs (lit "ID ") (s ++ lit "]") = false) as O.
    { apply (occurs_snoc 93%N (lit "ID ")).
      - discriminate.
      - vm_compute. intuition discriminate.
      - now apply not_contains_occurs. }
    rewrite (split_from_absent _ _ [] O). cbn [rev app].
    unfold split.
    match goal with
    | |- context [split_from ?sep ?x ?k ?cur] =>
        replace (split_from sep x k cur)
          with ((rev [] ++ s) :: split_from [93%N] [] 0 [])
          by (symmetry; apply (split_from_char 93%N s [] []);
              exact (not_contains_char _ _ B))
    end.
    reflexivity. }
  split; [|split; [exact Wrapped|]].
  - intros s H. unfold sanitize_image_id. now rewrite H.
  - intros b. destruct (image_hash_id_form b) as [L F].
    destruct (lower_hex_string (image_hash_id b) 0%N F) as [S _].
    rewrite <- (strip_clean _ S) at 2 4. split.
    + unfold sanitize_image_id.
      destruct (image_hash_id b) as [|c id] eqn:E; [discriminate L|].
      destruct (lower_hex_string (c :: id) c F) as [_ K].
      destruct (K (or_introl eq_refl)) as (K1 & _).
      apply N.eqb_neq in K1. cbn. now rewrite K1.
    + apply Wrapped.
      * intros C. apply (contains_In _ _ 93%N) in C; [|now left].
        destruct (lower_hex_string _ 93%N F) as [_ K].
        destruct (K C) as (_ & K2 & _). now apply K2.
      * intros C. apply (contains_In _ _ 73%N) in C; [|now left].
        destruct (lower_hex_string _ 73%N F) as [_ K].
        destruct (K C) as (_ & _ & K3). now apply K3.
Qed.

Lemma sanitize_accepts_bare_and_wrapped_witness :
  ~ contains (lit "]") (lit "ca978112ca1b")
  /\ ~ contains (lit "ID ") (lit "ca978112ca1b")
  /\ sanitize_image_id (lit "[IMAGE-ID " ++ lit "ca978112ca1b" ++ lit "]")
     = Ok (strip (lit "ca978112ca1b")).
Proof.
  assert (~ contains (lit "]") (lit "ca978112ca1b")) as B
    by (intros C; apply occurs_spec in C; discriminate C).
  assert (~ contains (lit "ID ") (lit "ca978112ca1b")) as M
    by (intros C; apply occurs_spec in C; discriminate C).
  split; [exact B|]. split; [exact M|].
  exact (proj1 (proj2 sanitize_accepts_bare_and_wrapped) _ B M).
Defined.

(** *** When the sanitizer raises *)

(** C10. The sanitizer raises [IndexError] on the strings that start with
    ["[IMAGE-"] and do not contain ["ID "], and returns on all others. *)
Theorem sanitize_raises_iff (s : str) :
  (startswith s (lit "[IMAGE-") = true /\ ~ contains (lit "ID ") s ->
   sanitize_image_id s = Raise IndexError)
  /\ (startswith s (lit "[IMAGE-") = false \/ contains (lit "ID ") s ->
      exists r, sanitize_image_id s = Ok r).
Proof.
  unfold sanitize_image_id, split. split.
  - intros [-> M].
    now rewrite (split_from_absent _ _ [] (not_contains_occurs _ _ M)).
  - intros H. destruct (startswith s (lit "[IMAGE-")); [|eauto].
    destruct H as [H|H]; [discriminate|].
    apply occurs_spec in H.
    destruct (split_from_present (lit "ID ") ltac:(discriminate) s [] H)
      as (a & after & rest & ->).
    cbn [nth_error].
    destruct (split_from (lit "]") after 0 []) as [|inner pieces] eqn:E.
    + now apply split_from_nonempty in E.
    + eauto.
Qed.

Example sanitize_without_marker :
  sanitize_image_id (lit "[IMAGE-ca978112ca1b]") = Raise IndexError.
Proof. vm_compute. reflexivity. Qed.

Example sanitize_other_wrapper :
  sanitize_image_id (lit "[IMAGE-HASH-ID  ca978112ca1b ]") = Ok (lit "ca978112ca1b").
Proof. vm_compute. reflexivity. Qed.


(** * Further properties of the callback *)

(** ** A history that was compacted and has grown since *)

Lemma on_ok_app_nil (r : result (list Part)) : on_ok (app []) r = r.
Proof. now destruct r. Qed.

(** Compacting parts that were compacted within the window gives what
    compacting the original parts gives, within the window or beyond it. *)
Lemma compact_after_kept (k : bool) (ps : list Part) :
  forall out, compact true ps = Ok out -> compact k out = compact k ps.
Proof.
  destruct k.
  { intros out E. now rewrite (compact_idempotent _ _ _ E). }
  induction ps as [|p rest IH]; intros out E; [now inversion E|].
  pose proof (compact_ok_inv _ _ _ E) as K.
  rewrite parts_ok_cons in K. apply andb_true_iff in K as [K _].
  compact_inv E out' E'. specialize (IH out' E').
  assert (next_is_placeholder out' = next_is_placeholder rest) as N.
  { rewrite !next_is_placeholder_hd.
    now rewrite (compact_keeps_head rest out' E'). }
  rewrite (compact_cons false p rest), K.
  unfold block. unfold head_ok in K.
  destruct (inline_data p) as [blob|] eqn:I.
  - destruct (next_is_placeholder rest) eqn:P; cbn [orb] in K.
    + cbn [app]. rewrite compact_cons. unfold head_ok, block.
      rewrite I, N. cbn [orb app]. now rewrite IH.
    + destruct (data blob) as [b|]; [|discriminate K]. cbn [app].
      rewrite compact_cons. unfold head_ok, block. rewrite I.
      cbn [next_is_placeholder text text_part].
      unfold placeholder_of. rewrite startswith_app. cbn [orb app].
      rewrite on_ok_app_nil, compact_cons, IH.
      unfold head_ok, block. cbn [inline_data text_part]. reflexivity.
  - cbn [app]. rewrite compact_cons. unfold head_ok, block. now rewrite I, IH.
Qed.

(** The loop entered with a counter at least as high, over turns it has
    already visited, does what it does over the turns as they were. *)
Lemma contents_loop_again (l : list Content) :
  forall cnt cnt', cnt <= cnt' ->
    contents_loop cnt' (fst (contents_loop cnt l)) = contents_loop cnt' l.
Proof.
  induction l as [|c l IH]; intros cnt cnt' H; [reflexivity|].
  rewrite (contents_loop_cons cnt).
  destruct (is_manual_user_query c) as [[|]|e] eqn:M; [| |reflexivity].
  - destruct (is_manual_parts c M) as (first & rest & P & F & U).
    rewrite P.
    destruct (compact (S cnt <=? 3) (first :: rest)) as [out|e] eqn:C;
      [|reflexivity].
    specialize (IH (S cnt) (S cnt') ltac:(lia)).
    destruct (contents_loop (S cnt) l) as [older1 o1]. cbn [fst] in *.
    rewrite (contents_loop_cons cnt' c), M, P.
    rewrite contents_loop_cons.
    assert (out <> []) as N by (eapply compact_nonempty; eauto; discriminate).
    destruct out as [|q out_t]; [contradiction|].
    assert (role_is_user (set_parts c (q :: out_t)) = true) as U' by exact U.
    unfold is_manual_user_query. rewrite U'. cbn [parts set_parts].
    destruct (S cnt <=? 3) eqn:K1.
    + pose proof (compact_keeps_head _ _ C) as Hd. cbn [hd_error] in Hd.
      inversion Hd; subst q. rewrite F.
      rewrite (compact_after_kept (S cnt' <=? 3) _ _ C).
      destruct (compact_ok (S cnt' <=? 3) _ (compact_ok_inv _ _ _ C))
        as [out2 ->].
      now rewrite IH.
    + apply Nat.leb_gt in K1.
      assert ((S cnt' <=? 3) = false) as K2 by (apply Nat.leb_gt; lia).
      rewrite K2, C.
      destruct (function_response q).
      * rewrite (contents_loop_past_three older1 cnt' (S cnt')) by lia.
        now rewrite IH.
      * now rewrite (compact_idempotent _ _ _ C), IH.
  - specialize (IH cnt cnt' H).
    destruct (contents_loop cnt l) as [older1 o1]. cbn [fst] in *.
    now rewrite !contents_loop_cons, M, IH.
Qed.

Lemma modify_from_again (k : nat) (h : list Content) :
  modify_from k (fst (modify_from 0 h)) = modify_from k h.
Proof.
  unfold modify_from.
  pose proof (contents_loop_again (rev h) 0 k (Nat.le_0_l k)) as A.
  destruct (contents_loop 0 (rev h)) as [visited o]. cbn [fst] in *.
  now rewrite rev_involutive, A.
Qed.

(** X1. When turns [t] the callback accepts are added to a history the
    callback has already gone over, the next call leaves what a call on the
    original history followed by [t] leaves: compacting as the history
    grows and compacting from scratch agree. *)
Theorem compaction_incremental (h t : list Content) :
  snd (modify_image_data_in_history t) = Returned ->
  modify_image_data_in_history (fst (modify_image_data_in_history h) ++ t)
  = modify_image_data_in_history (h ++ t).
Proof.
  change modify_image_data_in_history with (modify_from 0).
  intros R. rewrite !modify_from_app.
  destruct (modify_from 0 t) as [t' [|e]]; [|discriminate R].
  now rewrite modify_from_again.
Qed.

Lemma compaction_incremental_witness :
  snd (modify_image_data_in_history [U4; U5]) = Returned
  /\ modify_image_data_in_history
       (fst (modify_image_data_in_history [U1; U2; U3]) ++ [U4; U5])
     = modify_image_data_in_history ([U1; U2; U3] ++ [U4; U5]).
Proof.
  split; [vm_compute; reflexivity|].
  apply (compaction_incremental [U1; U2; U3] [U4; U5]).
  vm_compute. reflexivity.
Defined.

(** ** How much image data is left *)

Lemma retaining_cons (c : Content) (l : list Content) :
  retaining (c :: l)
  = if countable c && retains_image c then c :: retaining l else retaining l.
Proof. reflexivity. Qed.

Lemma retaining_bound_loop (l : list Content) :
  forall cnt, snd (contents_loop cnt l) = Returned ->
              length (retaining (fst (contents_loop cnt l))) <= 3 - cnt.
Proof.
  induction l as [|c l IH]; intros cnt; [cbn; lia|].
  rewrite contents_loop_cons.
  destruct (is_manual_user_query c) as [[|]|e] eqn:M; [| |discriminate].
  - destruct (parts c) as [ps|]; [|discriminate].
    destruct (compact (S cnt <=? 3) ps) as [out|e] eqn:C; [|discriminate].
    specialize (IH (S cnt)).
    destruct (contents_loop (S cnt) l) as [older' o]. cbn [fst snd] in *.
    intros R. specialize (IH R). rewrite retaining_cons.
    unfold retains_image, parts_of. cbn [parts set_parts].
    destruct (S cnt <=? 3) eqn:K.
    + apply Nat.leb_le in K.
      destruct (countable (set_parts c out) && existsb has_inline out);
        cbn [length]; lia.
    + rewrite (compact_drops _ _ C), andb_false_r. lia.
  - specialize (IH cnt).
    destruct (contents_loop cnt l) as [older' o]. cbn [fst snd] in *.
    intros R. specialize (IH R). rewrite retaining_cons.
    unfold countable. now rewrite M.
Qed.

(** X2. On every history the callback accepts, whatever its turns hold, at
    most three counted turns hold inline data afterwards. *)
Theorem at_most_three_turns_retain (h : list Content) :
  forallb turn_ok h = true ->
  snd (modify_image_data_in_history h) = Returned
  /\ length (retaining (fst (modify_image_data_in_history h))) <= 3.
Proof.
  intros W. apply (modify_from_outcome 0) in W. split; [exact W|].
  unfold modify_image_data_in_history, modify_from in *.
  pose proof (retaining_bound_loop (rev h) 0) as B.
  destruct (contents_loop 0 (rev h)) as [visited o]. cbn [fst snd] in *.
  rewrite retaining_rev. specialize (B W). lia.
Qed.

Lemma at_most_three_turns_retain_witness :
  forallb turn_ok [U1; tool_turn; U2; text_turn "thanks"; U3; U4; U5] = true
  /\ snd (modify_image_data_in_history
            [U1; tool_turn; U2; text_turn "thanks"; U3; U4; U5]) = Returned
  /\ length (retaining (fst (modify_image_data_in_history
                               [U1; tool_turn; U2; text_turn "thanks"; U3; U4; U5])))
     <= 3.
Proof.
  split; [reflexivity|].
  exact (at_most_three_turns_retain
           [U1; tool_turn; U2; text_turn "thanks"; U3; U4; U5] eq_refl).
Defined.

(** ** Images and their placeholders after the call *)

Lemma all_marked_no_inline (ps : list Part) :
  existsb has_inline ps = false -> all_marked ps = true.
Proof.
  induction ps as [|p rest IH]; [reflexivity|]. cbn [existsb all_marked].
  intros H. apply orb_false_iff in H as [-> H]. now rewrite (IH H).
Qed.

Lemma compact_marks (keep : bool) (ps : list Part) :
  forall out, compact keep ps = Ok out -> all_marked out = true.
Proof.
  destruct keep.
  2:{ intros out E. apply all_marked_no_inline. eapply compact_drops, E. }
  induction ps as [|p rest IH]; intros out E; [now inversion E|].
  pose proof (compact_ok_inv _ _ _ E) as K.
  rewrite parts_ok_cons in K. apply andb_true_iff in K as [K _].
  compact_inv E out' E'. specialize (IH out' E').
  assert (next_is_placeholder out' = next_is_placeholder rest) as N.
  { rewrite !next_is_placeholder_hd.
    now rewrite (compact_keeps_head rest out' E'). }
  unfold block, head_ok in *.
  destruct (inline_data p) as [blob|] eqn:I.
  - destruct (next_is_placeholder rest) eqn:P; cbn [orb] in K.
    + cbn [app all_marked]. now rewrite N, orb_true_r, IH.
    + destruct (data blob) as [b|]; [|discriminate K].
      cbn [app all_marked next_is_placeholder text text_part].
      unfold placeholder_of. rewrite startswith_app, orb_true_r.
      unfold has_inline. cbn [inline_data text_part negb orb andb]. exact IH.
  - cbn [app all_marked]. unfold has_inline. rewrite I. exact IH.
Qed.

Lemma marked_loop (l : list Content) :
  forall cnt, snd (contents_loop cnt l) = Returned ->
    forall c', In c' (fst (contents_loop cnt l)) -> countable c' = true ->
               all_marked (parts_of c') = true.
Proof.
  induction l as [|c l IH]; intros cnt; [intros _ c' []|].
  rewrite contents_loop_cons.
  destruct (is_manual_user_query c) as [[|]|e] eqn:M; [| |discriminate].
  - destruct (parts c) as [ps|]; [|discriminate].
    destruct (compact (S cnt <=? 3) ps) as [out|e] eqn:C; [|discriminate].
    specialize (IH (S cnt)).
    destruct (contents_loop (S cnt) l) as [older' o]. cbn [fst snd] in *.
    intros R c' [<-|I] Cc; [|now apply (IH R)].
    unfold parts_of. cbn [parts set_parts]. eapply compact_marks, C.
  - specialize (IH cnt).
    destruct (contents_loop cnt l) as [older' o]. cbn [fst snd] in *.
    intros R c' [<-|I] Cc; [|now apply (IH R)].
    unfold countable in Cc. rewrite M in Cc. discriminate.
Qed.

(** X3. On every history the callback accepts, in every counted turn it
    leaves behind every part with inline data is directly followed by a
    part whose text starts with ["[IMAGE-ID "]. *)
Theorem images_are_marked (h : list Content) (c' : Content) :
  forallb turn_ok h = true ->
  In c' (fst (modify_image_data_in_history h)) ->
  countable c' = true ->
  all_marked (parts_of c') = true.
Proof.
  intros W I Cc. apply (modify_from_outcome 0) in W.
  unfold modify_image_data_in_history, modify_from in *.
  pose proof (marked_loop (rev h) 0) as K.
  destruct (contents_loop 0 (rev h)) as [visited o]. cbn [fst snd] in *.
  apply (K W c'); [|exact Cc]. now apply in_rev.
Qed.

Lemma images_are_marked_witness :
  forallb turn_ok [U1; U2; U3; U4; U5] = true
  /\ In (user_turn [text_part (lit "plank"); image "img5"; mark "img5"])
        (fst (modify_image_data_in_history [U1; U2; U3; U4; U5]))
  /\ countable (user_turn [text_part (lit "plank"); image "img5"; mark "img5"])
     = true
  /\ all_marked
       (parts_of (user_turn [text_part (lit "plank"); image "img5"; mark "img5"]))
     = true.
Proof.
  assert (In (user_turn [text_part (lit "plank"); image "img5"; mark "img5"])
             (fst (modify_image_data_in_history [U1; U2; U3; U4; U5]))) as I.
  { vm_compute. do 4 right. now left. }
  split; [reflexivity|]. split; [exact I|]. split; [reflexivity|].
  exact (images_are_marked [U1; U2; U3; U4; U5] _ eq_refl I eq_refl).
Defined.

(** ** What the call never does to a turn *)

Lemma subseq_nil_l {A : Type} (l : list A) : subseq [] l.
Proof. induction l; constructor; assumption. Qed.

Lemma subseq_refl {A : Type} (l : list A) : subseq l l.
Proof. induction l; constructor; assumption. Qed.

Lemma subseq_app {A : Type} (a b c d : list A) :
  subseq a b -> subseq c d -> subseq (a ++ c) (b ++ d).
Proof.
  intros H K. induction H; cbn [app]; [exact K|constructor; exact IHsubseq..].
Qed.

Lemma block_order (keep : bool) (p : Part) (rest : list Part) :
  subseq (filter no_inline [p]) (block keep p rest)
  /\ subseq (filter has_inline (block keep p rest)) (filter has_inline [p])
  /\ (keep = true -> subseq [p] (block keep p rest)).
Proof.
  unfold block, no_inline. cbn [filter].
  destruct (inline_data p) as [blob|] eqn:I.
  - assert (has_inline p = true) as T by (unfold has_inline; now rewrite I).
    rewrite T. cbn [negb].
    assert (filter has_inline
              (if next_is_placeholder rest then []
               else match data blob with
                    | Some b => [text_part (placeholder_of (image_hash_id b))]
                    | None => []
                    end) = []) as F
      by (destruct (next_is_placeholder rest); [|destruct (data blob)];
          reflexivity).
    split; [apply subseq_nil_l|]. rewrite filter_app, F, app_nil_r.
    split.
    + destruct keep; cbn [filter]; [rewrite T; apply subseq_refl|].
      apply subseq_nil_l.
    + intros ->. cbn [app]. apply subseq_take, subseq_nil_l.
  - assert (has_inline p = false) as T by (unfold has_inline; now rewrite I).
    cbn [filter]. rewrite T. cbn [negb].
    repeat split; intros; apply subseq_refl.
Qed.

(** The parts without inline data stay, in their order; the parts with
    inline data that are left are among the ones there were, in their
    order; within the window all parts stay in their order. *)
Lemma compact_order (keep : bool) (ps : list Part) :
  forall out, compact keep ps = Ok out ->
    subseq (filter no_inline ps) out
    /\ subseq (filter has_inline out) (filter has_inline ps)
    /\ (keep = true -> subseq ps out).
Proof.
  induction ps as [|p rest IH]; intros out E.
  - inversion E. repeat split; intros; constructor.
  - compact_inv E out' E'. destruct (IH out' E') as (H1 & H2 & H3).
    destruct (block_order keep p rest) as (B1 & B2 & B3).
    change (p :: rest) with ([p] ++ rest). rewrite !filter_app.
    repeat split; intros; apply subseq_app; auto.
Qed.

(** X4. Whatever the history and however the call ends, the history left
    has as many turns as before, and the turn left at each place has the
    role it had; its parts without inline data are all still there, in
    their order; its parts with inline data are among the ones it had, in
    their order; and each of its parts is a part it had or a new part that
    holds nothing but a text starting with ["[IMAGE-ID "]: the call only
    removes images and adds placeholder texts. *)
Theorem turn_keeps_role_and_order (older newer : list Content) (c : Content) :
  length (fst (modify_image_data_in_history (older ++ c :: newer)))
  = length (older ++ c :: newer)
  /\ exists c',
       nth_error (fst (modify_image_data_in_history (older ++ c :: newer)))
                 (length older) = Some c'
       /\ role c' = role c
       /\ match parts c, parts c' with
          | Some ps, Some ps' =>
              subseq (filter no_inline ps) ps'
              /\ subseq (filter has_inline ps') (filter has_inline ps)
              /\ (forall q, In q ps' ->
                    In q ps
                    \/ exists t, q = text_part (lit "[IMAGE-ID " ++ t))
          | None, None => True
          | _, _ => False
          end.
Proof.
  change modify_image_data_in_history with (modify_from 0).
  split; [apply modify_from_length|].
  destruct (modify_from_turn 0 older c newer)
    as (older' & c' & newer' & o & E & L & _ & [->|R] & _).
  - exists c. rewrite E. cbn [fst]. split; [now apply nth_error_middle|].
    split; [reflexivity|]. destruct (parts c) as [ps|]; [|exact I].
    split; [|split; [apply subseq_refl|now left]].
    induction ps as [|p ps IH]; [constructor|]. cbn [filter].
    destruct (no_inline p); constructor; exact IH.
  - destruct R as (ps & out & _ & P & C & ->).
    exists (set_parts c out). rewrite E. cbn [fst].
    split; [now apply nth_error_middle|]. split; [reflexivity|].
    rewrite P. cbn [parts set_parts].
    destruct (compact_order _ ps out C) as (H1 & H2 & _).
    split; [exact H1|]. split; [exact H2|].
    intros q Q.
    destruct (compact_origin _ ps out q C Q) as [K|(p & blob & b & _ & _ & _ & ->)];
      [now left|right].
    exists (image_hash_id b ++ lit "]"). reflexivity.
Qed.

(** ** Where the call stops when it raises *)

(** X5. When the callback raises, it raises on the most recent turn that is
    not [turn_ok]: the turns after it have been rewritten as by a call on
    them alone, that turn and all turns before it are as they were, and the
    turn is a user turn whose part list is empty ([IndexError]) or absent,
    or holds an image without payload that no placeholder follows
    ([TypeError]). *)
Theorem raise_leaves_older_turns (h : list Content) (e : exn) :
  snd (modify_image_data_in_history h) = Raised e ->
  exists older c newer newer',
    h = older ++ c :: newer
    /\ modify_image_data_in_history newer = (newer', Returned)
    /\ fst (modify_image_data_in_history h) = older ++ c :: newer'
    /\ blamed c e.
Proof.
  unfold modify_image_data_in_history. intros R.
  pose proof (contents_loop_raised (rev h) 0 e) as K.
  destruct (contents_loop 0 (rev h)) as [visited o]. cbn [fst snd] in *.
  destruct (K R) as (newer & c & older & newer' & E & N & -> & B).
  exists (rev older), c, (rev newer), (rev newer').
  rewrite rev_involutive, N.
  split; [|split; [reflexivity|split; [|exact B]]].
  - rewrite <- (rev_involutive h), E, rev_app_distr. cbn [rev].
    now rewrite <- app_assoc.
  - rewrite rev_app_distr. cbn [rev]. now rewrite <- app_assoc.
Qed.

Lemma raise_leaves_older_turns_witness :
  snd (modify_image_data_in_history [U1; user_turn []; U2]) = Raised IndexError
  /\ exists older c newer newer',
       [U1; user_turn []; U2] = older ++ c :: newer
       /\ modify_image_data_in_history newer = (newer', Returned)
       /\ fst (modify_image_data_in_history [U1; user_turn []; U2])
          = older ++ c :: newer'
       /\ blamed c IndexError.
Proof.
  assert (snd (modify_image_data_in_history [U1; user_turn []; U2])
          = Raised IndexError) as R by (vm_compute; reflexivity).
  split; [exact R|].
  exact (raise_leaves_older_turns [U1; user_turn []; U2] IndexError R).
Defined.

(** * Further properties of the sanitizer *)

Lemma lstrip_split (s : str) :
  exists w, s = w ++ lstrip s /\ forallb isspace w = true.
Proof.
  induction s as [|c s (w & E & W)]; [now exists []|].
  cbn [lstrip]. destruct (isspace c) eqn:C.
  - exists (c :: w). cbn [app forallb]. now rewrite C, W, <- E.
  - now exists [].
Qed.

Lemma lstrip_hd (s : str) :
  match hd_error (lstrip s) with
  | Some c => isspace c = false
  | None => True
  end.
Proof.
  induction s as [|c s IH]; [exact I|]. cbn [lstrip].
  destruct (isspace c) eqn:C; [exact IH|exact C].
Qed.

Lemma lstrip_clean (s : str) :
  match hd_error s with Some c => isspace c = false | None => True end ->
  lstrip s = s.
Proof. destruct s as [|c s]; [reflexivity|]. cbn. now intros ->. Qed.

Lemma lstrip_spaces (w s : str) :
  forallb isspace w = true -> lstrip (w ++ s) = lstrip s.
Proof.
  induction w as [|c w IH]; [reflexivity|]. cbn [forallb app lstrip].
  intros H. apply andb_true_iff in H as [-> H]. auto.
Qed.

(** A stripped string is a stretch of the string. *)
Lemma strip_split (s : str) : exists w1 w2, s = w1 ++ strip s ++ w2.
Proof.
  unfold strip, rstrip.
  destruct (lstrip_split s) as (w1 & E1 & _).
  destruct (lstrip_split (rev (lstrip s))) as (w2 & E2 & _).
  exists w1, (rev w2). rewrite <- rev_app_distr, <- E2, rev_involutive.
  exact E1.
Qed.

Lemma strip_trimmed (s : str) : trimmed (strip s).
Proof.
  unfold trimmed, strip, rstrip. rewrite rev_involutive.
  split; [|apply lstrip_hd].
  destruct (lstrip_split (rev (lstrip s))) as (w & E & _).
  pose proof (lstrip_hd s) as H.
  destruct (lstrip (rev (lstrip s))) as [|c u] eqn:U; [exact I|].
  apply (f_equal (@rev char)) in E.
  rewrite rev_involutive, rev_app_distr in E. rewrite E in H.
  destruct (rev (c :: u)) as [|d v] eqn:R; [exact I|]. exact H.
Qed.

(** X6. Whatever the sanitizer returns neither starts nor ends with white
    space. *)
Theorem sanitize_result_trimmed (s r : str) :
  sanitize_image_id s = Ok r -> trimmed r.
Proof.
  unfold sanitize_image_id.
  destruct (startswith s (lit "[IMAGE-")).
  - destruct (nth_error (split s (lit "ID ")) 1) as [after|]; [|discriminate].
    destruct (nth_error (split after (lit "]")) 0) as [inner|]; [|discriminate].
    intros E. inversion E. apply strip_trimmed.
  - intros E. inversion E. apply strip_trimmed.
Qed.

Lemma sanitize_result_trimmed_witness :
  sanitize_image_id (lit "[IMAGE-ID   ca978112ca1b  ] ") = Ok (lit "ca978112ca1b")
  /\ trimmed (lit "ca978112ca1b").
Proof.
  assert (sanitize_image_id (lit "[IMAGE-ID   ca978112ca1b  ] ")
          = Ok (lit "ca978112ca1b")) as E by (vm_compute; reflexivity).
  split; [exact E|]. exact (sanitize_result_trimmed _ _ E).
Defined.

(** X7. White space before the wrapper keeps the sanitizer from removing
    it: the wrapped id comes back with its brackets. *)
Theorem sanitize_keeps_wrapper_after_space (w id : str) :
  w <> [] -> forallb isspace w = true ->
  sanitize_image_id (w ++ lit "[IMAGE-ID " ++ id ++ lit "]")
  = Ok (lit "[IMAGE-ID " ++ id ++ lit "]").
Proof.
  intros N W. unfold sanitize_image_id.
  destruct w as [|c w]; [contradiction|]. cbn [forallb] in W.
  apply andb_true_iff in W as [C W].
  assert (startswith ((c :: w) ++ lit "[IMAGE-ID " ++ id ++ lit "]")
                     (lit "[IMAGE-") = false) as ->.
  { cbn. destruct (N.eqb_spec c 91) as [->|]; [discriminate C|reflexivity]. }
  f_equal. unfold strip.
  rewrite (lstrip_spaces (c :: w)) by (cbn [forallb]; now rewrite C, W).
  rewrite (lstrip_clean (lit "[IMAGE-ID " ++ id ++ lit "]")) by reflexivity.
  unfold rstrip. rewrite lstrip_clean, rev_involutive; [reflexivity|].
  rewrite app_assoc, rev_app_distr. reflexivity.
Qed.

Lemma sanitize_keeps_wrapper_after_space_witness :
  lit " " <> []
  /\ forallb isspace (lit " ") = true
  /\ sanitize_image_id (lit " " ++ lit "[IMAGE-ID " ++ lit "ca978112ca1b" ++ lit "]")
     = Ok (lit "[IMAGE-ID " ++ lit "ca978112ca1b" ++ lit "]").
Proof.
  assert (lit " " <> []) as N by discriminate.
  split; [exact N|]. split; [reflexivity|].
  exact (sanitize_keeps_wrapper_after_space (lit " ") (lit "ca978112ca1b")
           N eq_refl).
Defined.

Lemma contains_app_l (sub x y : str) : contains sub x -> contains sub (x ++ y).
Proof.
  intros (a & b & ->). exists a, (b ++ y). now rewrite <- !app_assoc.
Qed.

Lemma contains_inside (sub w1 x w2 : str) :
  contains sub x -> contains sub (w1 ++ x ++ w2).
Proof.
  intros (a & b & ->). exists (w1 ++ a), (b ++ w2). now rewrite <- !app_assoc.
Qed.

Lemma occurs_app_l (sub x y : str) :
  occurs sub (x ++ y) = false -> occurs sub x = false.
Proof.
  intros H. destruct (occurs sub x) eqn:E; [|reflexivity].
  apply occurs_spec, (contains_app_l sub x y), occurs_spec in E. congruence.
Qed.

Lemma startswith_app_l (a b p : str) :
  startswith a p = true -> startswith (a ++ b) p = true.
Proof.
  rewrite !startswith_spec. intros [t ->]. exists (t ++ b).
  now rewrite app_assoc.
Qed.

(** The pieces of a split: the first one continues [cur] with a stretch of
    the string, and no piece made from the string holds the separator. *)
Lemma split_from_pieces (sep : str) :
  sep <> [] ->
  forall s k cur,
    exists x y rest,
      split_from sep s k cur = (rev cur ++ x) :: rest
      /\ skipn k s = x ++ y
      /\ occurs sep x = false
      /\ Forall (fun piece => occurs sep piece = false) rest.
Proof.
  intros N.
  assert (occurs sep [] = false) as O by (destruct sep; [contradiction|reflexivity]).
  induction s as [|c s IH]; intros k cur.
  - exists [], [], []. cbn [split_from]. rewrite app_nil_r.
    repeat split; auto. now destruct k.
  - cbn [split_from]. destruct k as [|k].
    + destruct (startswith (c :: s) sep) eqn:S.
      * destruct (IH (length sep - 1) []) as (x & y & rest & E & _ & X & R).
        exists [], (c :: s), ((rev [] ++ x) :: rest). rewrite E, app_nil_r.
        repeat split; auto.
      * destruct (IH 0 (c :: cur)) as (x & y & rest & E & K & X & R).
        exists (c :: x), y, rest. rewrite E. cbn [rev skipn] in *.
        rewrite <- app_assoc. repeat split; auto.
        -- now rewrite K.
        -- rewrite occurs_cons, X, orb_false_r.
           destruct (startswith (c :: x) sep) eqn:S'; [|reflexivity].
           apply (startswith_app_l _ y) in S'. cbn [app] in S'.
           rewrite <- K in S'. congruence.
    + destruct (IH k cur) as (x & y & rest & E & K & X & R).
      exists x, y, rest. repeat split; auto.
Qed.

Lemma split_pieces (s sep : str) :
  sep <> [] ->
  Forall (fun piece => occurs sep piece = false) (split s sep)
  /\ exists x y, hd_error (split s sep) = Some x /\ s = x ++ y.
Proof.
  intros N. unfold split.
  destruct (split_from_pieces sep N s 0 []) as (x & y & rest & E & K & X & R).
  rewrite E. cbn in *. split; [now constructor|]. now exists x, y.
Qed.

(** X8. On a string that starts with ["[IMAGE-"], what the sanitizer
    returns holds neither a closing bracket nor the marker ["ID "]. *)
Theorem sanitize_result_has_no_bracket (s r : str) :
  startswith s (lit "[IMAGE-") = true ->
  sanitize_image_id s = Ok r ->
  ~ contains (lit "]") r /\ ~ contains (lit "ID ") r.
Proof.
  intros S. unfold sanitize_image_id. rewrite S.
  destruct (nth_error (split s (lit "ID ")) 1) as [after|] eqn:A; [|discriminate].
  destruct (nth_error (split after (lit "]")) 0) as [inner|] eqn:B; [|discriminate].
  intros E. inversion E; subst r. clear E.
  destruct (split_pieces s (lit "ID ") ltac:(discriminate)) as [F1 _].
  destruct (split_pieces after (lit "]") ltac:(discriminate))
    as [F2 (x & y & Hx & Hy)].
  rewrite Forall_forall in F1, F2.
  pose proof (F1 after (nth_error_In _ _ A)) as O1.
  pose proof (F2 inner (nth_error_In _ _ B)) as O2.
  assert (x = inner) as ->.
  { destruct (split after (lit "]")); cbn in *; congruence. }
  rewrite Hy in O1. apply occurs_app_l in O1.
  destruct (strip_split inner) as (w1 & w2 & W).
  split; intros C; apply (contains_inside _ w1 _ w2) in C; rewrite <- W in C;
    apply occurs_spec in C; congruence.
Qed.

Lemma sanitize_result_has_no_bracket_witness :
  startswith (lit "[IMAGE-ID aID b]]") (lit "[IMAGE-") = true
  /\ sanitize_image_id (lit "[IMAGE-ID aID b]]") = Ok (lit "a")
  /\ ~ contains (lit "]") (lit "a") /\ ~ contains (lit "ID ") (lit "a").
Proof.
  assert (sanitize_image_id (lit "[IMAGE-ID aID b]]") = Ok (lit "a")) as E
    by (vm_compute; reflexivity).
  split; [reflexivity|]. split; [exact E|].
  exact (sanitize_result_has_no_bracket (lit "[IMAGE-ID aID b]]") (lit "a")
           eq_refl E).
Defined.

(** * Properties of the tools *)

(** ** Image ids on their way to the store *)

(** The placeholder the callback writes is sanitized to the hash id. *)
Lemma sanitize_hash_id (b : bytes) :
  sanitize_image_id (image_hash_id b) = Ok (image_hash_id b)
  /\ sanitize_image_id (placeholder_of (image_hash_id b)) = Ok (image_hash_id b).
Proof.
  destruct (image_hash_id_form b) as [L F].
  destruct (lower_hex_string (image_hash_id b) 0%N F) as [S _].
  assert (forall x, In x (image_hash_id b) -> x <> 91%N /\ x <> 93%N /\ x <> 73%N)
    as K by (intros x; apply (lower_hex_string _ x F)).
  split; unfold sanitize_image_id.
  - assert (startswith (image_hash_id b) (lit "[IMAGE-") = false) as ->.
    { destruct (image_hash_id b) as [|c id]; [discriminate L|].
      destruct (K c (or_introl eq_refl)) as (K1 & _).
      apply N.eqb_neq in K1. cbn. now rewrite K1. }
    now rewrite (strip_clean _ S).
  - unfold placeholder_of, placeholder_prefix.
    assert (startswith (lit "[IMAGE-ID " ++ image_hash_id b ++ lit "]")
                       (lit "[IMAGE-") = true) as -> by reflexivity.
    assert (split (lit "[IMAGE-ID " ++ image_hash_id b ++ lit "]") (lit "ID ")
            = lit "[IMAGE-"
              :: split_from (lit "ID ") (image_hash_id b ++ lit "]") 0 [])
      as -> by reflexivity.
    cbn [nth_error].
    assert (occurs (lit "ID ") (image_hash_id b ++ lit "]") = false) as O.
    { apply (occurs_snoc 93%N (lit "ID ")); [discriminate| |].
      - vm_compute. intuition discriminate.
      - apply not_contains_occurs. intros C.
        apply (contains_In _ _ 73%N) in C; [|now left].
        destruct (K _ C) as (_ & _ & K3). now apply K3. }
    rewrite (split_from_absent _ _ [] O). cbn [rev app]. unfold split.
    match goal with
    | |- context [split_from ?sep ?x ?k ?cur] =>
        replace (split_from sep x k cur)
          with ((rev [] ++ image_hash_id b) :: split_from [93%N] [] 0 [])
          by (symmetry; apply (split_from_char 93%N (image_hash_id b) [] []);
              intros C; destruct (K _ C) as (_ & K2 & _); now apply K2)
    end.
    cbn [nth_error rev app]. now rewrite (strip_clean _ S).
Qed.

Section ToolFacts.

Variable float : Type.
Variable float_str : float -> str.
Variable container_str : value float -> str.
Variable json_dumps : value float -> str.
Variable repr_str : str -> str.
Variable join_error : value float -> str.


(** X9. Given as [image_id] the hash id of an image or the placeholder the
    callback wrote for it, [analyze_form_and_store] and [log_meal_data]
    each issue one [add], of a document whose ["image_id"] is the hash id. *)
Theorem placeholder_stored_as_hash_id (b : bytes) (image_id : str) :
  image_id = image_hash_id b \/ image_id = placeholder_of (image_hash_id b) ->
  (forall exercise_name main_feedback correction_tips now_iso add_raises,
     exists doc,
       fst (analyze_form_and_store float repr_str join_error image_id
              exercise_name main_feedback correction_tips now_iso add_raises)
       = [{| w_collection := FORM_FEEDBACK; w_doc := doc |}]
       /\ dict_get doc (lit "image_id") = Some (VStr (image_hash_id b)))
  /\ (forall meal_type calories protein_g carbs_g fat_g description log_time
             now_iso add_raises,
        exists doc,
          fst (log_meal_data float float_str meal_type calories protein_g carbs_g fat_g description
                 (Some image_id) log_time now_iso add_raises)
          = [{| w_collection := MEAL_LOGS; w_doc := doc |}]
          /\ dict_get doc (lit "image_id")
             = Some (VStr (image_hash_id b))).
Proof.
  intros H.
  assert (sanitize_image_id image_id = Ok (image_hash_id b)) as S
    by (destruct H as [-> | ->]; apply sanitize_hash_id).
  assert (truthy (Some image_id) = true) as T.
  { destruct (image_hash_id_form b) as [L _].
    destruct H as [-> | ->]; [|reflexivity].
    now destruct (image_hash_id b). }
  split; intros.
  - unfold analyze_form_and_store. rewrite S. unfold add_then. cbn [fst].
    eexists. split; reflexivity.
  - unfold log_meal_data. rewrite T, S. cbn [on_ok]. unfold add_then.
    cbn [fst]. eexists. split; reflexivity.
Qed.

(** X10. Given an [image_id] that starts with ["[IMAGE-"] and has no
    ["ID "], the two tools issue no [add] and raise
    [Exception("... list index out of range")]. *)
Theorem unmarked_wrapper_stores_nothing (image_id : str) :
  startswith image_id (lit "[IMAGE-") = true ->
  ~ contains (lit "ID ") image_id ->
  (forall exercise_name main_feedback correction_tips now_iso add_raises,
     analyze_form_and_store float repr_str join_error image_id exercise_name
       main_feedback correction_tips now_iso add_raises
     = ([], Raises (lit "Failed to store form analysis: list index out of range")))
  /\ (forall meal_type calories protein_g carbs_g fat_g description log_time
             now_iso add_raises,
        log_meal_data float float_str meal_type calories protein_g carbs_g fat_g description
          (Some image_id) log_time now_iso add_raises
        = ([], Raises (lit "Failed to log meal data: list index out of range"))).
Proof.
  intros S M.
  assert (sanitize_image_id image_id = Raise IndexError) as E.
  { unfold sanitize_image_id, split. rewrite S.
    now rewrite (split_from_absent _ _ [] (not_contains_occurs _ _ M)). }
  assert (truthy (Some image_id) = true) as T
    by (destruct image_id; [discriminate S|reflexivity]).
  split; intros.
  - unfold analyze_form_and_store. now rewrite E.
  - unfold log_meal_data. now rewrite T, E.
Qed.

(** ** Workout plans *)

Lemma valid_exercise_line (ex : value float) :
  valid_exercise ex = true ->
  exists line, exercise_line float float_str container_str ex = Success line.
Proof.
  destruct ex; try discriminate. unfold valid_exercise, dict_has, exercise_line.
  destruct (dict_get entries (lit "name")); [|discriminate].
  destruct (dict_get entries (lit "sets")); [|discriminate].
  eauto.
Qed.

Lemma valid_exercise_lines (exercises : list (value float)) :
  forallb (valid_exercise) exercises = true ->
  exists lines,
    exercise_lines float float_str container_str exercises = Success lines
    /\ length lines = length exercises.
Proof.
  induction exercises as [|ex rest IH]; [now exists []|].
  cbn [forallb exercise_lines]. intros H. apply andb_true_iff in H as [H1 H2].
  destruct (valid_exercise_line ex H1) as [line ->].
  destruct (IH H2) as (lines & -> & L).
  exists (line :: lines). cbn [length]. now rewrite L.
Qed.

(** X11. [create_workout_plan] adds a document exactly when every exercise
    is a dict with the keys ['name'] and ['sets']. Otherwise it issues no
    [add] and raises the format error, as an [Exception]. Once the exercises
    are accepted, the document holds them as given, the summary names every
    exercise, and the only failure left is the store's. *)
Theorem workout_plan_added_iff_valid (name goal : str) (duration_min : Z)
    (exercises : list (value float)) (now_iso : str) (add_raises : option str) :
  (forallb (valid_exercise) exercises = false ->
   create_workout_plan float float_str container_str repr_str name goal duration_min exercises now_iso add_raises
   = ([], Raises (lit "Failed to create workout plan: Invalid exercises format. Must be a list of dicts with 'name' and 'sets'.")))
  /\ (forallb (valid_exercise) exercises = true ->
      exists doc lines,
        fst (create_workout_plan float float_str container_str repr_str name goal duration_min exercises now_iso add_raises)
        = [{| w_collection := WORKOUT_PLANS; w_doc := doc |}]
        /\ dict_get doc (lit "exercises") = Some (VList exercises)
        /\ exercise_lines float float_str container_str exercises = Success lines
        /\ length lines = length exercises
        /\ snd (create_workout_plan float float_str container_str repr_str name goal duration_min exercises now_iso add_raises)
           = match add_raises with
             | Some msg => Raises (lit "Failed to create workout plan: " ++ msg)
             | None =>
                 Returns (lit "Workout Plan '" ++ name
                          ++ lit "' successfully created and saved! Goal: "
                          ++ goal ++ lit ". Key exercises: "
                          ++ join (lit ", ") lines ++ lit ".")
             end).
Proof.
  unfold create_workout_plan. split; intros H; rewrite H; cbn [negb].
  - reflexivity.
  - destruct (valid_exercise_lines exercises H) as (lines & E & L).
    rewrite E. unfold add_then. cbn [fst snd].
    eexists _, lines. repeat split; auto.
Qed.

(** ** Documents written and documents listed *)

Lemma strings_of_strings (l : list str) :
  strings_of (map (@VStr float) l) = Some l.
Proof.
  induction l as [|x l IH]; [reflexivity|]. cbn [map strings_of]. now rewrite IH.
Qed.

(** What [log_meal_data] passes to the store: nothing, or one document
    with the keys of [MEAL_LOG_FORMAT]. *)
Lemma meal_writes meal_type calories protein_g carbs_g fat_g description
    image_id log_time now_iso add_raises :
  fst (log_meal_data float float_str meal_type calories protein_g carbs_g
         fat_g description image_id log_time now_iso add_raises) = []
  \/ exists id time,
       fst (log_meal_data float float_str meal_type calories protein_g carbs_g
              fat_g description image_id log_time now_iso add_raises)
       = [{| w_collection := MEAL_LOGS;
             w_doc := [ (lit "meal_type", VStr meal_type);
                        (lit "calories", VInt calories);
                        (lit "protein_g", VFloat protein_g);
                        (lit "carbs_g", VFloat carbs_g);
                        (lit "fat_g", VFloat fat_g);
                        (lit "description", VStr description);
                        (lit "image_id", id);
                        (lit "log_time", VStr time);
                        (lit "user_id", VStr (lit "default_user")) ] |}].
Proof.
  unfold log_meal_data.
  match goal with
  | |- context [match ?x with Ok _ => _ | Raise _ => _ end] =>
      destruct x as [id|[|]]
  end; [right|left; reflexivity..].
  unfold add_then. cbn [fst]. eauto.
Qed.

Lemma render_meal meal_type calories protein_g carbs_g fat_g description
    (id : value float) time :
  render float float_str container_str json_dumps join_error
    (lit "meal") MEAL_LOG_FORMAT
    [ (lit "meal_type", VStr meal_type);
      (lit "calories", VInt calories);
      (lit "protein_g", VFloat protein_g);
      (lit "carbs_g", VFloat carbs_g);
      (lit "fat_g", VFloat fat_g);
      (lit "description", VStr description);
      (lit "image_id", id);
      (lit "log_time", VStr time);
      (lit "user_id", VStr (lit "default_user")) ]
  = Success ((lit "
Date: " ++ time ++ lit "
Meal: " ++ meal_type ++ lit "
Total Calories: " ++ str_of_int calories ++ lit " kcal
Protein: " ++ float_str protein_g ++ lit "g | Carbs: " ++ float_str carbs_g
     ++ lit "g | Fat: " ++ float_str fat_g ++ lit "g
Details: " ++ description ++ lit "
") ++ lit "
---
").
Proof. vm_compute. reflexivity. Qed.

Lemma workout_writes name goal duration_min exercises now_iso add_raises :
  fst (create_workout_plan float float_str container_str repr_str
         name goal duration_min exercises now_iso add_raises) = []
  \/ fst (create_workout_plan float float_str container_str repr_str
            name goal duration_min exercises now_iso add_raises)
     = [{| w_collection := WORKOUT_PLANS;
           w_doc := [ (lit "name", VStr name);
                      (lit "goal", VStr goal);
                      (lit "duration_min", VInt duration_min);
                      (lit "exercises", VList exercises);
                      (lit "creation_time", VStr (utc_timestamp now_iso));
                      (lit "user_id", VStr (lit "default_user")) ] |}].
Proof.
  unfold create_workout_plan.
  destruct (negb (forallb valid_exercise exercises)); [now left|now right].
Qed.

Lemma feedback_writes image_id exercise_name main_feedback correction_tips
    now_iso add_raises :
  fst (analyze_form_and_store float repr_str join_error image_id exercise_name
         main_feedback correction_tips now_iso add_raises) = []
  \/ exists id,
       fst (analyze_form_and_store float repr_str join_error image_id
              exercise_name main_feedback correction_tips now_iso add_raises)
       = [{| w_collection := FORM_FEEDBACK;
             w_doc := [ (lit "image_id", VStr id);
                        (lit "exercise_name", VStr exercise_name);
                        (lit "main_feedback", VStr main_feedback);
                        (lit "correction_tips", correction_tips);
                        (lit "analysis_time", VStr (utc_timestamp now_iso));
                        (lit "user_id", VStr (lit "default_user")) ] |}].
Proof.
  unfold analyze_form_and_store.
  destruct (sanitize_image_id image_id) as [id|[|]];
    [right; now exists id|now left..].
Qed.

(** When [analyze_form_and_store] returns, the store has let it add the
    document and its own join of the tips has not failed. *)
Lemma feedback_returns image_id exercise_name main_feedback correction_tips
    now_iso add_raises ws msg :
  analyze_form_and_store float repr_str join_error image_id exercise_name
    main_feedback correction_tips now_iso add_raises = (ws, Returns msg) ->
  exists id joined,
    join_value float join_error correction_tips = Success joined
    /\ ws = [{| w_collection := FORM_FEEDBACK;
                w_doc := [ (lit "image_id", VStr id);
                           (lit "exercise_name", VStr exercise_name);
                           (lit "main_feedback", VStr main_feedback);
                           (lit "correction_tips", correction_tips);
                           (lit "analysis_time", VStr (utc_timestamp now_iso));
                           (lit "user_id", VStr (lit "default_user")) ] |}].
Proof.
  unfold analyze_form_and_store.
  destruct (sanitize_image_id image_id) as [id|[|]]; try discriminate.
  unfold add_then. destruct add_raises; [discriminate|].
  destruct (join_value float join_error correction_tips) as [joined| |];
    try discriminate.
  intros E. inversion E. now exists id, joined.
Qed.

Lemma render_workout name goal duration_min (exercises : list (value float)) time :
  render float float_str container_str json_dumps join_error
    (lit "workout") WORKOUT_PLAN_FORMAT
    [ (lit "name", VStr name);
      (lit "goal", VStr goal);
      (lit "duration_min", VInt duration_min);
      (lit "exercises", VList exercises);
      (lit "creation_time", VStr time);
      (lit "user_id", VStr (lit "default_user")) ]
  = Success ((lit "
Date: " ++ time ++ lit "
Goal: " ++ goal ++ lit "
Duration: " ++ str_of_int duration_min ++ lit " minutes
Workout: " ++ name ++ lit "
Exercises: " ++ json_dumps (VList exercises) ++ lit "
") ++ lit "
---
").
Proof. vm_compute. reflexivity. Qed.

Lemma render_feedback (id exercise_name main_feedback : str)
    (correction_tips : value float) (joined : str) time :
  join_value float join_error correction_tips = Success joined ->
  render float float_str container_str json_dumps join_error
    (lit "feedback") FEEDBACK_FORMAT
    [ (lit "image_id", VStr id);
      (lit "exercise_name", VStr exercise_name);
      (lit "main_feedback", VStr main_feedback);
      (lit "correction_tips", correction_tips);
      (lit "analysis_time", VStr time);
      (lit "user_id", VStr (lit "default_user")) ]
  = Success ((lit "
Feedback Time: " ++ time ++ lit "
Exercise: " ++ exercise_name ++ lit "
Feedback: " ++ main_feedback ++ lit "
Tips: " ++ joined) ++ lit "
---
").
Proof.
  intros J. unfold render.
  change (dict_get _ (lit "exercises")) with (@None (value float)).
  cbv iota beta zeta.
  change (dict_get _ (lit "correction_tips")) with (Some correction_tips).
  change (Str.eqb (lit "feedback") (lit "feedback")) with true.
  cbv iota beta zeta. rewrite J.
  cbn. rewrite app_nil_r. reflexivity.
Qed.

(** With tips that cannot be joined, the document is not rendered. *)
Lemma render_feedback_fails (id exercise_name main_feedback : str)
    (correction_tips : value float) (e : py_error) time :
  join_value float join_error correction_tips = Error e ->
  render float float_str container_str json_dumps join_error
    (lit "feedback") FEEDBACK_FORMAT
    [ (lit "image_id", VStr id);
      (lit "exercise_name", VStr exercise_name);
      (lit "main_feedback", VStr main_feedback);
      (lit "correction_tips", correction_tips);
      (lit "analysis_time", VStr time);
      (lit "user_id", VStr (lit "default_user")) ]
  = Error e.
Proof.
  intros J. unfold render.
  change (dict_get _ (lit "exercises")) with (@None (value float)).
  cbv iota beta zeta.
  change (dict_get _ (lit "correction_tips")) with (Some correction_tips).
  change (Str.eqb (lit "feedback") (lit "feedback")) with true.
  cbv iota beta zeta. now rewrite J.
Qed.

(** What the meal and workout tools add is rendered, whatever the call. *)
Lemma render_written (c : collection) (d : dict float) :
  written_into float float_str container_str repr_str join_error c d ->
  c <> FORM_FEEDBACK ->
  exists text,
    render float float_str container_str json_dumps join_error
      (log_type_of c) (format_of c) d = Success text.
Proof.
  intros [H|[H|H]] N.
  - destruct H as (meal_type & calories & protein_g & carbs_g & fat_g
                   & description & image_id & log_time & now_iso & add_raises & H).
    destruct (meal_writes meal_type calories protein_g carbs_g fat_g description
                image_id log_time now_iso add_raises) as [E|(id & time & E)];
      rewrite E in H; [contradiction|].
    destruct H as [H|[]]. inversion H; subst. eexists. apply render_meal.
  - destruct H as (name & goal & duration_min & exercises & now_iso
                   & add_raises & H).
    destruct (workout_writes name goal duration_min exercises now_iso add_raises)
      as [E|E]; rewrite E in H; [contradiction|].
    destruct H as [H|[]]. inversion H; subst. eexists. apply render_workout.
  - destruct H as (image_id & exercise_name & main_feedback & correction_tips
                   & now_iso & add_raises & H).
    destruct (feedback_writes image_id exercise_name main_feedback
                correction_tips now_iso add_raises) as [E|(id & E)];
      rewrite E in H; [contradiction|].
    destruct H as [H|[]]. inversion H; subst. now contradiction N.
Qed.

Lemma render_all_written (c : collection) (docs : list (dict float)) :
  (forall d, In d docs ->
             written_into float float_str container_str repr_str join_error c d) ->
  c <> FORM_FEEDBACK ->
  forall description,
    exists text,
      render_all float float_str container_str json_dumps join_error
        (log_type_of c) (format_of c) docs description = Success text.
Proof.
  induction docs as [|d docs IH]; intros W N description; [now eexists|].
  cbn [render_all].
  destruct (render_written c d (W d (or_introl eq_refl)) N) as [text ->].
  apply IH; [|exact N]. intros d' I. apply W. now right.
Qed.

(** What a tool added in a call that returned is rendered. *)
Lemma render_returned (c : collection) (d : dict float) :
  added_and_returned float float_str container_str repr_str join_error c d ->
  exists text,
    render float float_str container_str json_dumps join_error
      (log_type_of c) (format_of c) d = Success text.
Proof.
  intros [H|[H|H]].
  - destruct H as (meal_type & calories & protein_g & carbs_g & fat_g
                   & description & image_id & log_time & now_iso & add_raises
                   & msg & H).
    apply (f_equal fst) in H. cbn [fst] in H.
    destruct (meal_writes meal_type calories protein_g carbs_g fat_g description
                image_id log_time now_iso add_raises) as [E|(id & time & E)];
      rewrite E in H; [discriminate H|].
    inversion H; subst. eexists. apply render_meal.
  - destruct H as (name & goal & duration_min & exercises & now_iso
                   & add_raises & msg & H).
    apply (f_equal fst) in H. cbn [fst] in H.
    destruct (workout_writes name goal duration_min exercises now_iso add_raises)
      as [E|E]; rewrite E in H; [discriminate H|].
    inversion H; subst. eexists. apply render_workout.
  - destruct H as (image_id & exercise_name & main_feedback & correction_tips
                   & now_iso & add_raises & msg & H).
    destruct (feedback_returns _ _ _ _ _ _ _ _ H) as (id & joined & J & E).
    inversion E; subst. eexists. apply render_feedback. exact J.
Qed.

Lemma render_all_returned (c : collection) (docs : list (dict float)) :
  (forall d, In d docs ->
             added_and_returned float float_str container_str repr_str
               join_error c d) ->
  forall description,
    exists text,
      render_all float float_str container_str json_dumps join_error
        (log_type_of c) (format_of c) docs description = Success text.
Proof.
  induction docs as [|d docs IH]; intros W description; [now eexists|].
  cbn [render_all].
  destruct (render_returned c d (W d (or_introl eq_refl))) as [text ->].
  apply IH. intros d' I. apply W. now right.
Qed.

(** X12. What the tools report as stored can be listed: [get_user_logs],
    asked for the type of a collection, issues one query on it and returns
    (it raises neither the [KeyError] of a missing field nor the
    [TypeError] of tips that cannot be joined) whenever the query streams
    documents that [log_meal_data], [create_workout_plan] or
    [analyze_form_and_store] passed to [add] on that collection in calls
    that returned, whatever the arguments of those calls. *)
Theorem written_documents_are_listed (c : collection)
    (docs : list (dict float)) (start_date end_date : str) (limit : Z) :
  (forall d, In d docs ->
             added_and_returned float float_str container_str repr_str
               join_error c d) ->
  exists text,
    get_user_logs float float_str container_str json_dumps repr_str join_error
      start_date end_date (log_type_of c) limit (inr docs)
    = ([{| q_collection := c;
           q_field := match c with
                      | MEAL_LOGS => lit "log_time"
                      | WORKOUT_PLANS => lit "creation_time"
                      | FORM_FEEDBACK => lit "analysis_time"
                      end;
           q_from := start_date ++ lit "T00:00:00.000000Z";
           q_to := end_date ++ lit "T23:59:59.999999Z";
           q_limit := limit |}],
       Returns text).
Proof.
  intros W. unfold get_user_logs.
  pose proof (render_all_returned c docs W) as R.
  destruct c; cbn [log_type_of format_of] in *.
  - change (Str.eqb (lit "meal") (lit "meal")) with true. cbv iota.
    destruct (R (lit "**User " ++ upper (lit "meal") ++ lit " Logs ("
                 ++ start_date ++ lit " to " ++ end_date ++ lit "):**
")) as [text ->].
    destruct docs; eauto.
  - change (Str.eqb (lit "workout") (lit "meal")) with false.
    change (Str.eqb (lit "workout") (lit "workout")) with true. cbv iota.
    destruct (R (lit "**User " ++ upper (lit "workout") ++ lit " Logs ("
                 ++ start_date ++ lit " to " ++ end_date ++ lit "):**
")) as [text ->].
    destruct docs; eauto.
  - change (Str.eqb (lit "feedback") (lit "meal")) with false.
    change (Str.eqb (lit "feedback") (lit "workout")) with false.
    change (Str.eqb (lit "feedback") (lit "feedback")) with true. cbv iota.
    destruct (R (lit "**User " ++ upper (lit "feedback") ++ lit " Logs ("
                 ++ start_date ++ lit " to " ++ end_date ++ lit "):**
")) as [text ->].
    destruct docs; eauto.
Qed.

Lemma render_all_app (log_type format_str : str) (before after : list (dict float)) :
  forall description,
    render_all float float_str container_str json_dumps join_error
      log_type format_str (before ++ after) description
    = match render_all float float_str container_str json_dumps join_error
              log_type format_str before description with
      | Success text =>
          render_all float float_str container_str json_dumps join_error
            log_type format_str after text
      | Error e => Error e
      | Unsupported => Unsupported
      end.
Proof.
  induction before as [|d before IH]; intros description; [reflexivity|].
  cbn [app render_all].
  destruct (render float float_str container_str json_dumps join_error
              log_type format_str d); auto.
Qed.

(** X13. One document without the key ["log_time"] among the meal logs
    streamed makes the whole listing fail: [get_user_logs] raises
    [Exception("Error retrieving logs: " + repr("log_time"))], whatever the
    documents before it and after it hold. *)
Theorem unreadable_document_fails_listing (before after : list (dict float))
    (d : dict float) (start_date end_date : str) (limit : Z) :
  (forall x, In x before ->
             written_into float float_str container_str repr_str join_error
               MEAL_LOGS x) ->
  dict_get d (lit "log_time") = None ->
  snd (get_user_logs float float_str container_str json_dumps repr_str join_error
         start_date end_date (lit "meal") limit (inr (before ++ d :: after)))
  = Raises (lit "Error retrieving logs: " ++ repr_str (lit "log_time")).
Proof.
  intros W K. unfold get_user_logs.
  change (Str.eqb (lit "meal") (lit "meal")) with true. cbv iota. cbn [snd].
  rewrite render_all_app.
  destruct (render_all_written MEAL_LOGS before W ltac:(discriminate)
              (lit "**User " ++ upper (lit "meal") ++ lit " Logs ("
               ++ start_date ++ lit " to " ++ end_date ++ lit "):**
")) as [text R].
  cbn [log_type_of format_of] in R. rewrite R. cbn [render_all].
  assert (render float float_str container_str json_dumps join_error
            (lit "meal") MEAL_LOG_FORMAT d = Error (EKeyError (lit "log_time")))
    as ->.
  { unfold render.
    change (Str.eqb (lit "meal") (lit "workout")) with false.
    change (Str.eqb (lit "meal") (lit "feedback")) with false.
    assert (format float float_str container_str MEAL_LOG_FORMAT d
            = Error (EKeyError (lit "log_time"))) as F.
    { unfold format. cbn -[dict_get].
      match goal with
      | |- context [dict_get d ?k] =>
          change (dict_get d k) with (dict_get d (lit "log_time"))
      end.
      now rewrite K. }
    destruct (dict_get d (lit "exercises"));
      destruct (dict_get d (lit "correction_tips")); now rewrite F. }
  reflexivity.
Qed.

(** ** A document logged, then listed *)

(** X15. A meal that [log_meal_data] has passed to the store, streamed back
    alone, is listed by [get_user_logs] under the header of the meal logs
    with the stored log time, the meal type, the calories, the three
    macronutrients and the description it was logged with; the image id and
    the user id are not shown. *)
Theorem logged_meal_is_listed (meal_type : str) (calories : Z)
    (protein_g carbs_g fat_g : float) (description : str)
    (image_id log_time : option str) (now_iso : str) (add_raises : option str)
    (doc : dict float) (start_date end_date : str) (limit : Z) :
  In {| w_collection := MEAL_LOGS; w_doc := doc |}
     (fst (log_meal_data float float_str meal_type calories protein_g carbs_g
             fat_g description image_id log_time now_iso add_raises)) ->
  exists time,
    dict_get doc (lit "log_time") = Some (VStr time)
    /\ snd (get_user_logs float float_str container_str json_dumps repr_str
              join_error start_date end_date (lit "meal") limit (inr [doc]))
       = Returns ((lit "**User MEAL Logs (" ++ start_date ++ lit " to "
                   ++ end_date ++ lit "):**
") ++ (lit "
Date: " ++ time ++ lit "
Meal: " ++ meal_type ++ lit "
Total Calories: " ++ str_of_int calories ++ lit " kcal
Protein: " ++ float_str protein_g ++ lit "g | Carbs: " ++ float_str carbs_g
     ++ lit "g | Fat: " ++ float_str fat_g ++ lit "g
Details: " ++ description ++ lit "
") ++ lit "
---
").
Proof.
  intros I.
  destruct (meal_writes meal_type calories protein_g carbs_g fat_g description
              image_id log_time now_iso add_raises) as [E|(id & time & E)];
    rewrite E in I; [contradiction|].
  destruct I as [I|[]]. inversion I; subst doc. clear I E.
  exists time. split; [reflexivity|].
  unfold get_user_logs.
  change (Str.eqb (lit "meal") (lit "meal")) with true. cbv iota.
  cbn [snd render_all]. rewrite render_meal. reflexivity.
Qed.

Lemma join_value_strings (l : list str) :
  join_value float join_error (VList (map (@VStr float) l))
  = Success (join (lit ", ") l).
Proof. unfold join_value. now rewrite strings_of_strings. Qed.

(** X16. A form analysis that [analyze_form_and_store] has passed to the
    store with a list of strings as tips, streamed back alone, is listed
    with the stored analysis time, the exercise name, the feedback, and the
    tips joined by [", "] as in the reply of the tool that stored them. *)
Theorem stored_feedback_is_listed (image_id exercise_name main_feedback : str)
    (correction_tips : list str) (now_iso : str) (add_raises : option str)
    (doc : dict float) (start_date end_date : str) (limit : Z) :
  In {| w_collection := FORM_FEEDBACK; w_doc := doc |}
     (fst (analyze_form_and_store float repr_str join_error image_id
             exercise_name main_feedback (VList (map VStr correction_tips))
             now_iso add_raises)) ->
  exists time,
    dict_get doc (lit "analysis_time") = Some (VStr time)
    /\ snd (get_user_logs float float_str container_str json_dumps repr_str
              join_error start_date end_date (lit "feedback") limit (inr [doc]))
       = Returns ((lit "**User FEEDBACK Logs (" ++ start_date ++ lit " to "
                   ++ end_date ++ lit "):**
") ++ (lit "
Feedback Time: " ++ time ++ lit "
Exercise: " ++ exercise_name ++ lit "
Feedback: " ++ main_feedback ++ lit "
Tips: " ++ join (lit ", ") correction_tips) ++ lit "
---
").
Proof.
  intros I.
  destruct (feedback_writes image_id exercise_name main_feedback
              (VList (map VStr correction_tips)) now_iso add_raises)
    as [E|(id & E)];
    rewrite E in I; [contradiction|].
  destruct I as [I|[]]. inversion I; subst doc. clear I E.
  exists (utc_timestamp now_iso). split; [reflexivity|].
  unfold get_user_logs.
  change (Str.eqb (lit "feedback") (lit "meal")) with false.
  change (Str.eqb (lit "feedback") (lit "workout")) with false.
  change (Str.eqb (lit "feedback") (lit "feedback")) with true. cbv iota.
  cbn [snd render_all].
  rewrite (render_feedback _ _ _ _ _ _ (join_value_strings correction_tips)).
  reflexivity.
Qed.

(** X17. Tips that [", ".join] does not accept (a list with an item that
    is no string, a number, [None]) are stored all the same: with an image
    id the sanitizer accepts and a store that takes the document,
    [analyze_form_and_store] adds the document and only then raises, with
    the text of the join's exception; and whenever the query streams that
    document, after documents of calls that returned and before any others,
    [get_user_logs] raises with the same text and lists nothing. *)
Theorem unjoinable_tips_are_stored (image_id exercise_name main_feedback : str)
    (correction_tips : value float) (e : py_error) (id now_iso : str)
    (before after : list (dict float)) (start_date end_date : str)
    (limit : Z) :
  sanitize_image_id image_id = Ok id ->
  join_value float join_error correction_tips = Error e ->
  (forall x, In x before ->
             added_and_returned float float_str container_str repr_str
               join_error FORM_FEEDBACK x) ->
  exists doc,
    analyze_form_and_store float repr_str join_error image_id exercise_name
      main_feedback correction_tips now_iso None
    = ([{| w_collection := FORM_FEEDBACK; w_doc := doc |}],
       Raises (lit "Failed to store form analysis: "
               ++ error_str repr_str e))
    /\ dict_get doc (lit "correction_tips") = Some correction_tips
    /\ snd (get_user_logs float float_str container_str json_dumps repr_str
              join_error start_date end_date (lit "feedback") limit
              (inr (before ++ doc :: after)))
       = Raises (lit "Error retrieving logs: " ++ error_str repr_str e).
Proof.
  intros S J W. eexists. split; [|split].
  - unfold analyze_form_and_store. rewrite S. unfold add_then. rewrite J.
    reflexivity.
  - reflexivity.
  - unfold get_user_logs.
    change (Str.eqb (lit "feedback") (lit "meal")) with false.
    change (Str.eqb (lit "feedback") (lit "workout")) with false.
    change (Str.eqb (lit "feedback") (lit "feedback")) with true. cbv iota.
    cbn [snd]. rewrite render_all_app.
    destruct (render_all_returned FORM_FEEDBACK before W
                (lit "**User " ++ upper (lit "feedback") ++ lit " Logs ("
                 ++ start_date ++ lit " to " ++ end_date ++ lit "):**
")) as [text R].
    cbn [log_type_of format_of] in R. rewrite R. cbn [render_all].
    now rewrite (render_feedback_fails _ _ _ _ _ _ J).
Qed.

(** ** Time stamps *)

Lemma split_from_before_plus (t : str) :
  ~ In 43%N t ->
  forall cur, split_from (lit "+00:00") (t ++ lit "+00:00") 0 cur
              = [rev cur ++ t; []].
Proof.
  induction t as [|c t IH]; intros H cur.
  - cbn. now rewrite app_nil_r.
  - assert (N.eqb c 43 = false) as E
      by (apply N.eqb_neq; intros ->; apply H; now left).
    rewrite <- app_comm_cons.
    change (split_from (lit "+00:00") (c :: t ++ lit "+00:00") 0 cur)
      with (if N.eqb c 43 && startswith (t ++ lit "+00:00") (lit "00:00")
            then rev cur :: split_from (lit "+00:00") (t ++ lit "+00:00") 5 []
            else split_from (lit "+00:00") (t ++ lit "+00:00") 0 (c :: cur)).
    rewrite E. cbn [andb].
    rewrite IH by (intros K; apply H; now right).
    cbn [rev]. now rewrite <- app_assoc.
Qed.

(** X14. When the clock's [isoformat()] reading is [t + "+00:00"] with no
    other ['+'] in it, the time a tool stores is [t + "Z"]: the creation
    time of a workout plan, the analysis time of a form feedback, and the
    log time of a meal logged without a [log_time] of its own. *)
Theorem stored_times_end_in_Z (t : str) (w : write float) :
  ~ In 43%N t ->
  ((exists name goal duration_min exercises add_raises,
      In w (fst (create_workout_plan float float_str container_str repr_str
                   name goal duration_min exercises (t ++ lit "+00:00")
                   add_raises)))
   -> dict_get (w_doc float w) (lit "creation_time") = Some (VStr (t ++ lit "Z")))
  /\ ((exists image_id exercise_name main_feedback correction_tips add_raises,
         In w (fst (analyze_form_and_store float repr_str join_error image_id
                      exercise_name main_feedback correction_tips
                      (t ++ lit "+00:00") add_raises)))
      -> dict_get (w_doc float w) (lit "analysis_time")
         = Some (VStr (t ++ lit "Z")))
  /\ ((exists meal_type calories protein_g carbs_g fat_g description image_id
              log_time add_raises,
         truthy log_time = false
         /\ In w (fst (log_meal_data float float_str meal_type calories
                         protein_g carbs_g fat_g description image_id log_time
                         (t ++ lit "+00:00") add_raises)))
      -> dict_get (w_doc float w) (lit "log_time") = Some (VStr (t ++ lit "Z"))).
Proof.
  intros H.
  assert (utc_timestamp (t ++ lit "+00:00") = t ++ lit "Z") as U.
  { unfold utc_timestamp, replace, split.
    rewrite (split_from_before_plus t H []). cbn [rev app join].
    now rewrite app_nil_r. }
  split; [|split].
  - intros (name & goal & duration_min & exercises & add_raises & I).
    destruct (workout_writes name goal duration_min exercises
                (t ++ lit "+00:00") add_raises) as [E|E];
      rewrite E in I; [contradiction|].
    destruct I as [<-|[]]. rewrite U. reflexivity.
  - intros (image_id & exercise_name & main_feedback & correction_tips
            & add_raises & I).
    destruct (feedback_writes image_id exercise_name main_feedback
                correction_tips (t ++ lit "+00:00") add_raises) as [E|(id & E)];
      rewrite E in I; [contradiction|].
    destruct I as [<-|[]]. rewrite U. reflexivity.
  - intros (meal_type & calories & protein_g & carbs_g & fat_g & description
            & image_id & log_time & add_raises & T & I).
    unfold log_meal_data in I.
    match type of I with
    | context [match ?x with Ok _ => _ | Raise _ => _ end] =>
        destruct x as [id|[|]]
    end; try contradiction.
    unfold add_then in I. cbn [fst] in I. destruct I as [<-|[]].
    cbn [w_doc]. rewrite U.
    destruct log_time as [l|]; [|reflexivity]. rewrite T. reflexivity.
Qed.

End ToolFacts.

(** ** The tool properties on the scenarios *)

Lemma scenario_meal_written :
  In {| w_collection := MEAL_LOGS; w_doc := scenario_meal_doc |}
     (fst (log_meal_data Z str_of_int (lit "Lunch") 520 30%Z 45%Z 20%Z
             (lit "Chicken rice") None
             (Some (lit "2025-01-05T12:30:00.000000Z"))
             (lit "2025-01-06T08:00:00.000000+00:00") None)).
Proof. left. reflexivity. Defined.

Lemma scenario_meal_written_into :
  forall d, In d [scenario_meal_doc] ->
            written_into Z str_of_int scenario_container_str scenario_repr
              scenario_join_error MEAL_LOGS d.
Proof.
  intros d [<-|[]]. left.
  exists (lit "Lunch"), 520%Z, 30%Z, 45%Z, 20%Z, (lit "Chicken rice"), None,
    (Some (lit "2025-01-05T12:30:00.000000Z")),
    (lit "2025-01-06T08:00:00.000000+00:00"), None.
  exact scenario_meal_written.
Defined.

Lemma placeholder_stored_as_hash_id_witness :
  exists doc,
    fst (analyze_form_and_store Z scenario_repr scenario_join_error
           (placeholder_of (image_hash_id (bytes_lit "img3")))
           (lit "Squat") (lit "Good depth") scenario_tips
           (lit "2025-01-06T08:00:00.000000+00:00") None)
    = [{| w_collection := FORM_FEEDBACK; w_doc := doc |}]
    /\ dict_get doc (lit "image_id")
       = Some (VStr (image_hash_id (bytes_lit "img3"))).
Proof.
  exact (proj1 (placeholder_stored_as_hash_id Z str_of_int scenario_repr
                  scenario_join_error (bytes_lit "img3")
                  (placeholder_of (image_hash_id (bytes_lit "img3")))
                  (or_intror eq_refl))
           (lit "Squat") (lit "Good depth") scenario_tips
           (lit "2025-01-06T08:00:00.000000+00:00") None).
Defined.

Lemma unmarked_wrapper_stores_nothing_witness :
  startswith (lit "[IMAGE-abc]") (lit "[IMAGE-") = true
  /\ ~ contains (lit "ID ") (lit "[IMAGE-abc]")
  /\ analyze_form_and_store Z scenario_repr scenario_join_error
       (lit "[IMAGE-abc]") (lit "Squat") (lit "Good depth") scenario_tips
       (lit "2025-01-06T08:00:00.000000+00:00") None
     = ([], Raises (lit "Failed to store form analysis: list index out of range")).
Proof.
  assert (~ contains (lit "ID ") (lit "[IMAGE-abc]")) as M.
  { intros C. apply occurs_spec in C. vm_compute in C. discriminate C. }
  split; [reflexivity|]. split; [exact M|].
  exact (proj1 (unmarked_wrapper_stores_nothing Z str_of_int scenario_repr
                  scenario_join_error (lit "[IMAGE-abc]") eq_refl M)
           (lit "Squat") (lit "Good depth") scenario_tips
           (lit "2025-01-06T08:00:00.000000+00:00") None).
Defined.

Lemma workout_plan_added_iff_valid_witness :
  forallb valid_exercise [scenario_squat; VStr (lit "Plank")] = false
  /\ create_workout_plan Z str_of_int scenario_container_str scenario_repr
       (lit "Leg day") (lit "Strength") 45
       [scenario_squat; VStr (lit "Plank")]
       (lit "2025-01-06T08:00:00.000000+00:00") None
     = ([], Raises (lit "Failed to create workout plan: Invalid exercises format. Must be a list of dicts with 'name' and 'sets'."))
  /\ forallb valid_exercise [scenario_squat] = true
  /\ exists doc lines,
       fst (create_workout_plan Z str_of_int scenario_container_str
              scenario_repr (lit "Leg day") (lit "Strength") 45
              [scenario_squat] (lit "2025-01-06T08:00:00.000000+00:00") None)
       = [{| w_collection := WORKOUT_PLANS; w_doc := doc |}]
       /\ dict_get doc (lit "exercises") = Some (VList [scenario_squat])
       /\ exercise_lines Z str_of_int scenario_container_str [scenario_squat]
          = Success lines
       /\ length lines = length [scenario_squat]
       /\ snd (create_workout_plan Z str_of_int scenario_container_str
                 scenario_repr (lit "Leg day") (lit "Strength") 45
                 [scenario_squat] (lit "2025-01-06T08:00:00.000000+00:00") None)
          = Returns (lit "Workout Plan '" ++ lit "Leg day"
                     ++ lit "' successfully created and saved! Goal: "
                     ++ lit "Strength" ++ lit ". Key exercises: "
                     ++ join (lit ", ") lines ++ lit ".").
Proof.
  split; [reflexivity|]. split.
  - exact (proj1 (workout_plan_added_iff_valid Z str_of_int
                    scenario_container_str scenario_repr
                    (lit "Leg day") (lit "Strength") 45
                    [scenario_squat; VStr (lit "Plank")]
                    (lit "2025-01-06T08:00:00.000000+00:00") None) eq_refl).
  - split; [reflexivity|].
    exact (proj2 (workout_plan_added_iff_valid Z str_of_int
                    scenario_container_str scenario_repr
                    (lit "Leg day") (lit "Strength") 45 [scenario_squat]
                    (lit "2025-01-06T08:00:00.000000+00:00") None) eq_refl).
Defined.

Lemma scenario_feedback_returned :
  forall d, In d [scenario_feedback_doc] ->
            added_and_returned Z str_of_int scenario_container_str
              scenario_repr scenario_join_error FORM_FEEDBACK d.
Proof.
  intros d [<-|[]]. right. right.
  exists (lit "[IMAGE-ID ca978112ca1b]"), (lit "Squat"), (lit "Good depth"),
    scenario_tips, (lit "2025-01-06T08:00:00.000000+00:00"), None.
  eexists. reflexivity.
Defined.

Lemma written_documents_are_listed_witness :
  exists text,
    get_user_logs Z str_of_int scenario_container_str scenario_json_dumps
      scenario_repr scenario_join_error
      (lit "2025-01-01") (lit "2025-01-31") (lit "feedback") 5
      (inr [scenario_feedback_doc])
    = ([{| q_collection := FORM_FEEDBACK;
           q_field := lit "analysis_time";
           q_from := lit "2025-01-01" ++ lit "T00:00:00.000000Z";
           q_to := lit "2025-01-31" ++ lit "T23:59:59.999999Z";
           q_limit := 5 |}],
       Returns text).
Proof.
  exact (written_documents_are_listed Z str_of_int scenario_container_str
           scenario_json_dumps scenario_repr scenario_join_error
           FORM_FEEDBACK [scenario_feedback_doc]
           (lit "2025-01-01") (lit "2025-01-31") 5
           scenario_feedback_returned).
Defined.

Lemma unreadable_document_fails_listing_witness :
  dict_get scenario_untimed_doc (lit "log_time") = None
  /\ snd (get_user_logs Z str_of_int scenario_container_str scenario_json_dumps
            scenario_repr scenario_join_error
            (lit "2025-01-01") (lit "2025-01-31") (lit "meal") 5
            (inr ([scenario_meal_doc] ++ scenario_untimed_doc
                  :: [scenario_meal_doc])))
     = Raises (lit "Error retrieving logs: " ++ scenario_repr (lit "log_time")).
Proof.
  split; [reflexivity|].
  exact (unreadable_document_fails_listing Z str_of_int scenario_container_str
           scenario_json_dumps scenario_repr scenario_join_error
           [scenario_meal_doc] [scenario_meal_doc] scenario_untimed_doc
           (lit "2025-01-01") (lit "2025-01-31") 5
           scenario_meal_written_into eq_refl).
Defined.

Lemma logged_meal_is_listed_witness :
  exists time,
    dict_get scenario_meal_doc (lit "log_time") = Some (VStr time)
    /\ snd (get_user_logs Z str_of_int scenario_container_str
              scenario_json_dumps scenario_repr scenario_join_error
              (lit "2025-01-01") (lit "2025-01-31") (lit "meal") 5
              (inr [scenario_meal_doc]))
       = Returns ((lit "**User MEAL Logs (" ++ lit "2025-01-01" ++ lit " to "
                   ++ lit "2025-01-31" ++ lit "):**
") ++ (lit "
Date: " ++ time ++ lit "
Meal: " ++ lit "Lunch" ++ lit "
Total Calories: " ++ str_of_int 520 ++ lit " kcal
Protein: " ++ str_of_int 30 ++ lit "g | Carbs: " ++ str_of_int 45
     ++ lit "g | Fat: " ++ str_of_int 20 ++ lit "g
Details: " ++ lit "Chicken rice" ++ lit "
") ++ lit "
---
").
Proof.
  exact (logged_meal_is_listed Z str_of_int scenario_container_str
           scenario_json_dumps scenario_repr scenario_join_error
           (lit "Lunch") 520 30%Z 45%Z 20%Z (lit "Chicken rice") None
           (Some (lit "2025-01-05T12:30:00.000000Z"))
           (lit "2025-01-06T08:00:00.000000+00:00") None
           scenario_meal_doc (lit "2025-01-01") (lit "2025-01-31") 5
           scenario_meal_written).
Defined.

Lemma stored_feedback_is_listed_witness :
  exists doc time,
    In {| w_collection := FORM_FEEDBACK; w_doc := doc |}
       (fst (analyze_form_and_store Z scenario_repr scenario_join_error
               (lit "ca978112ca1b") (lit "Squat") (lit "Good depth")
               (VList (map VStr [lit "Brace"; lit "Knees out"]))
               (lit "2025-01-06T08:00:00.000000+00:00") None))
    /\ dict_get doc (lit "analysis_time") = Some (VStr time)
    /\ snd (get_user_logs Z str_of_int scenario_container_str
              scenario_json_dumps scenario_repr scenario_join_error
              (lit "2025-01-01") (lit "2025-01-31") (lit "feedback") 5
              (inr [doc]))
       = Returns ((lit "**User FEEDBACK Logs (" ++ lit "2025-01-01"
                   ++ lit " to " ++ lit "2025-01-31" ++ lit "):**
") ++ (lit "
Feedback Time: " ++ time ++ lit "
Exercise: " ++ lit "Squat" ++ lit "
Feedback: " ++ lit "Good depth" ++ lit "
Tips: " ++ join (lit ", ") [lit "Brace"; lit "Knees out"]) ++ lit "
---
").
Proof.
  eexists.
  assert (In {| w_collection := FORM_FEEDBACK; w_doc := _ |}
             (fst (analyze_form_and_store Z scenario_repr scenario_join_error
                     (lit "ca978112ca1b") (lit "Squat") (lit "Good depth")
                     (VList (map VStr [lit "Brace"; lit "Knees out"]))
                     (lit "2025-01-06T08:00:00.000000+00:00") None))) as I
    by (left; reflexivity).
  destruct (stored_feedback_is_listed Z str_of_int scenario_container_str
              scenario_json_dumps scenario_repr scenario_join_error
              _ _ _ _ _ _ _ (lit "2025-01-01") (lit "2025-01-31") 5 I)
    as (time & T & R).
  exists time. split; [exact I|]. split; [exact T|exact R].
Defined.

Lemma unjoinable_tips_are_stored_witness :
  sanitize_image_id (lit "[IMAGE-ID ca978112ca1b]") = Ok (lit "ca978112ca1b")
  /\ join_value Z scenario_join_error scenario_bad_tips
     = Error (ETypeError (scenario_join_error scenario_bad_tips))
  /\ exists doc,
       analyze_form_and_store Z scenario_repr scenario_join_error
         (lit "[IMAGE-ID ca978112ca1b]") (lit "Squat") (lit "Good depth")
         scenario_bad_tips (lit "2025-01-06T08:00:00.000000+00:00") None
       = ([{| w_collection := FORM_FEEDBACK; w_doc := doc |}],
          Raises (lit "Failed to store form analysis: "
                  ++ error_str scenario_repr
                       (ETypeError (scenario_join_error scenario_bad_tips))))
       /\ dict_get doc (lit "correction_tips") = Some scenario_bad_tips
       /\ snd (get_user_logs Z str_of_int scenario_container_str
                 scenario_json_dumps scenario_repr scenario_join_error
                 (lit "2025-01-01") (lit "2025-01-31") (lit "feedback") 5
                 (inr ([scenario_feedback_doc] ++ doc :: [scenario_feedback_doc])))
          = Raises (lit "Error retrieving logs: "
                    ++ error_str scenario_repr
                         (ETypeError (scenario_join_error scenario_bad_tips))).
Proof.
  split; [vm_compute; reflexivity|]. split; [reflexivity|].
  exact (unjoinable_tips_are_stored Z str_of_int scenario_container_str
           scenario_json_dumps scenario_repr scenario_join_error
           (lit "[IMAGE-ID ca978112ca1b]") (lit "Squat") (lit "Good depth")
           scenario_bad_tips _ (lit "ca978112ca1b")
           (lit "2025-01-06T08:00:00.000000+00:00")
           [scenario_feedback_doc] [scenario_feedback_doc]
           (lit "2025-01-01") (lit "2025-01-31") 5
           eq_refl eq_refl scenario_feedback_returned).
Defined.

Lemma stored_times_end_in_Z_witness :
  ~ In 43%N (lit "2025-01-06T08:00:00.000000")
  /\ dict_get
       [ (lit "name", VStr (lit "Leg day"));
         (lit "goal", VStr (lit "Strength"));
         (lit "duration_min", VInt 45);
         (lit "exercises", VList [scenario_squat]);
         (lit "creation_time", VStr (lit "2025-01-06T08:00:00.000000Z"));
         (lit "user_id", VStr (lit "default_user")) ]
       (lit "creation_time")
     = Some (VStr (lit "2025-01-06T08:00:00.000000" ++ lit "Z")).
Proof.
  assert (~ In 43%N (lit "2025-01-06T08:00:00.000000")) as H.
  { vm_compute. intuition discriminate. }
  split; [exact H|].
  exact (proj1 (stored_times_end_in_Z Z str_of_int scenario_container_str
                  scenario_repr scenario_join_error
                  (lit "2025-01-06T08:00:00.000000")
                  {| w_collection := WORKOUT_PLANS;
                     w_doc := [ (lit "name", VStr (lit "Leg day"));
                                (lit "goal", VStr (lit "Strength"));
                                (lit "duration_min", VInt 45);
                                (lit "exercises", VList [scenario_squat]);
                                (lit "creation_time",
                                 VStr (lit "2025-01-06T08:00:00.000000Z"));
                                (lit "user_id", VStr (lit "default_user")) ] |}
                  H)
           (ex_intro _ (lit "Leg day")
              (ex_intro _ (lit "Strength")
                 (ex_intro _ 45%Z
                    (ex_intro _ [scenario_squat]
                       (ex_intro _ None (or_introl eq_refl))))))).
Defined.
